(** * Meeting analyzer: streaming transcription and progressive summarization

    A shallow embedding of the summarization engine ([summarizer.py],
    [summarizer_2.py]), of the window assembler
    ([audio_processor_faster_whisper.py]) and of the stop callback of
    [streamlit_app_faster_whisper_awais.py], followed by the properties
    proved about them.

    Conventions of the embedding:
    - a Python [int] is a [Z]; a [str] is a [string] (the ASCII fragment of
      Python's text); a [list] is a [list]; a [dict] is an association list
      in insertion order;
    - the mutable object [self] is a record threaded through every method;
    - the completion service and the speech-to-text engine are outside the
      repository: they are scripts of answers, one per call, and every call
      made is recorded in a trace;
    - a Python exception is a value of [Py.exn]; a method that catches all
      its exceptions is a total function. *)

From Stdlib Require Import List String Ascii ZArith QArith Qreduction Qround Lia Bool.
From Stdlib Require Import DecimalString.
Import ListNotations.

Local Open Scope string_scope.
Local Open Scope Z_scope.

(* ===================================================================== *)
(** * Python values and built-ins used by the sources                     *)
(* ===================================================================== *)

Module Py.

(** ** Strings *)

(** [str.isspace] on one ASCII character: tab, line feed, vertical tab,
    form feed, carriage return, the four separators 28..31 and space. *)
Definition is_space (c : ascii) : bool :=
  let n := nat_of_ascii c in
  (((9 <=? n) && (n <=? 13)) || ((28 <=? n) && (n <=? 32)))%nat.

(** [str.split()] without argument: maximal runs of non-space characters.
    [cur] is the word being read. *)
Fixpoint split_from (cur : string) (s : string) : list string :=
  match s with
  | EmptyString =>
      match cur with
      | EmptyString => []
      | _ => [cur]
      end
  | String c rest =>
      if is_space c then
        match cur with
        | EmptyString => split_from EmptyString rest
        | _ => cur :: split_from EmptyString rest
        end
      else split_from (cur ++ String c EmptyString) rest
  end.

Definition split (s : string) : list string := split_from EmptyString s.

(** [len(s.split())] *)
Definition count_words (s : string) : Z := Z.of_nat (List.length (split s)).

(** [str.lower] on ASCII text. *)
Definition lower_ascii (c : ascii) : ascii :=
  let n := nat_of_ascii c in
  if ((65 <=? n) && (n <=? 90))%nat then ascii_of_nat (n + 32) else c.

Fixpoint lower (s : string) : string :=
  match s with
  | EmptyString => EmptyString
  | String c rest => String (lower_ascii c) (lower rest)
  end.

(** [s.startswith(prefix)] *)
Fixpoint starts_with (prefix s : string) : bool :=
  match prefix with
  | EmptyString => true
  | String a prefix' =>
      match s with
      | EmptyString => false
      | String b s' => Ascii.eqb a b && starts_with prefix' s'
      end
  end.

(** [needle in hay] on two strings: substring test. *)
Fixpoint str_in (needle hay : string) : bool :=
  starts_with needle hay
  || match hay with
     | EmptyString => false
     | String _ rest => str_in needle rest
     end.

(** [sep.join(parts)] *)
Fixpoint join (sep : string) (parts : list string) : string :=
  match parts with
  | [] => EmptyString
  | x :: rest =>
      match rest with
      | [] => x
      | _ => x ++ sep ++ join sep rest
      end
  end.

(** [s.lstrip()], [s.rstrip()] and [s.strip()] *)
Fixpoint lstrip (s : string) : string :=
  match s with
  | EmptyString => EmptyString
  | String c rest => if is_space c then lstrip rest else s
  end.

Fixpoint rstrip (s : string) : string :=
  match s with
  | EmptyString => EmptyString
  | String c rest =>
      match rstrip rest with
      | EmptyString => if is_space c then EmptyString else String c EmptyString
      | r => String c r
      end
  end.

Definition strip (s : string) : string := rstrip (lstrip s).

(** [str(n)] and [f"{n}"] for an integer. *)
Definition str_of_int (n : Z) : string := NilZero.string_of_int (Z.to_int n).

Definition nl : string := String (ascii_of_nat 10) EmptyString.

(** ** Lists *)

(** The slice [l[-n:]] for a positive literal [n]. *)
Definition lastn {A : Type} (n : nat) (l : list A) : list A :=
  skipn (List.length l - n) l.

(** [sum(...)] over integers. *)
Definition sum (l : list Z) : Z := fold_right Z.add 0 l.

(** ** JSON values as [json.loads] builds them

    A number without fraction or exponent is an [int]; any other number is
    a [float], kept as its literal since no code here computes with it. *)

#[local] Set Warnings "-register-all".

Inductive json : Type :=
| JNull
| JBool (b : bool)
| JNum (n : Z)
| JFloat (literal : string)
| JStr (s : string)
| JArr (items : list json)
| JObj (kvs : list (string * json)).

(** A [dict] with string keys, in insertion order. *)
Definition dict : Type := list (string * json).

Fixpoint dict_get (k : string) (d : dict) : option json :=
  match d with
  | [] => None
  | (k', v) :: rest => if String.eqb k k' then Some v else dict_get k rest
  end.

(** [k in d] *)
Definition dict_has (k : string) (d : dict) : bool :=
  match dict_get k d with
  | Some _ => true
  | None => false
  end.

(** [d[k] = v]: an existing key keeps its place, a new key goes last. *)
Fixpoint dict_set (k : string) (v : json) (d : dict) : dict :=
  match d with
  | [] => [(k, v)]
  | (k', v') :: rest =>
      if String.eqb k k' then (k', v) :: rest else (k', v') :: dict_set k v rest
  end.

(** ** Exceptions *)

(** The exceptions the interpreter raises on the operations below, each
    with its message. *)
Inductive exn : Type :=
| TypeError (msg : string)
| AttributeError (msg : string)
| KeyError (msg : string).

(** [str(e)] *)
Definition str_of_exn (e : exn) : string :=
  match e with
  | TypeError msg => msg
  | AttributeError msg => msg
  | KeyError msg => msg
  end.

Inductive result (A : Type) : Type :=
| Ok (a : A)
| Raise (e : exn).
Arguments Ok {A} a.
Arguments Raise {A} e.

Definition bind {A B : Type} (r : result A) (k : A -> result B) : result B :=
  match r with
  | Ok a => k a
  | Raise e => Raise e
  end.

(** Name of a value's type, as the interpreter prints it in a [TypeError]. *)
Definition type_name (v : json) : string :=
  match v with
  | JNull => "NoneType"
  | JBool _ => "bool"
  | JNum _ => "int"
  | JFloat _ => "float"
  | JStr _ => "str"
  | JArr _ => "list"
  | JObj _ => "dict"
  end.

Definition is_str (key : string) (v : json) : bool :=
  match v with
  | JStr s => String.eqb s key
  | _ => false
  end.

(** [key in v] for a string [key]: key lookup on a dict, membership on a
    list, substring on a string; the other values are not containers. *)
Definition contains (key : string) (v : json) : result bool :=
  match v with
  | JObj d => Ok (dict_has key d)
  | JArr items => Ok (existsb (is_str key) items)
  | JStr s => Ok (str_in key s)
  | _ => Raise (TypeError ("argument of type '" ++ type_name v ++ "' is not iterable"))
  end.

(** [v[key] = x] for a string [key]: only a dict accepts it. *)
Definition setitem (key : string) (x : json) (v : json) : result json :=
  match v with
  | JObj d => Ok (JObj (dict_set key x d))
  | JArr _ => Raise (TypeError "list indices must be integers or slices, not str")
  | _ => Raise (TypeError ("'" ++ type_name v ++ "' object does not support item assignment"))
  end.

(** [v[key]] for a string [key]. *)
Definition getitem (key : string) (v : json) : result json :=
  match v with
  | JObj d =>
      match dict_get key d with
      | Some x => Ok x
      | None => Raise (KeyError ("'" ++ key ++ "'"))
      end
  | JArr _ => Raise (TypeError "list indices must be integers or slices, not str")
  | JStr _ => Raise (TypeError "string indices must be integers, not 'str'")
  | _ => Raise (TypeError ("'" ++ type_name v ++ "' object is not subscriptable"))
  end.

(** The characters of a string, each as a string of length one. *)
Fixpoint chars (s : string) : list json :=
  match s with
  | EmptyString => []
  | String c rest => JStr (String c EmptyString) :: chars rest
  end.

(** [for x in v]: the items of a list, the characters of a string, the
    keys of a dict. *)
Definition iterate (v : json) : result (list json) :=
  match v with
  | JArr items => Ok items
  | JStr s => Ok (chars s)
  | JObj d => Ok (map (fun kv => JStr (fst kv)) d)
  | _ => Raise (TypeError ("'" ++ type_name v ++ "' object is not iterable"))
  end.

(** [v.lower()]: only a string has the method. *)
Definition lower_of (v : json) : result string :=
  match v with
  | JStr s => Ok (lower s)
  | _ => Raise (AttributeError ("'" ++ type_name v ++ "' object has no attribute 'lower'"))
  end.

End Py.

Notation "x <- r ;; k" := (Py.bind r (fun x => k))
  (at level 61, r at next level, right associativity).

(* ===================================================================== *)
(** * The completion service (OpenAI-compatible client of the Grok API)   *)
(* ===================================================================== *)

Module Grok.

(** Which system instruction a request carries: the analysis prompt
    [SYSTEM_PROMPT], the same prompt with the final-summary addendum, or
    the two-to-three-sentence summarization instruction. *)
Inductive instruction : Type :=
| Analyse
| Finalise
| Summarise.

(** One call of [client.chat.completions.create]. *)
Record request : Type := mkRequest {
  system : instruction;
  user : string;
  max_tokens : Z;
  json_object : bool
}.

(** What a call, together with reading [response.choices[0].message.content],
    comes to: an exception with its [str(e)], or the content. *)
Inductive completion : Type :=
| ApiError (msg : string)
| Content (text : string).

(** The service seen from one run: the answers it will give, in order, and
    the requests made so far. *)
Record world : Type := mkWorld {
  answers : nat -> completion;
  calls : list request
}.

Definition create (req : request) (w : world) : completion * world :=
  (answers w 0%nat,
   {| answers := fun n => answers w (S n); calls := (calls w ++ [req])%list |}).

Definition same_instruction (a b : instruction) : bool :=
  match a, b with
  | Analyse, Analyse | Finalise, Finalise | Summarise, Summarise => true
  | _, _ => false
  end.

(** How many requests made so far carry the instruction [i]. *)
Definition passes (i : instruction) (w : world) : nat :=
  List.length (filter (fun r => same_instruction (system r) i) (calls w)).

(** Outcome of [json.loads] on a string. *)
Inductive loads_result : Type :=
| Decoded (v : Py.json)
| JSONDecodeError (msg : string).

End Grok.

(* ===================================================================== *)
(** * Code the two summarizers have in common, word for word             *)
(* ===================================================================== *)

Module Common.
Import Py.

(** The trimming loop of [_create_rolling_summary]:
    [while total_summary_words > MAX_PRIOR_SUMMARY_WORDS:
       removed = self.rolling_summaries.pop(0)
       total_summary_words -= len(removed.split())].
    On an empty list [pop(0)] raises [IndexError], which the enclosing
    handler swallows with the list left empty: the list is [[]] either way. *)
Fixpoint trim_summaries (ceiling : Z) (summaries : list string)
  (total_summary_words : Z) : list string :=
  match summaries with
  | [] => []
  | removed :: rest =>
      if ceiling <? total_summary_words
      then trim_summaries ceiling rest (total_summary_words - count_words removed)
      else summaries
  end.

(** [f"\n{label} {i+1}:\n{summary}" for i, summary in enumerate(summaries)],
    counting from [i]. *)
Fixpoint numbered (label : string) (i : Z) (summaries : list string) : list string :=
  match summaries with
  | [] => []
  | summary :: rest =>
      (nl ++ label ++ " " ++ str_of_int (i + 1) ++ ":" ++ nl ++ summary)
        :: numbered label (i + 1) rest
  end.

(** The validation loop of [_analyze_current_state] and
    [get_final_summary], where [default] gives the value written for a
    missing key:
    [for key in required_keys:
       if key not in analysis: analysis[key] = default(key)] *)
Fixpoint fill_required (default : string -> json) (keys : list string)
  (analysis : json) : result json :=
  match keys with
  | [] => Ok analysis
  | key :: rest =>
      match contains key analysis with
      | Raise e => Raise e
      | Ok true => fill_required default rest analysis
      | Ok false =>
          match setitem key (default key) analysis with
          | Raise e => Raise e
          | Ok analysis' => fill_required default rest analysis'
          end
      end
  end.

End Common.

(* ===================================================================== *)
(** * summarizer.py                                                       *)
(* ===================================================================== *)

Module Summarizer.
Import Py Grok Common.

Definition WORDS_PER_ANALYSIS : Z := 50.
Definition WORDS_PER_ROLLING_SUMMARY : Z := 300.
Definition MAX_PRIOR_SUMMARY_WORDS : Z := 1000.

(** The fields of [MeetingSummarizer] the methods read or write (the
    client is the [world], [start_time] is the origin of [elapsed]). *)
Record MeetingSummarizer : Type := mkSummarizer {
  full_transcript : list string;
  word_count : Z;
  last_analysis_word_count : Z;
  rolling_summaries : list string;
  last_summary_word_count : Z;
  latest_analysis : option json
}.

Definition __init__ : MeetingSummarizer :=
  {| full_transcript := [];
     word_count := 0;
     last_analysis_word_count := 0;
     rolling_summaries := [];
     last_summary_word_count := 0;
     latest_analysis := None |}.

Definition set_rolling_summaries (l : list string) (self : MeetingSummarizer) :=
  {| full_transcript := full_transcript self;
     word_count := word_count self;
     last_analysis_word_count := last_analysis_word_count self;
     rolling_summaries := l;
     last_summary_word_count := last_summary_word_count self;
     latest_analysis := latest_analysis self |}.

Definition set_last_summary_word_count (n : Z) (self : MeetingSummarizer) :=
  {| full_transcript := full_transcript self;
     word_count := word_count self;
     last_analysis_word_count := last_analysis_word_count self;
     rolling_summaries := rolling_summaries self;
     last_summary_word_count := n;
     latest_analysis := latest_analysis self |}.

Definition set_last_analysis_word_count (n : Z) (self : MeetingSummarizer) :=
  {| full_transcript := full_transcript self;
     word_count := word_count self;
     last_analysis_word_count := n;
     rolling_summaries := rolling_summaries self;
     last_summary_word_count := last_summary_word_count self;
     latest_analysis := latest_analysis self |}.

Definition set_latest_analysis (a : option json) (self : MeetingSummarizer) :=
  {| full_transcript := full_transcript self;
     word_count := word_count self;
     last_analysis_word_count := last_analysis_word_count self;
     rolling_summaries := rolling_summaries self;
     last_summary_word_count := last_summary_word_count self;
     latest_analysis := a |}.

(** [self.full_transcript.append(text); self.word_count += len(text.split())] *)
Definition ingest (text : string) (self : MeetingSummarizer) :=
  {| full_transcript := (full_transcript self ++ [text])%list;
     word_count := word_count self + count_words text;
     last_analysis_word_count := last_analysis_word_count self;
     rolling_summaries := rolling_summaries self;
     last_summary_word_count := last_summary_word_count self;
     latest_analysis := latest_analysis self |}.

Definition _get_error_response (error_msg : string) : json :=
  JObj [("summary", JStr ("Error: " ++ error_msg));
        ("action_items", JArr []);
        ("it_insights", JArr []);
        ("key_decisions", JArr [])].

Definition _create_rolling_summary (self : MeetingSummarizer) (w : world)
  : MeetingSummarizer * world :=
  let recent_text := join " " (lastn 5 (full_transcript self)) in
  let '(response, w') :=
    create {| system := Summarise; user := recent_text;
              max_tokens := 200; json_object := false |} w in
  match response with
  | Content summary =>
      let summaries := (rolling_summaries self ++ [summary])%list in
      let total_summary_words := sum (map count_words summaries) in
      (set_rolling_summaries
         (trim_summaries MAX_PRIOR_SUMMARY_WORDS summaries total_summary_words) self,
       w')
  | ApiError _ => (self, w')
  end.

(** [elapsed] is [(datetime.now() - self.start_time).seconds] as read by
    this call. *)
Definition _build_context (elapsed : Z) (self : MeetingSummarizer) : string :=
  let duration := elapsed / 60 in
  let metadata :=
    "MEETING METADATA:" ++ nl ++
    "- Duration: " ++ str_of_int duration ++ " minutes" ++ nl ++
    "- Total words: " ++ str_of_int (word_count self) ++ nl in
  let summaries :=
    match rolling_summaries self with
    | [] => []
    | _ => (nl ++ "--- PREVIOUS DISCUSSION (SUMMARIES) ---")
             :: numbered "Summary" 0 (rolling_summaries self)
    end in
  let recent_segments := lastn 3 (full_transcript self) in
  let recent :=
    match recent_segments with
    | [] => []
    | _ => [nl ++ "--- RECENT TRANSCRIPT ---"; join " " recent_segments]
    end in
  join nl (metadata :: summaries ++ recent)%list.

Definition required_keys : list string :=
  ["summary"; "action_items"; "it_insights"; "key_decisions"].

Definition default_value (key : string) : json :=
  if String.eqb key "summary" then JStr "No summary available" else JArr [].

Section WithJson.

(** [json.loads], from the standard library. *)
Variable json_loads : string -> loads_result.

Definition _analyze_current_state (elapsed : Z) (self : MeetingSummarizer) (w : world)
  : json * MeetingSummarizer * world :=
  let words_since_last_summary := word_count self - last_summary_word_count self in
  let '(self1, w1) :=
    if WORDS_PER_ROLLING_SUMMARY <=? words_since_last_summary then
      let '(s, w') := _create_rolling_summary self w in
      (set_last_summary_word_count (word_count s) s, w')
    else (self, w) in
  let context := _build_context elapsed self1 in
  let '(response, w2) :=
    create {| system := Analyse; user := context;
              max_tokens := 1000; json_object := true |} w1 in
  match response with
  | ApiError msg => (_get_error_response msg, self1, w2)
  | Content response_text =>
      match json_loads response_text with
      | JSONDecodeError _ =>
          (_get_error_response "Invalid JSON response from API", self1, w2)
      | Decoded parsed =>
          match fill_required default_value required_keys parsed with
          | Ok analysis => (analysis, set_latest_analysis (Some analysis) self1, w2)
          | Raise e => (_get_error_response (str_of_exn e), self1, w2)
          end
      end
  end.

Definition add_transcript (text : string) (elapsed : Z)
  (self : MeetingSummarizer) (w : world)
  : option json * MeetingSummarizer * world :=
  let self1 := ingest text self in
  let words_since_last_analysis := word_count self1 - last_analysis_word_count self1 in
  if WORDS_PER_ANALYSIS <=? words_since_last_analysis then
    let '(analysis, self2, w') := _analyze_current_state elapsed self1 w in
    (Some analysis, set_last_analysis_word_count (word_count self2) self2, w')
  else (None, self1, w).

Definition get_final_summary (elapsed : Z) (self : MeetingSummarizer) (w : world)
  : json * world :=
  let header :=
    "MEETING COMPLETED" ++ nl ++
    "Duration: " ++ str_of_int (elapsed / 60) ++ " minutes" ++ nl ++
    "Total words: " ++ str_of_int (word_count self) ++ nl in
  let summaries :=
    match rolling_summaries self with
    | [] => []
    | _ => (nl ++ "--- MEETING PROGRESSION (SUMMARIES) ---")
             :: numbered "Phase" 0 (rolling_summaries self)
    end in
  let full_text := join " " (full_transcript self) in
  let words := split full_text in
  let transcript :=
    if 1000 <? Z.of_nat (List.length words)
    then [nl ++ "--- RECENT TRANSCRIPT (LAST 1000 WORDS) ---";
          join " " (lastn 1000 words)]
    else [nl ++ "--- FULL TRANSCRIPT ---"; full_text] in
  let context := join nl (header :: summaries ++ transcript)%list in
  let '(response, w') :=
    create {| system := Finalise; user := context;
              max_tokens := 2000; json_object := true |} w in
  match response with
  | ApiError msg => (_get_error_response msg, w')
  | Content response_text =>
      match json_loads response_text with
      | JSONDecodeError msg => (_get_error_response msg, w')
      | Decoded parsed =>
          match fill_required default_value required_keys parsed with
          | Ok analysis => (analysis, w')
          | Raise e => (_get_error_response (str_of_exn e), w')
          end
      end
  end.

(** A session: [add_transcript] on each segment in turn, each paired with
    the clock reading of its call. Returns what each call returned. *)
Fixpoint run (segments : list (string * Z)) (self : MeetingSummarizer) (w : world)
  : list (option json) * MeetingSummarizer * world :=
  match segments with
  | [] => ([], self, w)
  | (text, elapsed) :: rest =>
      let '(r, self1, w1) := add_transcript text elapsed self w in
      let '(rs, self2, w2) := run rest self1 w1 in
      (r :: rs, self2, w2)
  end.

End WithJson.

(** [get_stats]; [elapsed] is the clock reading of the call. *)
Definition get_stats (elapsed : Z) (self : MeetingSummarizer) : json :=
  JObj [("duration_minutes", JNum (elapsed / 60));
        ("word_count", JNum (word_count self));
        ("summary_count", JNum (Z.of_nat (List.length (rolling_summaries self))));
        ("transcript_segments", JNum (Z.of_nat (List.length (full_transcript self))))].

End Summarizer.

(* ===================================================================== *)
(** * summarizer_2.py (the IT-focused summarizer)                         *)
(* ===================================================================== *)

Module Summarizer2.
Import Py Grok Common.

Definition WORDS_PER_ANALYSIS : Z := 50.
Definition WORDS_PER_ROLLING_SUMMARY : Z := 300.
Definition MAX_PRIOR_SUMMARY_WORDS : Z := 1000.

(** [previous_issues] and [previous_recommendations] are declared
    [List[str]] in the source. *)
Record MeetingSummarizer : Type := mkSummarizer {
  full_transcript : list string;
  word_count : Z;
  last_analysis_word_count : Z;
  rolling_summaries : list string;
  last_summary_word_count : Z;
  previous_issues : list string;
  previous_recommendations : list string;
  latest_analysis : option json
}.

Definition __init__ : MeetingSummarizer :=
  {| full_transcript := [];
     word_count := 0;
     last_analysis_word_count := 0;
     rolling_summaries := [];
     last_summary_word_count := 0;
     previous_issues := [];
     previous_recommendations := [];
     latest_analysis := None |}.

Definition set_rolling_summaries (l : list string) (self : MeetingSummarizer) :=
  {| full_transcript := full_transcript self;
     word_count := word_count self;
     last_analysis_word_count := last_analysis_word_count self;
     rolling_summaries := l;
     last_summary_word_count := last_summary_word_count self;
     previous_issues := previous_issues self;
     previous_recommendations := previous_recommendations self;
     latest_analysis := latest_analysis self |}.

Definition set_last_summary_word_count (n : Z) (self : MeetingSummarizer) :=
  {| full_transcript := full_transcript self;
     word_count := word_count self;
     last_analysis_word_count := last_analysis_word_count self;
     rolling_summaries := rolling_summaries self;
     last_summary_word_count := n;
     previous_issues := previous_issues self;
     previous_recommendations := previous_recommendations self;
     latest_analysis := latest_analysis self |}.

Definition set_last_analysis_word_count (n : Z) (self : MeetingSummarizer) :=
  {| full_transcript := full_transcript self;
     word_count := word_count self;
     last_analysis_word_count := n;
     rolling_summaries := rolling_summaries self;
     last_summary_word_count := last_summary_word_count self;
     previous_issues := previous_issues self;
     previous_recommendations := previous_recommendations self;
     latest_analysis := latest_analysis self |}.

Definition set_latest_analysis (a : option json) (self : MeetingSummarizer) :=
  {| full_transcript := full_transcript self;
     word_count := word_count self;
     last_analysis_word_count := last_analysis_word_count self;
     rolling_summaries := rolling_summaries self;
     last_summary_word_count := last_summary_word_count self;
     previous_issues := previous_issues self;
     previous_recommendations := previous_recommendations self;
     latest_analysis := a |}.

(** [self.previous_issues.extend(issues);
     self.previous_recommendations.extend(recommendations)] *)
Definition extend_history (issues recommendations : list string)
  (self : MeetingSummarizer) :=
  {| full_transcript := full_transcript self;
     word_count := word_count self;
     last_analysis_word_count := last_analysis_word_count self;
     rolling_summaries := rolling_summaries self;
     last_summary_word_count := last_summary_word_count self;
     previous_issues := (previous_issues self ++ issues)%list;
     previous_recommendations := (previous_recommendations self ++ recommendations)%list;
     latest_analysis := latest_analysis self |}.

Definition ingest (text : string) (self : MeetingSummarizer) :=
  {| full_transcript := (full_transcript self ++ [text])%list;
     word_count := word_count self + count_words text;
     last_analysis_word_count := last_analysis_word_count self;
     rolling_summaries := rolling_summaries self;
     last_summary_word_count := last_summary_word_count self;
     previous_issues := previous_issues self;
     previous_recommendations := previous_recommendations self;
     latest_analysis := latest_analysis self |}.

Definition _get_error_response (error_msg : string) : json :=
  JObj [("technical_analysis", JStr ("Error: " ++ error_msg));
        ("potential_issues", JArr []);
        ("recommendations", JArr []);
        ("clarifying_questions", JArr []);
        ("action_items", JArr [])].

(** The loop of [is_duplicate] over [previous_items[-10:]]. *)
Fixpoint any_similar (new_lower : string) (previous : list string) : bool :=
  match previous with
  | [] => false
  | prev :: rest =>
      let prev_lower := lower prev in
      if str_in new_lower prev_lower || str_in prev_lower new_lower
      then true
      else any_similar new_lower rest
  end.

(** [new_item.lower()] comes first: a value that is not a string has no
    such method and the call raises [AttributeError]. *)
Definition is_duplicate (new_item : json) (previous_items : list string) : result bool :=
  new_lower <- lower_of new_item ;;
  Ok (any_similar new_lower (lastn 10 previous_items)).

(** [[item for item in items if not is_duplicate(item, previous)]] *)
Fixpoint keep_new (items : list json) (previous : list string) : result (list json) :=
  match items with
  | [] => Ok []
  | item :: rest =>
      duplicate <- is_duplicate item previous ;;
      kept <- keep_new rest previous ;;
      Ok (if duplicate then kept else item :: kept)
  end.

(** [if key in analysis:
       analysis[key] = [x for x in analysis[key] if not is_duplicate(x, previous)]] *)
Definition deduplicate_key (key : string) (previous : list string) (analysis : json)
  : result json :=
  present <- contains key analysis ;;
  if present then
    value <- getitem key analysis ;;
    items <- iterate value ;;
    kept <- keep_new items previous ;;
    setitem key (JArr kept) analysis
  else Ok analysis.

Definition _deduplicate_analysis (self : MeetingSummarizer) (analysis : json)
  : result json :=
  analysis1 <- deduplicate_key "potential_issues" (previous_issues self) analysis ;;
  deduplicate_key "recommendations" (previous_recommendations self) analysis1.

Definition _create_rolling_summary (self : MeetingSummarizer) (w : world)
  : MeetingSummarizer * world :=
  let recent_text := join " " (lastn 5 (full_transcript self)) in
  let '(response, w') :=
    create {| system := Summarise; user := recent_text;
              max_tokens := 200; json_object := false |} w in
  match response with
  | Content summary =>
      let summaries := (rolling_summaries self ++ [summary])%list in
      let total_summary_words := sum (map count_words summaries) in
      (set_rolling_summaries
         (trim_summaries MAX_PRIOR_SUMMARY_WORDS summaries total_summary_words) self,
       w')
  | ApiError _ => (self, w')
  end.

Definition _build_context (elapsed : Z) (self : MeetingSummarizer) : string :=
  let duration := elapsed / 60 in
  let metadata :=
    "MEETING METADATA:" ++ nl ++
    "- Duration: " ++ str_of_int duration ++ " minutes" ++ nl ++
    "- Total words: " ++ str_of_int (word_count self) ++ nl ++
    "- Type: IT Technical Discussion" ++ nl in
  let issues :=
    match previous_issues self with
    | [] => []
    | _ => [nl ++ "--- PREVIOUSLY IDENTIFIED ISSUES (DON'T REPEAT) ---" ++ nl ++
            join nl (map (fun issue => "- " ++ issue) (lastn 5 (previous_issues self)))]
    end in
  let summaries :=
    match rolling_summaries self with
    | [] => []
    | _ => (nl ++ "--- PREVIOUS DISCUSSION (SUMMARIES) ---")
             :: numbered "Phase" 0 (rolling_summaries self)
    end in
  let recent_segments := lastn 3 (full_transcript self) in
  let recent :=
    match recent_segments with
    | [] => []
    | _ => [nl ++ "--- CURRENT DISCUSSION ---"; join " " recent_segments]
    end in
  join nl (metadata :: issues ++ summaries ++ recent)%list.

Definition required_keys : list string :=
  ["technical_analysis"; "potential_issues"; "recommendations";
   "clarifying_questions"; "action_items"].

(** The two validation loops differ in the default text only:
    [_analyze_current_state] writes "No technical discussion detected yet",
    [get_final_summary] writes "No technical analysis available". *)
Definition default_value (text : string) (key : string) : json :=
  if String.eqb key "technical_analysis" then JStr text else JArr [].

(** The strings of a list value. It reads [analysis.get(key, [])] where the
    value is either the default [[]] or the list [keep_new] built, whose
    items are all strings. *)
Fixpoint strings (items : list json) : list string :=
  match items with
  | [] => []
  | JStr s :: rest => s :: strings rest
  | _ :: rest => strings rest
  end.

(** [analysis.get(key, [])], then iteration over the value (by [extend]). *)
Definition get_items (key : string) (analysis : json) : result (list json) :=
  match analysis with
  | JObj d =>
      match dict_get key d with
      | Some value => iterate value
      | None => Ok []
      end
  | _ => Raise (AttributeError ("'" ++ type_name analysis ++ "' object has no attribute 'get'"))
  end.

Section WithJson.

Variable json_loads : string -> loads_result.

(** The body of the [try] block of [_analyze_current_state] from
    [json.loads] on: the analysis to return and the state it leaves, or the
    exception with the state as it is when the exception is raised. *)
Definition analyze_parsed (parsed : json) (self : MeetingSummarizer)
  : result json * MeetingSummarizer :=
  match (analysis <- _deduplicate_analysis self parsed ;;
         fill_required (default_value "No technical discussion detected yet")
           required_keys analysis) with
  | Raise e => (Raise e, self)
  | Ok analysis =>
      let self1 := set_latest_analysis (Some analysis) self in
      match get_items "potential_issues" analysis with
      | Raise e => (Raise e, self1)
      | Ok issues =>
          let self2 := extend_history (strings issues) [] self1 in
          match get_items "recommendations" analysis with
          | Raise e => (Raise e, self2)
          | Ok recommendations =>
              (Ok analysis, extend_history [] (strings recommendations) self2)
          end
      end
  end.

Definition _analyze_current_state (elapsed : Z) (self : MeetingSummarizer) (w : world)
  : json * MeetingSummarizer * world :=
  let words_since_last_summary := word_count self - last_summary_word_count self in
  let '(self1, w1) :=
    if WORDS_PER_ROLLING_SUMMARY <=? words_since_last_summary then
      let '(s, w') := _create_rolling_summary self w in
      (set_last_summary_word_count (word_count s) s, w')
    else (self, w) in
  let context := _build_context elapsed self1 in
  let '(response, w2) :=
    create {| system := Analyse; user := context;
              max_tokens := 1500; json_object := true |} w1 in
  match response with
  | ApiError msg => (_get_error_response msg, self1, w2)
  | Content response_text =>
      match json_loads response_text with
      | JSONDecodeError _ => (_get_error_response "Invalid JSON from API", self1, w2)
      | Decoded parsed =>
          match analyze_parsed parsed self1 with
          | (Ok analysis, self2) => (analysis, self2, w2)
          | (Raise e, self2) => (_get_error_response (str_of_exn e), self2, w2)
          end
      end
  end.

Definition add_transcript (text : string) (elapsed : Z)
  (self : MeetingSummarizer) (w : world)
  : option json * MeetingSummarizer * world :=
  let self1 := ingest text self in
  let words_since_last_analysis := word_count self1 - last_analysis_word_count self1 in
  if WORDS_PER_ANALYSIS <=? words_since_last_analysis then
    let '(analysis, self2, w') := _analyze_current_state elapsed self1 w in
    (Some analysis, set_last_analysis_word_count (word_count self2) self2, w')
  else (None, self1, w).

Definition get_final_summary (elapsed : Z) (self : MeetingSummarizer) (w : world)
  : json * world :=
  let header :=
    "MEETING COMPLETED - FINAL ANALYSIS" ++ nl ++
    "Duration: " ++ str_of_int (elapsed / 60) ++ " minutes" ++ nl ++
    "Total words: " ++ str_of_int (word_count self) ++ nl in
  let summaries :=
    match rolling_summaries self with
    | [] => []
    | _ => (nl ++ "--- MEETING PROGRESSION ---")
             :: numbered "Phase" 0 (rolling_summaries self)
    end in
  let full_text := join " " (full_transcript self) in
  let words := split full_text in
  let transcript :=
    if 1000 <? Z.of_nat (List.length words)
    then [nl ++ "--- RECENT TRANSCRIPT (LAST 1000 WORDS) ---";
          join " " (lastn 1000 words)]
    else [nl ++ "--- FULL TRANSCRIPT ---"; full_text] in
  let context := join nl (header :: summaries ++ transcript)%list in
  let '(response, w') :=
    create {| system := Finalise; user := context;
              max_tokens := 2500; json_object := true |} w in
  match response with
  | ApiError msg => (_get_error_response msg, w')
  | Content response_text =>
      match json_loads response_text with
      | JSONDecodeError msg => (_get_error_response msg, w')
      | Decoded parsed =>
          match fill_required (default_value "No technical analysis available")
                  required_keys parsed with
          | Ok analysis => (analysis, w')
          | Raise e => (_get_error_response (str_of_exn e), w')
          end
      end
  end.

Fixpoint run (segments : list (string * Z)) (self : MeetingSummarizer) (w : world)
  : list (option json) * MeetingSummarizer * world :=
  match segments with
  | [] => ([], self, w)
  | (text, elapsed) :: rest =>
      let '(r, self1, w1) := add_transcript text elapsed self w in
      let '(rs, self2, w2) := run rest self1 w1 in
      (r :: rs, self2, w2)
  end.

End WithJson.

(** [get_stats]; [elapsed] is the clock reading of the call. *)
Definition get_stats (elapsed : Z) (self : MeetingSummarizer) : json :=
  JObj [("duration_minutes", JNum (elapsed / 60));
        ("word_count", JNum (word_count self));
        ("summary_count", JNum (Z.of_nat (List.length (rolling_summaries self))));
        ("transcript_segments", JNum (Z.of_nat (List.length (full_transcript self))));
        ("issues_identified", JNum (Z.of_nat (List.length (previous_issues self))));
        ("recommendations_given",
         JNum (Z.of_nat (List.length (previous_recommendations self))))].

End Summarizer2.

(* ===================================================================== *)
(** * audio_processor_faster_whisper.py                                   *)
(* ===================================================================== *)

Module AudioProcessor.
Import Py.

Local Open Scope Q_scope.

Definition CHUNK_SIZE : Z := 8192.
Definition RATE : Z := 16000.
Definition CHUNK_DURATION_SECONDS : Q := 3.
Definition OVERLAP_SECONDS : Q := 15 # 10.

(** The speech-to-text engine seen from one run: what each call of
    [whisper_model.transcribe] (and the iteration over its segments) comes
    to, in order, and the windows submitted so far. *)
Inductive transcription : Type :=
| WhisperError
| Segments (texts : list string).

Record ear : Type := mkEar {
  hears : nat -> transcription;
  windows : list (list Z)
}.

Definition transcribe (window : list Z) (e : ear) : transcription * ear :=
  (hears e 0%nat,
   {| hears := fun n => hears e (S n); windows := (windows e ++ [window])%list |}).

(** The fields of [AudioProcessor] the methods read or write. [stream] and
    [processing_thread] say whether the attribute holds an object;
    [buffer_duration], a float in the source, is the exact rational. *)
Record AudioProcessor : Type := mkProcessor {
  is_recording : bool;
  stream : bool;
  processing_thread : bool;
  audio_buffer : list Z;
  buffer_duration : Q
}.

Definition __init__ : AudioProcessor :=
  {| is_recording := false;
     stream := false;
     processing_thread := false;
     audio_buffer := [];
     buffer_duration := 0 |}.

Definition set_buffer (buffer : list Z) (duration : Q) (self : AudioProcessor) :=
  {| is_recording := is_recording self;
     stream := stream self;
     processing_thread := processing_thread self;
     audio_buffer := buffer;
     buffer_duration := duration |}.

(** [np.frombuffer(audio_data, dtype=np.int16)]: little-endian signed
    16-bit samples; a byte string of odd length raises [ValueError]. *)
Definition int16 (lo hi : Byte.byte) : Z :=
  let u := (Z.of_N (Byte.to_N lo) + 256 * Z.of_N (Byte.to_N hi))%Z in
  if (u <? 32768)%Z then u else (u - 65536)%Z.

Fixpoint frombuffer (audio_data : list Byte.byte) : option (list Z) :=
  match audio_data with
  | [] => Some []
  | [_] => None
  | lo :: hi :: rest =>
      match frombuffer rest with
      | Some samples => Some (int16 lo hi :: samples)
      | None => None
      end
  end.

(** [int(OVERLAP_SECONDS * RATE)] *)
Definition overlap_samples : Z := Qfloor (OVERLAP_SECONDS * inject_Z RATE).

(** The tail of [_transcribe_buffer], "Keep overlap for next chunk". *)
Definition keep_overlap (self : AudioProcessor) : AudioProcessor :=
  if (overlap_samples <? Z.of_nat (List.length (audio_buffer self)))%Z
  then set_buffer (lastn (Z.to_nat overlap_samples) (audio_buffer self))
         OVERLAP_SECONDS self
  else set_buffer [] 0 self.

(** [transcript_text += segment.text + " "] over the segments. *)
Fixpoint combine_segments (texts : list string) : string :=
  match texts with
  | [] => EmptyString
  | text :: rest => (text ++ " " ++ combine_segments rest)%string
  end.

Definition start_recording (stream_opens : bool) (self : AudioProcessor) : AudioProcessor :=
  if is_recording self then self
  else if stream_opens then
    {| is_recording := true; stream := true; processing_thread := true;
       audio_buffer := []; buffer_duration := 0 |}
  else
    {| is_recording := false; stream := stream self;
       processing_thread := processing_thread self;
       audio_buffer := []; buffer_duration := 0 |}.

Section WithCallback.

(** The callback given to the constructor acts on some environment of its
    own; [false] says that it raised. *)
Variable env : Type.
Variable on_transcript : string -> env -> env * bool.

Definition _transcribe_buffer (self : AudioProcessor) (e : ear) (v : env)
  : AudioProcessor * ear * env :=
  let '(answer, e') := transcribe (audio_buffer self) e in
  match answer with
  | WhisperError => (self, e', v)
  | Segments texts =>
      let transcript_text := strip (combine_segments texts) in
      let '(v', returned) :=
        match transcript_text with
        | EmptyString => (v, true)
        | _ => on_transcript transcript_text v
        end in
      if returned then (keep_overlap self, e', v') else (self, e', v')
  end.

(** One turn of the loop of [_processing_loop] that took [audio_data] from
    the queue. *)
Definition process (audio_data : list Byte.byte) (self : AudioProcessor) (e : ear) (v : env)
  : AudioProcessor * ear * env :=
  match frombuffer audio_data with
  | None => (self, e, v)
  | Some audio_np =>
      let self1 :=
        set_buffer (audio_buffer self ++ audio_np)%list
          (Qred (buffer_duration self
                 + inject_Z (Z.of_nat (List.length audio_np)) / inject_Z RATE))
          self in
      if Qle_bool CHUNK_DURATION_SECONDS (buffer_duration self1)
      then _transcribe_buffer self1 e v
      else (self1, e, v)
  end.

(** [while self.is_recording:] over the chunks the queue delivers; a
    [queue.Empty] timeout is a turn that changes nothing. *)
Fixpoint _processing_loop (queue : list (list Byte.byte))
  (self : AudioProcessor) (e : ear) (v : env) : AudioProcessor * ear * env :=
  match queue with
  | [] => (self, e, v)
  | audio_data :: rest =>
      if is_recording self then
        let '(self1, e1, v1) := process audio_data self e v in
        _processing_loop rest self1 e1 v1
      else (self, e, v)
  end.

Definition stop_recording (self : AudioProcessor) (e : ear) (v : env)
  : AudioProcessor * ear * env :=
  let self1 :=
    {| is_recording := false;
       stream := false;
       processing_thread := processing_thread self;
       audio_buffer := audio_buffer self;
       buffer_duration := buffer_duration self |} in
  if negb (Qle_bool (buffer_duration self1) 1)
  then _transcribe_buffer self1 e v
  else (self1, e, v).

End WithCallback.

End AudioProcessor.

(* ===================================================================== *)
(** * streamlit_app_faster_whisper_awais.py: the stop callback            *)
(* ===================================================================== *)

Module App.
Import Py Grok.

(** The pickle file of transcripts is the list it holds; reading and
    writing it are taken to succeed.

    [segs = load_transcripts(); segs.append(text); save_transcripts(segs)] *)
Definition on_new_transcript (text : string) (file : list string)
  : list string * bool :=
  ((file ++ [text])%list, true).

(** The entries of [st.session_state] that [stop_recording] touches. *)
Record session_state : Type := mkSession {
  is_recording : bool;
  audio_processor : option AudioProcessor.AudioProcessor;
  final_summary : option json
}.

(** What the callback shows: [st.warning] about missing transcripts, or
    [st.success]. *)
Inductive notice : Type :=
| NoTranscriptsFound
| RecordingComplete.

(** Each segment with the clock reading of its [add_transcript] call. *)
Fixpoint timed (clock : nat -> Z) (i : nat) (segments : list string)
  : list (string * Z) :=
  match segments with
  | [] => []
  | seg :: rest => (seg, clock i) :: timed clock (S i) rest
  end.

Section WithJson.

Variable json_loads : string -> loads_result.

(** [xai_key] says whether [XAI_API_KEY] is set. *)
Definition stop_recording (xai_key : bool) (clock : nat -> Z)
  (st : session_state) (file : list string) (e : AudioProcessor.ear) (w : world)
  : notice * session_state * list string * AudioProcessor.ear * world :=
  let '(processor, e1, file1) :=
    match audio_processor st with
    | Some p =>
        let '(p', e', file') :=
          AudioProcessor.stop_recording (list string) on_new_transcript p e file in
        (Some p', e', file')
    | None => (None, e, file)
    end in
  let segments := file1 in
  match segments with
  | [] =>
      (NoTranscriptsFound,
       {| is_recording := false; audio_processor := processor;
          final_summary := final_summary st |},
       file1, e1, w)
  | _ =>
      if xai_key then
        let '(_, fresh, w1) :=
          Summarizer2.run json_loads (timed clock 0 segments) Summarizer2.__init__ w in
        let '(report, w2) :=
          Summarizer2.get_final_summary json_loads
            (clock (List.length segments)) fresh w1 in
        (RecordingComplete,
         {| is_recording := false; audio_processor := processor;
            final_summary := Some report |},
         file1, e1, w2)
      else
        (RecordingComplete,
         {| is_recording := false; audio_processor := processor;
            final_summary := final_summary st |},
         file1, e1, w)
  end.

End WithJson.

End App.

(* ===================================================================== *)
(** * Vocabulary of the statements                                        *)
(* ===================================================================== *)

Module Spec.
Import Py Grok.

(** Words in a run of segments. *)
Definition total_words (segments : list (string * Z)) : Z :=
  sum (map (fun seg => count_words (fst seg)) segments).

Definition is_dict_b (v : json) : bool :=
  match v with
  | JObj _ => true
  | _ => false
  end.

(** [x] occurs in [y] as a substring. *)
Definition within (x y : string) : Prop :=
  exists before after, y = before ++ x ++ after.

(** The state after ingesting [segments] without any analysis pass. *)
Definition ingested (segments : list (string * Z)) (self : Summarizer.MeetingSummarizer)
  : Summarizer.MeetingSummarizer :=
  fold_left (fun s seg => Summarizer.ingest (fst seg) s) segments self.

(** Words held by a sequence of rolling summaries. *)
Definition summary_words (summaries : list string) : Z :=
  sum (map count_words summaries).

(** [v] is a dict that has every key of [keys]. *)
Definition has_keys (keys : list string) (v : json) : Prop :=
  match v with
  | JObj d => Forall (fun key => dict_has key d = true) keys
  | _ => False
  end.


(** [d'] is [d] with each missing key of [keys] set to its default: the
    entries of [d] are kept, the missing keys of [keys] read their default,
    and no other key appears. *)
Definition filled (default : string -> json) (keys : list string) (d d' : dict) : Prop :=
  forall k,
    dict_get k d' =
    match dict_get k d with
    | Some v => Some v
    | None => if existsb (String.eqb k) keys then Some (default k) else None
    end.



(** [a] and [b] are the same summarizer but for [latest_analysis]. *)
Definition same_counters (a b : Summarizer.MeetingSummarizer) : Prop :=
  Summarizer.full_transcript a = Summarizer.full_transcript b /\
  Summarizer.word_count a = Summarizer.word_count b /\
  Summarizer.last_analysis_word_count a = Summarizer.last_analysis_word_count b /\
  Summarizer.rolling_summaries a = Summarizer.rolling_summaries b /\
  Summarizer.last_summary_word_count a = Summarizer.last_summary_word_count b.

(** The first step of [Summarizer._analyze_current_state], "Check if we
    need a new rolling summary", on its own. *)
Definition after_compression (self : Summarizer.MeetingSummarizer) (w : world)
  : Summarizer.MeetingSummarizer * world :=
  if Summarizer.WORDS_PER_ROLLING_SUMMARY
       <=? Summarizer.word_count self - Summarizer.last_summary_word_count self
  then
    let '(s, w') := Summarizer._create_rolling_summary self w in
    (Summarizer.set_last_summary_word_count (Summarizer.word_count s) s, w')
  else (self, w).

(** The request of a compression pass of [summarizer.py] made in state
    [self]. *)
Definition compression_request (self : Summarizer.MeetingSummarizer) : request :=
  {| system := Summarise;
     user := join " " (lastn 5 (Summarizer.full_transcript self));
     max_tokens := 200;
     json_object := false |}.

(** The request of an analysis pass of [summarizer.py] made in state [self]. *)
Definition analysis_request (elapsed : Z) (self : Summarizer.MeetingSummarizer)
  : request :=
  {| system := Analyse;
     user := Summarizer._build_context elapsed self;
     max_tokens := 1000;
     json_object := true |}.


(** The first step of [Summarizer2._analyze_current_state], "Create
    rolling summary if needed", on its own. *)
Definition after_compression2 (self : Summarizer2.MeetingSummarizer) (w : world)
  : Summarizer2.MeetingSummarizer * world :=
  if Summarizer2.WORDS_PER_ROLLING_SUMMARY
       <=? Summarizer2.word_count self - Summarizer2.last_summary_word_count self
  then
    let '(s, w') := Summarizer2._create_rolling_summary self w in
    (Summarizer2.set_last_summary_word_count (Summarizer2.word_count s) s, w')
  else (self, w).

(** The deduplication policy as the specification words it: [item] is a
    duplicate when, both in lower case, it is a substring of, or has as a
    substring, one of the last ten entries of the history. *)
Definition similar (item entry : string) : bool :=
  str_in (lower item) (lower entry) || str_in (lower entry) (lower item).

Definition duplicate (item : string) (history : list string) : bool :=
  existsb (similar item) (lastn 10 history).

(** The items of [items] that are not duplicates, in order. *)
Definition survivors (items history : list string) : list string :=
  filter (fun item => negb (duplicate item history)) items.

(** ** Window assembler *)



(** The next call of [_transcribe_buffer] runs to its end: the engine
    answers and the callback, if called, returns. *)
Definition completes {env : Type} (on_transcript : string -> env -> env * bool)
  (e : AudioProcessor.ear) (v : env) : bool :=
  match AudioProcessor.hears e 0%nat with
  | AudioProcessor.WhisperError => false
  | AudioProcessor.Segments texts =>
      match strip (AudioProcessor.combine_segments texts) with
      | EmptyString => true
      | transcript_text => snd (on_transcript transcript_text v)
      end
  end.

(** The callback's environment after the next call of
    [_transcribe_buffer]. *)
Definition after_callback {env : Type} (on_transcript : string -> env -> env * bool)
  (e : AudioProcessor.ear) (v : env) : env :=
  match AudioProcessor.hears e 0%nat with
  | AudioProcessor.WhisperError => v
  | AudioProcessor.Segments texts =>
      match strip (AudioProcessor.combine_segments texts) with
      | EmptyString => v
      | transcript_text => fst (on_transcript transcript_text v)
      end
  end.

(** The buffer with the samples of one more chunk, as the loop extends it. *)
Definition extended (audio_np : list Z) (self : AudioProcessor.AudioProcessor)
  : AudioProcessor.AudioProcessor :=
  AudioProcessor.set_buffer (AudioProcessor.audio_buffer self ++ audio_np)%list
    (Qred (AudioProcessor.buffer_duration self
           + inject_Z (Z.of_nat (List.length audio_np))
             / inject_Z AudioProcessor.RATE)%Q)
    self.


End Spec.

(* ===================================================================== *)
(** * Concrete sessions                                                   *)
(* ===================================================================== *)

Module Examples.
Import Py Grok.

(** A stand-in for [json.loads] that knows two documents. *)
Definition loads (text : string) : loads_result :=
  if String.eqb text "{}" then Decoded (JObj [])
  else if String.eqb text "[]" then Decoded (JArr [])
  else JSONDecodeError "Expecting value: line 1 column 1 (char 0)".

(** The text of a JSON document with one repeated and one new issue, and
    the stand-in extended to decode it. *)
Definition quoted (s : string) : string :=
  String (ascii_of_nat 34) s ++ String (ascii_of_nat 34) EmptyString.

Definition report_text : string :=
  "{" ++ quoted "potential_issues" ++ ": ["
      ++ quoted "open ssh port exposes instances" ++ ", "
      ++ quoted "Missing backups" ++ "], "
      ++ quoted "recommendations" ++ ": []}".

Definition report : dict :=
  [("potential_issues",
    JArr (map JStr ["open ssh port exposes instances"; "Missing backups"]));
   ("recommendations", JArr (map JStr []))].

Definition loads_report (text : string) : loads_result :=
  if String.eqb text report_text then Decoded (JObj report) else loads text.



(** A service that answers every request with the empty object. *)
Definition agreeable : world :=
  {| answers := fun _ => Content "{}"; calls := [] |}.

(** A service that answers every request with prose instead of JSON. *)
Definition garbled : world :=
  {| answers := fun _ => Content "Sorry, here is a summary"; calls := [] |}.

(** A service that is out of reach: every call raises. *)
Definition unreachable : world :=
  {| answers := fun _ => ApiError "Connection error."; calls := [] |}.

(** A text of [n] words. *)
Definition prose (n : nat) : string := join " " (repeat "word" n).

(** Ten segments of four words. *)
Definition ten_short : list (string * Z) :=
  repeat ("we can start now", 0) 10.

(** Six segments of seven words and a seventh of eight. *)
Definition six_of_seven : list (string * Z) :=
  repeat ("please review the schema before the release", 0) 6.

Definition seventh : string * Z :=
  ("bob will draft the report by next friday", 1).

(** A segment of fifty words. *)
Definition fifty_words : string :=
  "a b c d e f g h i j a b c d e f g h i j a b c d e f g h i j a b c d e f g h i j a b c d e f g h i j".

(** ** A recording *)

(** One chunk as the microphone delivers it: [CHUNK_SIZE] samples of two
    bytes. *)
Definition chunk : list Byte.byte := repeat Byte.x01 (Z.to_nat 16384).

(** An engine that always hears the same two words, and one that always
    fails. *)
Definition hearing : AudioProcessor.ear :=
  {| AudioProcessor.hears := fun _ => AudioProcessor.Segments [" hello"; " there"];
     AudioProcessor.windows := [] |}.

Definition failing : AudioProcessor.ear :=
  {| AudioProcessor.hears := fun _ => AudioProcessor.WhisperError;
     AudioProcessor.windows := [] |}.

(** A callback that collects the transcripts. *)
Definition collect (text : string) (v : list string) : list string * bool :=
  ((v ++ [text])%list, true).

Definition started : AudioProcessor.AudioProcessor :=
  AudioProcessor.start_recording true AudioProcessor.__init__.

(** The samples of one chunk. *)
Definition samples : list Z := repeat 257 (Z.to_nat 8192).

(** The processor after the loop has taken [n] chunks of a recording the
    engine hears. *)
Definition after_chunks (n : nat) : AudioProcessor.AudioProcessor :=
  fst (fst (AudioProcessor._processing_loop (list string) collect
              (repeat chunk n) started hearing [])).

(** A session of the application: seven chunks recorded with the
    application's callback, then the stop button twice. The service answers
    the first request with the empty object and the later ones with the
    report. *)
Definition recorded : AudioProcessor.AudioProcessor * AudioProcessor.ear * list string :=
  AudioProcessor._processing_loop (list string) App.on_new_transcript
    (repeat chunk 7) started hearing [].

Definition session : App.session_state :=
  {| App.is_recording := true;
     App.audio_processor := Some (fst (fst recorded));
     App.final_summary := None |}.

Definition two_answers : world :=
  {| answers := fun n =>
       match n with
       | O => Content "{}"
       | S _ => Content report_text
       end;
     calls := [] |}.

Definition first_stop
  : App.notice * App.session_state * list string * AudioProcessor.ear * world :=
  App.stop_recording loads_report true (fun _ => 0) session
    (snd recorded) (snd (fst recorded)) two_answers.

Definition second_stop
  : App.notice * App.session_state * list string * AudioProcessor.ear * world :=
  let '(_, st, file, e, w) := first_stop in
  App.stop_recording loads_report true (fun _ => 0) st file e w.

(** The lengths of the windows submitted so far. *)
Definition window_sizes (e : AudioProcessor.ear) : list Z :=
  map (fun window => Z.of_nat (List.length window)) (AudioProcessor.windows e).

End Examples.

(* ===================================================================== *)
(** * streamlit_app_faster_whisper_awais.py: the live refresh             *)
(* ===================================================================== *)

Module Live.
Import Py Grok.

(** The entries of [st.session_state] that [update_live_analysis] reads or
    writes. *)
Record session_state : Type := mkSession {
  is_recording : bool;
  summarizer : option Summarizer2.MeetingSummarizer;
  current_analysis : option json
}.

Section WithJson.

Variable json_loads : string -> loads_result.

(** Whether the float that a literal denotes is other than zero. *)
Variable nonzero : string -> bool.

(** The truth value of a decoded value, as [if analysis:] tests it. *)
Definition truthy (v : json) : bool :=
  match v with
  | JNull => false
  | JBool b => b
  | JNum n => negb (n =? 0)
  | JFloat literal => nonzero literal
  | JStr s => match s with EmptyString => false | _ => true end
  | JArr items => match items with [] => false | _ => true end
  | JObj d => match d with [] => false | _ => true end
  end.

(** [for seg in segs[len(current):]:
       analysis = st.session_state.summarizer.add_transcript(seg)
       if analysis: st.session_state.current_analysis = analysis]
    where [clock i] is the clock reading of the [i]-th call. *)
Fixpoint catch_up (clock : nat -> Z) (i : nat) (segs : list string)
  (s : Summarizer2.MeetingSummarizer) (current : option json) (w : world)
  : Summarizer2.MeetingSummarizer * option json * world :=
  match segs with
  | [] => (s, current, w)
  | seg :: rest =>
      let '(analysis, s1, w1) := Summarizer2.add_transcript json_loads seg (clock i) s w in
      let current1 :=
        match analysis with
        | Some a => if truthy a then Some a else current
        | None => current
        end in
      catch_up clock (S i) rest s1 current1 w1
  end.

(** [file] is what [load_transcripts] returns. *)
Definition update_live_analysis (clock : nat -> Z) (st : session_state)
  (file : list string) (w : world) : session_state * world :=
  if negb (is_recording st) then (st, w)
  else
    match summarizer st with
    | None => (st, w)
    | Some s =>
        let current := Summarizer2.full_transcript s in
        if (List.length current <? List.length file)%nat then
          let '(s', analysis, w') :=
            catch_up clock 0 (skipn (List.length current) file) s
              (current_analysis st) w in
          ({| is_recording := is_recording st;
              summarizer := Some s';
              current_analysis := analysis |}, w')
        else (st, w)
    end.

End WithJson.

End Live.

(* ===================================================================== *)
(** * app.py: the transcript callback                                     *)
(* ===================================================================== *)

Module Flask.
Import Py Grok.

Section WithJson.

Variable json_loads : string -> loads_result.
Variable nonzero : string -> bool.

(** [on_new_transcript] of [app.py]. The entries of [app_state] it reads or
    writes are those of the live refresh, which [app.py] has word for word
    ([update_live_analysis]); [file] is the pickle file of transcripts,
    read and written without failure; [elapsed] is the clock reading of
    the [add_transcript] call. Every exception is caught inside. *)
Definition on_new_transcript (text : string) (elapsed : Z)
  (st : Live.session_state) (file : list string) (w : world)
  : Live.session_state * list string * world :=
  let segments := (file ++ [text])%list in
  if Live.is_recording st then
    match Live.summarizer st with
    | Some s =>
        let '(analysis, s', w') := Summarizer2.add_transcript json_loads text elapsed s w in
        let current :=
          match analysis with
          | Some a => if Live.truthy nonzero a then Some a else Live.current_analysis st
          | None => Live.current_analysis st
          end in
        ({| Live.is_recording := Live.is_recording st;
            Live.summarizer := Some s';
            Live.current_analysis := current |}, segments, w')
    | None => (st, segments, w)
    end
  else (st, segments, w).

End WithJson.

End Flask.

(* ===================================================================== *)
(** * terminal_meeting_analyzer.py                                        *)
(* ===================================================================== *)

Module Terminal.
Import Py Grok.

(** The fields of [MeetingAnalyzerTerminal] that the transcript callback
    reads or writes. *)
Record MeetingAnalyzerTerminal : Type := mkTerminal {
  transcripts : list string;
  full_text : string;
  summarizer : option Summarizer.MeetingSummarizer
}.

(** The fields as [start_recording] sets them before it starts the audio
    processor. *)
Definition start_recording : MeetingAnalyzerTerminal :=
  {| transcripts := [];
     full_text := EmptyString;
     summarizer := Some Summarizer.__init__ |}.

Section WithJson.

Variable json_loads : string -> loads_result.
Variable nonzero : string -> bool.

(** [for item in items:] can run on a list, a string or a dict. *)
Definition iterable (v : json) : bool :=
  match v with
  | JArr _ | JStr _ | JObj _ => true
  | _ => false
  end.

(** One section of [print_analysis]:
    [items = analysis.get(key, []); if items: for item in items: print(...)].
    [false] says that it raises. *)
Definition prints_list (key : string) (d : dict) : bool :=
  match dict_get key d with
  | Some items => if Live.truthy nonzero items then iterable items else true
  | None => true
  end.

(** [print_analysis]: whether it returns. Only a dict has [get]; printing
    to the terminal is taken to succeed. *)
Definition print_analysis (analysis : json) : bool :=
  match analysis with
  | JObj d =>
      prints_list "action_items" d && prints_list "it_insights" d
      && prints_list "key_decisions" d
  | _ => false
  end.

(** [on_transcript]; the boolean says whether the call returned, [false]
    when [print_analysis] raised. *)
Definition on_transcript (text : string) (elapsed : Z)
  (self : MeetingAnalyzerTerminal) (w : world)
  : MeetingAnalyzerTerminal * world * bool :=
  let transcripts1 := (transcripts self ++ [text])%list in
  let full_text1 := full_text self ++ text ++ " " in
  match summarizer self with
  | Some s =>
      let '(analysis, s', w') := Summarizer.add_transcript json_loads text elapsed s w in
      let returned :=
        match analysis with
        | Some a => if Live.truthy nonzero a then print_analysis a else true
        | None => true
        end in
      ({| transcripts := transcripts1; full_text := full_text1; summarizer := Some s' |},
       w', returned)
  | None =>
      ({| transcripts := transcripts1; full_text := full_text1; summarizer := None |},
       w, true)
  end.

(** The calls of [on_transcript] that a recording makes, in order, each with
    its text and clock reading. *)
Fixpoint feed (calls : list (string * Z)) (self : MeetingAnalyzerTerminal) (w : world)
  : MeetingAnalyzerTerminal * world :=
  match calls with
  | [] => (self, w)
  | (text, elapsed) :: rest =>
      let '(self1, w1, _) := on_transcript text elapsed self w in
      feed rest self1 w1
  end.

End WithJson.

End Terminal.

(* ===================================================================== *)
(** * Further vocabulary                                                  *)
(* ===================================================================== *)

Module Extra.
Import Py Grok.

(** No character of [s] is white space. *)
Fixpoint no_space (s : string) : bool :=
  match s with
  | EmptyString => true
  | String c rest => negb (is_space c) && no_space rest
  end.

(** [s] is a word as [str.split] yields them. *)
Definition is_word (s : string) : Prop := s <> EmptyString /\ no_space s = true.

(** The counters of a summarizer of [summarizer.py] between two calls of
    [add_transcript]: the word count is that of the ledger, the two marks
    lag behind it in order, and fewer than [WORDS_PER_ANALYSIS] words wait
    for analysis. *)
Definition in_step (self : Summarizer.MeetingSummarizer) : Prop :=
  Summarizer.word_count self
    = count_words (join " " (Summarizer.full_transcript self)) /\
  0 <= Summarizer.last_summary_word_count self /\
  Summarizer.last_summary_word_count self <= Summarizer.last_analysis_word_count self /\
  Summarizer.last_analysis_word_count self <= Summarizer.word_count self /\
  Summarizer.word_count self - Summarizer.last_analysis_word_count self
    < Summarizer.WORDS_PER_ANALYSIS.

(** The requests made so far are paid for by words already analysed or
    summarised: fifty words for each analysis request, three hundred for
    each compression request; compression requests are no more than
    analysis requests, and rolling summaries no more than compression
    requests. *)
Definition paid_for (self : Summarizer.MeetingSummarizer) (w : world) : Prop :=
  Summarizer.WORDS_PER_ANALYSIS * Z.of_nat (passes Analyse w)
    <= Summarizer.last_analysis_word_count self /\
  Summarizer.WORDS_PER_ROLLING_SUMMARY * Z.of_nat (passes Summarise w)
    <= Summarizer.last_summary_word_count self /\
  (passes Summarise w <= passes Analyse w)%nat /\
  (List.length (Summarizer.rolling_summaries self) <= passes Summarise w)%nat.

(** The analysis on display after a run of calls that returned [returns]:
    the last one returned, or the one on display before. *)
Definition latest (returns : list (option json)) (current : option json) : option json :=
  fold_left (fun shown r => match r with Some a => Some a | None => shown end)
    returns current.

(** The samples the queue delivers, in order; a chunk that does not
    decode contributes none. *)
Definition samples_of (queue : list (list Byte.byte)) : list Z :=
  List.concat
    (map (fun audio_data =>
            match AudioProcessor.frombuffer audio_data with
            | Some audio_np => audio_np
            | None => []
            end) queue).



(** The engine fails on every call. *)
Definition deaf (e : AudioProcessor.ear) : Prop :=
  forall n, AudioProcessor.hears e n = AudioProcessor.WhisperError.


(** What the terminal's callback keeps in step: the text grown from the
    segments is empty or ends with the space last added, and the ledger and
    the word count of the summarizer are those of the terminal. *)
Definition in_tune (self : Terminal.MeetingAnalyzerTerminal) : Prop :=
  (Terminal.full_text self = EmptyString \/
   exists head, Terminal.full_text self = head ++ " ") /\
  exists s,
    Terminal.summarizer self = Some s /\
    Summarizer.full_transcript s = Terminal.transcripts self /\
    Summarizer.word_count s = count_words (Terminal.full_text self).



(** Under [key] the dict holds nothing, or a list of strings none of which
    is a duplicate of [history]. *)
Definition fresh_under (key : string) (history : list string) (d : dict) : Prop :=
  dict_get key d = None \/
  exists items,
    dict_get key d = Some (JArr (map JStr items)) /\
    Forall (fun item => Spec.duplicate item history = false) items.

End Extra.

(* ===================================================================== *)
(** * Properties                                                          *)
(* ===================================================================== *)

#[local] Arguments Common.fill_required : simpl never.
#[local] Arguments Summarizer._build_context : simpl never.
#[local] Arguments Summarizer2._build_context : simpl never.

Section PythonFacts.
Import Py.

Lemma count_words_nonneg (s : string) : 0 <= count_words s.
Proof. unfold count_words. lia. Qed.

Lemma sum_app (a b : list Z) : sum (a ++ b) = sum a + sum b.
Proof.
  induction a as [|x a IH]; simpl.
  - reflexivity.
  - rewrite IH. lia.
Qed.

Lemma lastn_length {A : Type} (n : nat) (l : list A) :
  (n <= List.length l)%nat -> List.length (lastn n l) = n.
Proof.
  intros H. unfold lastn. rewrite length_skipn. lia.
Qed.

End PythonFacts.

Section SummarizerFacts.
Import Py Grok Common Summarizer Spec.

Variable json_loads : string -> loads_result.

Lemma create_rolling_summary_frame (self : MeetingSummarizer) (w : world) :
  let '(s, w') := _create_rolling_summary self w in
  full_transcript s = full_transcript self /\
  word_count s = word_count self /\
  last_analysis_word_count s = last_analysis_word_count self /\
  last_summary_word_count s = last_summary_word_count self /\
  latest_analysis s = latest_analysis self /\
  calls w' = (calls w ++ [compression_request self])%list /\
  answers w' = (fun n => answers w (S n)).
Proof.
  unfold _create_rolling_summary, create, compression_request; simpl.
  destruct (answers w 0%nat); simpl; repeat split; reflexivity.
Qed.

Lemma after_compression_frame (self : MeetingSummarizer) (w : world) :
  let '(s, w') := after_compression self w in
  full_transcript s = full_transcript self /\
  word_count s = word_count self /\
  last_analysis_word_count s = last_analysis_word_count self /\
  latest_analysis s = latest_analysis self /\
  passes Analyse w' = passes Analyse w.
Proof.
  unfold after_compression.
  destruct (WORDS_PER_ROLLING_SUMMARY <=? word_count self - last_summary_word_count self).
  - pose proof (create_rolling_summary_frame self w) as H.
    destruct (_create_rolling_summary self w) as [s w'].
    destruct H as (H1 & H2 & H3 & H4 & H5 & H6 & H7). simpl.
    repeat split; try assumption.
    unfold passes. rewrite H6, filter_app, length_app. simpl. lia.
  - repeat split; reflexivity.
Qed.

(** [_analyze_current_state] is its first step followed by the analysis
    call on the state and the service the first step leaves. *)
Lemma analyze_current_state_steps (elapsed : Z) (self : MeetingSummarizer) (w : world) :
  _analyze_current_state json_loads elapsed self w =
  let '(self1, w1) := after_compression self w in
  let '(response, w2) := create (analysis_request elapsed self1) w1 in
  match response with
  | ApiError msg => (_get_error_response msg, self1, w2)
  | Content response_text =>
      match json_loads response_text with
      | JSONDecodeError _ =>
          (_get_error_response "Invalid JSON response from API", self1, w2)
      | Decoded parsed =>
          match fill_required default_value required_keys parsed with
          | Ok analysis => (analysis, set_latest_analysis (Some analysis) self1, w2)
          | Raise e => (_get_error_response (str_of_exn e), self1, w2)
          end
      end
  end.
Proof. reflexivity. Qed.

Lemma analyze_current_state_frame (elapsed : Z) (self : MeetingSummarizer) (w : world) :
  let '(_, s, w') := _analyze_current_state json_loads elapsed self w in
  same_counters s (fst (after_compression self w)) /\
  calls w' = (calls (snd (after_compression self w))
              ++ [analysis_request elapsed (fst (after_compression self w))])%list /\
  answers w' = (fun n => answers (snd (after_compression self w)) (S n)).
Proof.
  rewrite analyze_current_state_steps.
  destruct (after_compression self w) as [self1 w1]. unfold create; simpl.
  destruct (answers w1 0%nat) as [msg|text]; simpl.
  - unfold same_counters; repeat split; reflexivity.
  - destruct (json_loads text) as [parsed|msg]; simpl.
    + destruct (fill_required default_value required_keys parsed); simpl;
        unfold same_counters; repeat split; reflexivity.
    + unfold same_counters; repeat split; reflexivity.
Qed.

(** An analysis pass leaves the ledger and the word counters alone and is
    one more analysis request. *)
Lemma analyze_current_state_counts (elapsed : Z) (self : MeetingSummarizer) (w : world) :
  let '(_, s, w') := _analyze_current_state json_loads elapsed self w in
  full_transcript s = full_transcript self /\
  word_count s = word_count self /\
  last_analysis_word_count s = last_analysis_word_count self /\
  passes Analyse w' = S (passes Analyse w).
Proof.
  pose proof (analyze_current_state_frame elapsed self w) as H.
  pose proof (after_compression_frame self w) as F.
  destruct (_analyze_current_state json_loads elapsed self w) as [[a s] w'].
  destruct (after_compression self w) as [self1 w1]. simpl in H.
  destruct H as ((H1 & H2 & H3 & _) & Hc & _).
  destruct F as (F1 & F2 & F3 & _ & F5).
  repeat split; try congruence.
  unfold passes in *. rewrite Hc, filter_app, length_app. simpl. lia.
Qed.

End SummarizerFacts.

Section AnalysisTrigger.
Import Py Grok Common Summarizer Spec.

Variable json_loads : string -> loads_result.

Lemma total_words_nonneg (segments : list (string * Z)) : 0 <= total_words segments.
Proof.
  unfold total_words. induction segments as [|seg l IH]; simpl.
  - lia.
  - pose proof (count_words_nonneg (fst seg)). lia.
Qed.

Lemma ingested_fields (segments : list (string * Z)) (self : MeetingSummarizer) :
  full_transcript (ingested segments self)
    = (full_transcript self ++ map fst segments)%list /\
  word_count (ingested segments self) = word_count self + total_words segments /\
  last_analysis_word_count (ingested segments self) = last_analysis_word_count self /\
  rolling_summaries (ingested segments self) = rolling_summaries self /\
  last_summary_word_count (ingested segments self) = last_summary_word_count self.
Proof.
  revert self. induction segments as [|[text t] l IH]; intros self.
  - simpl. rewrite app_nil_r. unfold total_words; simpl.
    repeat split; try reflexivity. lia.
  - simpl. destruct (IH (ingest text self)) as (H1 & H2 & H3 & H4 & H5).
    rewrite H1, H2, H3, H4, H5. unfold total_words; simpl.
    rewrite <- app_assoc. repeat split; try reflexivity.
    unfold total_words. lia.
Qed.

(** One call, by cases on the threshold. *)
Lemma add_transcript_below (text : string) (elapsed : Z)
  (self : MeetingSummarizer) (w : world) :
  word_count self + count_words text - last_analysis_word_count self < WORDS_PER_ANALYSIS ->
  add_transcript json_loads text elapsed self w = (None, ingest text self, w).
Proof.
  intros H. unfold add_transcript. simpl.
  destruct (Z.leb_spec WORDS_PER_ANALYSIS
              (word_count self + count_words text - last_analysis_word_count self)).
  - lia.
  - reflexivity.
Qed.

Lemma add_transcript_reached (text : string) (elapsed : Z)
  (self : MeetingSummarizer) (w : world) :
  WORDS_PER_ANALYSIS <= word_count self + count_words text - last_analysis_word_count self ->
  add_transcript json_loads text elapsed self w =
  let '(analysis, s, w') :=
    _analyze_current_state json_loads elapsed (ingest text self) w in
  (Some analysis, set_last_analysis_word_count (word_count s) s, w').
Proof.
  intros H. unfold add_transcript. simpl.
  destruct (Z.leb_spec WORDS_PER_ANALYSIS
              (word_count self + count_words text - last_analysis_word_count self)).
  - reflexivity.
  - lia.
Qed.

(** While the words since the last analysis stay below the threshold,
    every call returns [None] and the service is never called. *)
Lemma run_below (segments : list (string * Z)) (self : MeetingSummarizer) (w : world) :
  word_count self - last_analysis_word_count self + total_words segments
    < WORDS_PER_ANALYSIS ->
  run json_loads segments self w
  = (repeat None (List.length segments), ingested segments self, w).
Proof.
  revert self. induction segments as [|[text t] l IH]; intros self H.
  - reflexivity.
  - unfold total_words in H; simpl in H. fold (total_words l) in H.
    pose proof (total_words_nonneg l) as Hl.
    pose proof (count_words_nonneg text) as Ht.
    simpl. rewrite add_transcript_below by lia.
    rewrite IH by (simpl; lia). reflexivity.
Qed.

Lemma run_app (a b : list (string * Z)) (self : MeetingSummarizer) (w : world) :
  run json_loads (a ++ b) self w =
  let '(ra, sa, wa) := run json_loads a self w in
  let '(rb, sb, wb) := run json_loads b sa wa in
  ((ra ++ rb)%list, sb, wb).
Proof.
  revert self w. induction a as [|[text t] a IH]; intros self w; simpl.
  - destruct (run json_loads b self w) as [[rb sb] wb]. reflexivity.
  - destruct (add_transcript json_loads text t self w) as [[r s1] w1].
    rewrite IH.
    destruct (run json_loads a s1 w1) as [[ra sa] wa].
    destruct (run json_loads b sa wa) as [[rb sb] wb]. reflexivity.
Qed.

End AnalysisTrigger.

Section AnalysisTriggerClaim.
Import Py Grok Common Summarizer Spec.

(** C1. For every state and segment, [add_transcript] appends the segment
    to the ledger and adds its words to the total; it runs an analysis pass
    (one more analysis request, a result returned,
    [last_analysis_word_count] set to the total) exactly when the total
    minus the count at the last analysis is at least [WORDS_PER_ANALYSIS],
    and otherwise returns [None] without calling the service. Ten segments
    totalling fewer than fifty words trigger no pass and are all in the
    ledger; when the total reaches exactly fifty at the seventh segment the
    pass runs on that call and [last_analysis_word_count] becomes 50. *)
Theorem add_transcript_triggers_at_threshold :
  forall json_loads : string -> loads_result,
  (forall text elapsed self w,
     let delta := word_count self + count_words text - last_analysis_word_count self in
     let '(r, s, w') := add_transcript json_loads text elapsed self w in
     full_transcript s = (full_transcript self ++ [text])%list /\
     word_count s = word_count self + count_words text /\
     (WORDS_PER_ANALYSIS <= delta ->
        r <> None /\ passes Analyse w' = S (passes Analyse w) /\
        last_analysis_word_count s = word_count s) /\
     (delta < WORDS_PER_ANALYSIS ->
        r = None /\ w' = w /\
        last_analysis_word_count s = last_analysis_word_count self)) /\
  (forall segments w,
     List.length segments = 10%nat ->
     total_words segments < 50 ->
     let '(rs, s, w') := run json_loads segments __init__ w in
     rs = repeat None 10 /\ w' = w /\
     full_transcript s = map fst segments /\
     List.length (full_transcript s) = 10%nat) /\
  (forall six seventh w,
     List.length six = 6%nat ->
     total_words six < 50 ->
     total_words six + count_words (fst seventh) = 50 ->
     let '(rs, s, w') := run json_loads (six ++ [seventh]) __init__ w in
     (exists analysis, rs = (repeat None 6 ++ [Some analysis])%list) /\
     passes Analyse w' = S (passes Analyse w) /\
     last_analysis_word_count s = 50).
Proof.
  intros json_loads. split; [|split].
  - intros text elapsed self w delta.
    destruct (Z_lt_le_dec delta WORDS_PER_ANALYSIS) as [Hlt|Hge]; subst delta.
    + rewrite add_transcript_below by assumption. simpl.
      repeat split; try reflexivity; intros; lia.
    + rewrite add_transcript_reached by assumption.
      pose proof (analyze_current_state_counts json_loads elapsed (ingest text self) w) as H.
      destruct (_analyze_current_state json_loads elapsed (ingest text self) w)
        as [[a s] w'].
      destruct H as (H1 & H2 & H3 & H4). simpl.
      repeat split; try assumption; try discriminate; try reflexivity; intros; lia.
  - intros segments w Hlen Htot.
    rewrite run_below by (unfold WORDS_PER_ANALYSIS; simpl; lia).
    destruct (ingested_fields segments __init__) as (H1 & _).
    rewrite Hlen, H1. simpl. rewrite length_map.
    repeat split; try reflexivity; assumption.
  - intros six seventh w Hlen Hlt Heq.
    rewrite run_app, run_below by (unfold WORDS_PER_ANALYSIS; simpl; lia).
    destruct (ingested_fields six __init__) as (_ & Hw & Ha & _).
    simpl in Hw, Ha. destruct seventh as [text t]. simpl in Heq. simpl run.
    rewrite add_transcript_reached by (rewrite Hw, Ha; unfold WORDS_PER_ANALYSIS; lia).
    pose proof (analyze_current_state_counts json_loads t
                  (ingest text (ingested six __init__)) w) as H.
    destruct (_analyze_current_state json_loads t
                (ingest text (ingested six __init__)) w) as [[a s] w'].
    destruct H as (H1 & H2 & H3 & H4). simpl in H2. rewrite Hlen. simpl.
    repeat split; try assumption.
    + exists a. reflexivity.
    + lia.
Qed.

Lemma add_transcript_triggers_at_threshold_witness :
  (let '(rs, s, w') := run Examples.loads Examples.ten_short __init__ Examples.agreeable in
   rs = repeat None 10 /\ w' = Examples.agreeable /\
   full_transcript s = map fst Examples.ten_short /\
   List.length (full_transcript s) = 10%nat) /\
  (let '(rs, s, w') :=
     run Examples.loads (Examples.six_of_seven ++ [Examples.seventh]) __init__
       Examples.agreeable in
   (exists analysis, rs = (repeat None 6 ++ [Some analysis])%list) /\
   passes Analyse w' = S (passes Analyse Examples.agreeable) /\
   last_analysis_word_count s = 50) /\
  (let '(r, s, w') :=
     add_transcript Examples.loads Examples.fifty_words 0 __init__ Examples.agreeable in
   r <> None /\ passes Analyse w' = 1%nat /\ last_analysis_word_count s = word_count s) /\
  (let '(r, s, w') :=
     add_transcript Examples.loads "we can start now" 0 __init__ Examples.agreeable in
   r = None /\ w' = Examples.agreeable /\ last_analysis_word_count s = 0).
Proof.
  destruct (add_transcript_triggers_at_threshold Examples.loads) as (Hone & Hten & Hseven).
  split; [|split; [|split]].
  - apply (Hten Examples.ten_short Examples.agreeable).
    + reflexivity.
    + vm_compute. reflexivity.
  - apply (Hseven Examples.six_of_seven Examples.seventh Examples.agreeable).
    + reflexivity.
    + vm_compute. reflexivity.
    + vm_compute. reflexivity.
  - pose proof (Hone Examples.fifty_words 0 __init__ Examples.agreeable) as H.
    cbv zeta in H.
    destruct (add_transcript Examples.loads Examples.fifty_words 0 __init__
                Examples.agreeable) as [[r s] w'].
    destruct H as (_ & _ & H & _). apply H. vm_compute. discriminate.
  - pose proof (Hone "we can start now" 0 __init__ Examples.agreeable) as H.
    cbv zeta in H.
    destruct (add_transcript Examples.loads "we can start now" 0 __init__
                Examples.agreeable) as [[r s] w'].
    destruct H as (_ & _ & _ & H). apply H. vm_compute. reflexivity.
Defined.

End AnalysisTriggerClaim.

Section RollingSummaries.
Import Py Grok Common Spec.




End RollingSummaries.

Section RollingSummariesBound.
Import Py Grok Common Spec.

Variable json_loads : string -> loads_result.





(** The analysis proper of [summarizer_2.py] touches the latest analysis
    and the two histories only. *)
Lemma analyze_parsed_frame (parsed : json) (self : Summarizer2.MeetingSummarizer) :
  let s := snd (Summarizer2.analyze_parsed parsed self) in
  Summarizer2.full_transcript s = Summarizer2.full_transcript self /\
  Summarizer2.word_count s = Summarizer2.word_count self /\
  Summarizer2.last_analysis_word_count s = Summarizer2.last_analysis_word_count self /\
  Summarizer2.rolling_summaries s = Summarizer2.rolling_summaries self /\
  Summarizer2.last_summary_word_count s = Summarizer2.last_summary_word_count self.
Proof.
  unfold Summarizer2.analyze_parsed.
  destruct (Py.bind _ _) as [analysis|e]; simpl.
  - destruct (Summarizer2.get_items "potential_issues" analysis); simpl.
    + destruct (Summarizer2.get_items "recommendations" analysis); simpl;
        repeat split; reflexivity.
    + repeat split; reflexivity.
  - repeat split; reflexivity.
Qed.



End RollingSummariesBound.

Section RollingSummariesClaim.
Import Py Grok Common Spec.



End RollingSummariesClaim.

Section FailureIsolation.
Import Py Grok Common Summarizer Spec.

Lemma same_counters_refl (a : MeetingSummarizer) : same_counters a a.
Proof. unfold same_counters. repeat split; reflexivity. Qed.

(** Two states with the same counters differ in [latest_analysis] only. *)
Lemma same_counters_latest (a b : MeetingSummarizer) :
  same_counters a b -> b = set_latest_analysis (latest_analysis b) a.
Proof.
  destruct a, b. unfold same_counters, set_latest_analysis; simpl.
  intros (H1 & H2 & H3 & H4 & H5). subst. reflexivity.
Qed.

(** No step of an analysis pass reads [latest_analysis]. *)
Lemma after_compression_latest (x : option json) (self : MeetingSummarizer) (w : world) :
  after_compression (set_latest_analysis x self) w
  = (set_latest_analysis x (fst (after_compression self w)),
     snd (after_compression self w)).
Proof.
  unfold after_compression. simpl.
  destruct (WORDS_PER_ROLLING_SUMMARY <=? word_count self - last_summary_word_count self).
  - unfold _create_rolling_summary, create. simpl.
    destruct (answers w 0%nat); reflexivity.
  - reflexivity.
Qed.

Lemma analyze_current_state_latest (json_loads : string -> loads_result)
  (x : option json) (elapsed : Z) (self : MeetingSummarizer) (w : world) :
  let '(a1, s1, w1) := _analyze_current_state json_loads elapsed self w in
  let '(a2, s2, w2) :=
    _analyze_current_state json_loads elapsed (set_latest_analysis x self) w in
  a1 = a2 /\ same_counters s1 s2 /\ w1 = w2.
Proof.
  rewrite !analyze_current_state_steps, after_compression_latest.
  destruct (after_compression self w) as [self1 w1]. simpl fst; simpl snd.
  change (analysis_request elapsed (set_latest_analysis x self1))
    with (analysis_request elapsed self1).
  destruct (create (analysis_request elapsed self1) w1) as [[msg|text] w2].
  - repeat split; reflexivity.
  - destruct (json_loads text) as [parsed|msg].
    + destruct (fill_required default_value required_keys parsed); repeat split; reflexivity.
    + repeat split; reflexivity.
Qed.

(** [add_transcript] behaves alike on states with the same counters. *)
Lemma add_transcript_same_counters (json_loads : string -> loads_result)
  (a b : MeetingSummarizer) (text : string) (elapsed : Z) (w : world) :
  same_counters a b ->
  let '(r1, s1, w1) := add_transcript json_loads text elapsed a w in
  let '(r2, s2, w2) := add_transcript json_loads text elapsed b w in
  r1 = r2 /\ same_counters s1 s2 /\ w1 = w2.
Proof.
  intros H. rewrite (same_counters_latest a b H).
  generalize (latest_analysis b) as x. intros x.
  unfold add_transcript. simpl.
  destruct (WORDS_PER_ANALYSIS <=? word_count a + count_words text - last_analysis_word_count a).
  - pose proof (analyze_current_state_latest json_loads x elapsed (ingest text a) w) as L.
    change (ingest text (set_latest_analysis x a))
      with (set_latest_analysis x (ingest text a)).
    destruct (_analyze_current_state json_loads elapsed (ingest text a) w) as [[a1 s1] w1].
    destruct (_analyze_current_state json_loads elapsed
                (set_latest_analysis x (ingest text a)) w) as [[a2 s2] w2].
    destruct L as (La & (L1 & L2 & L3 & L4 & L5) & Lw). subst.
    unfold same_counters; simpl. rewrite L2. repeat split; assumption.
  - unfold same_counters; simpl. repeat split; reflexivity.
Qed.

(** The counters and the service after a call do not depend on how the
    answer of the analysis request parses. *)
Lemma add_transcript_any_parse (jl1 jl2 : string -> loads_result)
  (text : string) (elapsed : Z) (self : MeetingSummarizer) (w : world) :
  let '(_, s1, w1) := add_transcript jl1 text elapsed self w in
  let '(_, s2, w2) := add_transcript jl2 text elapsed self w in
  same_counters s1 s2 /\ w1 = w2.
Proof.
  unfold add_transcript.
  destruct (WORDS_PER_ANALYSIS <=? _).
  - rewrite !analyze_current_state_steps.
    destruct (after_compression (ingest text self) w) as [self1 w1].
    destruct (create (analysis_request elapsed self1) w1) as [[msg|answer] w2].
    + split; [apply same_counters_refl|reflexivity].
    + assert (E : forall jl : string -> loads_result,
                exists a x,
                  match jl answer with
                  | Decoded parsed =>
                      match fill_required default_value required_keys parsed with
                      | Ok analysis =>
                          (analysis, set_latest_analysis (Some analysis) self1, w2)
                      | Raise e => (_get_error_response (str_of_exn e), self1, w2)
                      end
                  | JSONDecodeError _ =>
                      (_get_error_response "Invalid JSON response from API", self1, w2)
                  end = (a, set_latest_analysis x self1, w2)).
      { intros jl. destruct (jl answer) as [parsed|msg].
        - destruct (fill_required default_value required_keys parsed) as [analysis|e].
          + exists analysis, (Some analysis). reflexivity.
          + exists (_get_error_response (str_of_exn e)), (latest_analysis self1).
            destruct self1; reflexivity.
        - exists (_get_error_response "Invalid JSON response from API"),
            (latest_analysis self1).
          destruct self1; reflexivity. }
      destruct (E jl1) as (a1 & x1 & ->). destruct (E jl2) as (a2 & x2 & ->).
      unfold same_counters; simpl. repeat split; reflexivity.
  - split; [apply same_counters_refl|reflexivity].
Qed.

End FailureIsolation.

Section MalformedCompletionClaim.
Import Py Grok Common Summarizer Spec.

(** C3. When an analysis pass is due and the text the service returns for
    the analysis request does not parse as JSON, [add_transcript] returns
    the fixed error-shaped result (summary "Error: Invalid JSON response
    from API", the three lists empty) and does not raise. The segment is in
    the ledger, its words are counted, [last_analysis_word_count] advances
    as after any pass and [latest_analysis] keeps its value; the counters
    and the service are left exactly as they are left when the same text
    parses; and the next call answers alike from any state with these
    counters. *)
Theorem malformed_completion_is_contained :
  forall (json_loads : string -> loads_result) text elapsed self w bad msg,
  WORDS_PER_ANALYSIS
    <= word_count self + count_words text - last_analysis_word_count self ->
  answers (snd (after_compression (ingest text self) w)) 0%nat = Content bad ->
  json_loads bad = JSONDecodeError msg ->
  let '(r, s, w') := add_transcript json_loads text elapsed self w in
  r = Some (JObj [("summary", JStr "Error: Invalid JSON response from API");
                  ("action_items", JArr []);
                  ("it_insights", JArr []);
                  ("key_decisions", JArr [])]) /\
  full_transcript s = (full_transcript self ++ [text])%list /\
  word_count s = word_count self + count_words text /\
  last_analysis_word_count s = word_count s /\
  latest_analysis s = latest_analysis self /\
  (forall parses : string -> loads_result,
     let '(_, s2, w2) := add_transcript parses text elapsed self w in
     same_counters s s2 /\ w' = w2) /\
  (forall s2 text2 elapsed2 w2,
     same_counters s s2 ->
     let '(r1, t1, v1) := add_transcript json_loads text2 elapsed2 s w2 in
     let '(r2, t2, v2) := add_transcript json_loads text2 elapsed2 s2 w2 in
     r1 = r2 /\ same_counters t1 t2 /\ v1 = v2).
Proof.
  intros json_loads text elapsed self w bad msg Hdue Hbad Hparse.
  pose proof (add_transcript_any_parse json_loads) as Hany.
  specialize (fun parses => Hany parses text elapsed self w).
  rewrite add_transcript_reached in * by assumption.
  rewrite analyze_current_state_steps in *.
  pose proof (after_compression_frame (ingest text self) w) as F.
  destruct (after_compression (ingest text self) w) as [self1 w1].
  simpl in Hbad. unfold create in *. rewrite Hbad, Hparse in *.
  destruct F as (F1 & F2 & F3 & F4 & _). simpl in F1, F2, F3, F4. simpl.
  repeat split; try assumption.
  intros s2 text2 elapsed2 w2 Hs.
  apply (add_transcript_same_counters json_loads _ s2 text2 elapsed2 w2 Hs).
Qed.

Lemma malformed_completion_is_contained_witness :
  let '(r, s, w') :=
    add_transcript Examples.loads Examples.fifty_words 0 __init__ Examples.garbled in
  r = Some (_get_error_response "Invalid JSON response from API") /\
  full_transcript s = [Examples.fifty_words] /\
  word_count s = 50 /\
  last_analysis_word_count s = 50 /\
  latest_analysis s = None.
Proof.
  pose proof (malformed_completion_is_contained Examples.loads Examples.fifty_words 0
                __init__ Examples.garbled "Sorry, here is a summary"
                "Expecting value: line 1 column 1 (char 0)") as H.
  assert (Hdue : WORDS_PER_ANALYSIS
                 <= word_count __init__ + count_words Examples.fifty_words
                    - last_analysis_word_count __init__)
    by (vm_compute; discriminate).
  specialize (H Hdue eq_refl eq_refl).
  destruct (add_transcript Examples.loads Examples.fifty_words 0 __init__ Examples.garbled)
    as [[r s] w'].
  destruct H as (H1 & H2 & H3 & H4 & H5 & _).
  split; [exact H1|]. split; [exact H2|].
  split; [rewrite H3; vm_compute; reflexivity|].
  split; [rewrite H4, H3; vm_compute; reflexivity|].
  exact H5.
Defined.

End MalformedCompletionClaim.

Section CompressionFacts.
Import Py Grok Common Summarizer Spec.

Variable json_loads : string -> loads_result.

Lemma after_compression_not_due (self : MeetingSummarizer) (w : world) :
  word_count self - last_summary_word_count self < WORDS_PER_ROLLING_SUMMARY ->
  after_compression self w = (self, w).
Proof.
  intros H. unfold after_compression.
  destruct (Z.leb_spec WORDS_PER_ROLLING_SUMMARY
              (word_count self - last_summary_word_count self)).
  - lia.
  - reflexivity.
Qed.

Lemma after_compression_due (self : MeetingSummarizer) (w : world) :
  WORDS_PER_ROLLING_SUMMARY <= word_count self - last_summary_word_count self ->
  after_compression self w =
  (set_last_summary_word_count (word_count self)
     match answers w 0%nat with
     | Content summary =>
         set_rolling_summaries
           (trim_summaries MAX_PRIOR_SUMMARY_WORDS
              (rolling_summaries self ++ [summary])
              (summary_words (rolling_summaries self ++ [summary]))) self
     | ApiError _ => self
     end,
   {| answers := fun n => answers w (S n);
      calls := (calls w ++ [compression_request self])%list |}).
Proof.
  intros H. unfold after_compression.
  destruct (Z.leb_spec WORDS_PER_ROLLING_SUMMARY
              (word_count self - last_summary_word_count self)).
  - unfold _create_rolling_summary, create. simpl.
    destruct (answers w 0%nat); reflexivity.
  - lia.
Qed.

(** Requests made by one analysis pass, in order. *)
Lemma analyze_current_state_calls (elapsed : Z) (self : MeetingSummarizer) (w : world) :
  let '(_, s, w') := _analyze_current_state json_loads elapsed self w in
  calls w' =
  (calls w
   ++ (if WORDS_PER_ROLLING_SUMMARY <=? word_count self - last_summary_word_count self
       then [compression_request self] else [])
   ++ [analysis_request elapsed (fst (after_compression self w))])%list /\
  rolling_summaries s = rolling_summaries (fst (after_compression self w)) /\
  last_summary_word_count s = last_summary_word_count (fst (after_compression self w)).
Proof.
  pose proof (analyze_current_state_frame json_loads elapsed self w) as F.
  destruct (_analyze_current_state json_loads elapsed self w) as [[a s] w'].
  destruct F as ((_ & _ & _ & Hr & Hl) & Hc & _).
  split; [|split; assumption].
  rewrite Hc.
  destruct (Z.leb_spec WORDS_PER_ROLLING_SUMMARY
              (word_count self - last_summary_word_count self)) as [Hdue|Hnot].
  - rewrite (after_compression_due self w Hdue). simpl.
    rewrite <- app_assoc. reflexivity.
  - rewrite (after_compression_not_due self w Hnot). reflexivity.
Qed.

Lemma passes_app (i : instruction) (more : list request) (w w' : world) :
  calls w' = (calls w ++ more)%list ->
  passes i w'
  = (passes i w + List.length (filter (fun r => same_instruction (system r) i) more))%nat.
Proof.
  intros H. unfold passes. rewrite H, filter_app, length_app. reflexivity.
Qed.

(** A call that leaves fewer than [WORDS_PER_ROLLING_SUMMARY] words since
    the last compression makes no compression request and keeps
    [last_summary_word_count]. *)
Lemma add_transcript_no_compression (text : string) (elapsed : Z)
  (self : MeetingSummarizer) (w : world) :
  word_count self + count_words text - last_summary_word_count self
    < WORDS_PER_ROLLING_SUMMARY ->
  let '(_, s, w') := add_transcript json_loads text elapsed self w in
  passes Summarise w' = passes Summarise w /\
  word_count s = word_count self + count_words text /\
  last_summary_word_count s = last_summary_word_count self /\
  rolling_summaries s = rolling_summaries self.
Proof.
  intros H. unfold add_transcript.
  destruct (WORDS_PER_ANALYSIS <=? _).
  - pose proof (analyze_current_state_calls elapsed (ingest text self) w) as C.
    pose proof (analyze_current_state_counts json_loads elapsed (ingest text self) w) as N.
    destruct (_analyze_current_state json_loads elapsed (ingest text self) w)
      as [[a s] w'].
    rewrite (after_compression_not_due (ingest text self) w H) in C.
    destruct (Z.leb_spec WORDS_PER_ROLLING_SUMMARY
                (word_count (ingest text self) - last_summary_word_count (ingest text self)))
      as [Hdue|_]; [simpl in Hdue; lia|].
    destruct C as (Hc & Hr & Hl). destruct N as (_ & N2 & _).
    simpl in *. repeat split; try assumption.
    rewrite (passes_app Summarise _ w w' Hc). simpl. lia.
  - simpl. repeat split; reflexivity.
Qed.

Lemma add_transcript_compression_passes (text : string) (elapsed : Z)
  (self : MeetingSummarizer) (w : world) :
  let '(_, _, v) := add_transcript json_loads text elapsed self w in
  passes Summarise v =
  Nat.add (passes Summarise w)
    (if (WORDS_PER_ANALYSIS
           <=? word_count self + count_words text - last_analysis_word_count self)
        && (WORDS_PER_ROLLING_SUMMARY
              <=? word_count self + count_words text - last_summary_word_count self)
     then 1%nat else 0%nat).
Proof.
  unfold add_transcript. simpl.
  destruct (WORDS_PER_ANALYSIS
              <=? word_count self + count_words text - last_analysis_word_count self);
    simpl.
  - pose proof (analyze_current_state_calls elapsed (ingest text self) w) as D.
    destruct (_analyze_current_state json_loads elapsed (ingest text self) w)
      as [[a2 s2] w2].
    destruct D as (Dc & _).
    rewrite (passes_app Summarise _ w w2 Dc). simpl.
    destruct (WORDS_PER_ROLLING_SUMMARY
                <=? word_count self + count_words text - last_summary_word_count self);
      reflexivity.
  - lia.
Qed.

Lemma run_no_compression (segments : list (string * Z))
  (self : MeetingSummarizer) (w : world) :
  word_count self - last_summary_word_count self + total_words segments
    < WORDS_PER_ROLLING_SUMMARY ->
  let '(_, s, w') := run json_loads segments self w in
  passes Summarise w' = passes Summarise w /\
  rolling_summaries s = rolling_summaries self.
Proof.
  revert self w. induction segments as [|[text t] l IH]; intros self w H.
  - simpl. split; reflexivity.
  - unfold total_words in H; simpl in H. fold (total_words l) in H.
    pose proof (total_words_nonneg l) as Hl.
    pose proof (count_words_nonneg text) as Ht.
    simpl.
    pose proof (add_transcript_no_compression text t self w) as A.
    destruct (add_transcript json_loads text t self w) as [[r s1] w1].
    destruct A as (A1 & A2 & A3 & A4); [lia|].
    specialize (IH s1 w1).
    destruct (run json_loads l s1 w1) as [[rs s2] w2].
    destruct IH as (I1 & I2); [lia|].
    split; congruence.
Qed.

End CompressionFacts.

Section SubstringFacts.
Import Py Spec.

Lemma string_app_assoc (a b c : string) : (a ++ b) ++ c = a ++ (b ++ c).
Proof.
  induction a as [|x a IH]; simpl.
  - reflexivity.
  - rewrite IH. reflexivity.
Qed.

Lemma string_app_nil_r (a : string) : a ++ "" = a.
Proof.
  induction a as [|x a IH]; simpl.
  - reflexivity.
  - rewrite IH. reflexivity.
Qed.

Lemma starts_with_app (x rest : string) : starts_with x (x ++ rest) = true.
Proof.
  induction x as [|c x IH]; simpl.
  - reflexivity.
  - rewrite Ascii.eqb_refl. exact IH.
Qed.

Lemma starts_with_split (x y : string) :
  starts_with x y = true -> exists rest, y = x ++ rest.
Proof.
  revert y. induction x as [|c x IH]; intros y H.
  - exists y. reflexivity.
  - destruct y as [|d y]; simpl in H; [discriminate|].
    apply andb_true_iff in H. destruct H as (Hc & H).
    apply Ascii.eqb_eq in Hc. subst d.
    destruct (IH y H) as (rest & ->). exists rest. reflexivity.
Qed.

Lemma str_in_unfold (x y : string) :
  str_in x y =
  starts_with x y
  || match y with
     | EmptyString => false
     | String _ rest => str_in x rest
     end.
Proof. destruct y; reflexivity. Qed.

(** [str_in] is the substring relation. *)
Lemma str_in_within (x y : string) : str_in x y = true <-> within x y.
Proof.
  split.
  - revert x. induction y as [|c y IH]; intros x H.
    + rewrite str_in_unfold, orb_false_r in H.
      destruct (starts_with_split _ _ H) as (rest & E). exists "", rest. exact E.
    + rewrite str_in_unfold in H. apply orb_true_iff in H. destruct H as [H|H].
      * destruct (starts_with_split _ _ H) as (rest & E). exists "", rest. exact E.
      * destruct (IH x H) as (before & after & ->).
        exists (String c before), after. reflexivity.
  - intros (before & after & ->).
    induction before as [|c before IH].
    + simpl. rewrite str_in_unfold, starts_with_app. reflexivity.
    + change (String c before ++ x ++ after) with (String c (before ++ x ++ after)).
      rewrite str_in_unfold, IH. apply orb_true_r.
Qed.

Lemma within_refl (x : string) : within x x.
Proof. exists "", "". simpl. rewrite string_app_nil_r. reflexivity. Qed.

Lemma within_app_l (x y z : string) : within x y -> within x (y ++ z).
Proof.
  intros (before & after & ->). exists before, (after ++ z).
  rewrite !string_app_assoc. reflexivity.
Qed.

Lemma within_app_r (x y z : string) : within x z -> within x (y ++ z).
Proof.
  intros (before & after & ->). exists (y ++ before), after.
  rewrite !string_app_assoc. reflexivity.
Qed.

Lemma within_join (sep : string) (parts : list string) (x e : string) :
  In e parts -> within x e -> within x (join sep parts).
Proof.
  intros Hin Hx. induction parts as [|p rest IH]; [contradiction|].
  destruct Hin as [->|Hin].
  - destruct rest as [|q rest]; simpl.
    + exact Hx.
    + apply within_app_l. exact Hx.
  - destruct rest as [|q rest]; [contradiction|].
    change (join sep (p :: q :: rest)) with (p ++ sep ++ join sep (q :: rest)).
    apply within_app_r, within_app_r, IH. exact Hin.
Qed.

Lemma within_numbered (label : string) (i : Z) (summaries : list string) (x : string) :
  In x summaries ->
  exists e, In e (Common.numbered label i summaries) /\ within x e.
Proof.
  revert i. induction summaries as [|s rest IH]; intros i Hin; [contradiction|].
  destruct Hin as [->|Hin].
  - eexists. split; [left; reflexivity|].
    do 6 apply within_app_r. apply within_refl.
  - destruct (IH (i + 1) Hin) as (e & He & Hw).
    exists e. split; [right; exact He|exact Hw].
Qed.

(** Every retained rolling summary is part of the analysis context. *)
Lemma build_context_has_summaries (elapsed : Z) (self : Summarizer.MeetingSummarizer)
  (summary : string) :
  In summary (Summarizer.rolling_summaries self) ->
  str_in summary (Summarizer._build_context elapsed self) = true.
Proof.
  intros Hin. apply str_in_within.
  destruct (within_numbered "Summary" 0 _ _ Hin) as (e & He & Hw).
  unfold Summarizer._build_context.
  apply (within_join _ _ _ e); [|exact Hw].
  right. apply in_or_app. left.
  destruct (Summarizer.rolling_summaries self) as [|s rest]; [contradiction|].
  right. exact He.
Qed.

End SubstringFacts.

Section CompressionClaims.
Import Py Grok Common Summarizer Spec.

(** C7. Inside an analysis pass the compression check comes first: the
    requests the pass makes are the compression request, present exactly
    when [word_count - last_summary_word_count >= WORDS_PER_ROLLING_SUMMARY]
    (300), followed by the analysis request, whose context is built from
    the state the compression step leaves, so that every rolling summary
    retained by that step, the new one included, is in the context.
    [add_transcript] makes a compression request exactly when both
    thresholds are reached. *)
Theorem compression_precedes_analysis :
  forall (json_loads : string -> loads_result) elapsed self w,
  let due :=
    WORDS_PER_ROLLING_SUMMARY <=? word_count self - last_summary_word_count self in
  let retained :=
    if due then
      match answers w 0%nat with
      | Content summary =>
          trim_summaries MAX_PRIOR_SUMMARY_WORDS (rolling_summaries self ++ [summary])
            (summary_words (rolling_summaries self ++ [summary]))
      | ApiError _ => rolling_summaries self
      end
    else rolling_summaries self in
  let compressed :=
    set_last_summary_word_count
      (if due then word_count self else last_summary_word_count self)
      (set_rolling_summaries retained self) in
  let '(_, s, w') := _analyze_current_state json_loads elapsed self w in
  WORDS_PER_ROLLING_SUMMARY = 300 /\
  calls w' =
    (calls w ++ (if due then [compression_request self] else [])
     ++ [{| system := Analyse; user := _build_context elapsed compressed;
            max_tokens := 1000; json_object := true |}])%list /\
  Forall (fun summary => str_in summary (_build_context elapsed compressed) = true)
    retained /\
  rolling_summaries s = retained /\
  (forall text,
     let '(_, _, v) := add_transcript json_loads text elapsed self w in
     passes Summarise v =
     Nat.add (passes Summarise w)
       (if (WORDS_PER_ANALYSIS
              <=? word_count self + count_words text - last_analysis_word_count self)
           && (WORDS_PER_ROLLING_SUMMARY
                 <=? word_count self + count_words text - last_summary_word_count self)
        then 1%nat else 0%nat)).
Proof.
  intros json_loads elapsed self w due retained compressed.
  assert (Hstep : after_compression self w
                  = (compressed,
                     if due
                     then {| answers := fun n => answers w (S n);
                             calls := (calls w ++ [compression_request self])%list |}
                     else w)).
  { subst compressed retained due.
    destruct (Z.leb_spec WORDS_PER_ROLLING_SUMMARY
                (word_count self - last_summary_word_count self)) as [Hdue|Hnot].
    - rewrite (after_compression_due self w Hdue).
      destruct (answers w 0%nat); destruct self; reflexivity.
    - rewrite (after_compression_not_due self w Hnot). destruct self; reflexivity. }
  pose proof (analyze_current_state_calls json_loads elapsed self w) as C.
  destruct (_analyze_current_state json_loads elapsed self w) as [[a s] w'].
  rewrite Hstep in C. simpl in C. destruct C as (Hc & Hr & _).
  split; [reflexivity|]. split; [exact Hc|]. split; [|split; [exact Hr|]].
  - apply Forall_forall. intros summary Hin.
    apply build_context_has_summaries. exact Hin.
  - intros text. apply add_transcript_compression_passes.
Qed.

(** C10. When the call of a due compression pass raises, the rolling
    summaries are exactly as before, while [last_summary_word_count]
    advances to the current total; from there no compression request is
    made by any continuation of fewer than [WORDS_PER_ROLLING_SUMMARY]
    (300) words. *)
Theorem failed_compression_still_advances :
  forall (json_loads : string -> loads_result) text elapsed self w msg,
  WORDS_PER_ANALYSIS
    <= word_count self + count_words text - last_analysis_word_count self ->
  WORDS_PER_ROLLING_SUMMARY
    <= word_count self + count_words text - last_summary_word_count self ->
  answers w 0%nat = ApiError msg ->
  let '(_, s, w') := add_transcript json_loads text elapsed self w in
  passes Summarise w' = S (passes Summarise w) /\
  rolling_summaries s = rolling_summaries self /\
  word_count s = word_count self + count_words text /\
  last_summary_word_count s = word_count s /\
  (forall segments v,
     total_words segments < 300 ->
     let '(_, s2, v') := run json_loads segments s v in
     passes Summarise v' = passes Summarise v /\
     rolling_summaries s2 = rolling_summaries self).
Proof.
  intros json_loads text elapsed self w msg Ha Hs Hfail.
  rewrite add_transcript_reached by assumption.
  pose proof (analyze_current_state_calls json_loads elapsed (ingest text self) w) as C.
  pose proof (analyze_current_state_counts json_loads elapsed (ingest text self) w) as N.
  destruct (_analyze_current_state json_loads elapsed (ingest text self) w) as [[a s] w'].
  rewrite (after_compression_due (ingest text self) w Hs), Hfail in C.
  destruct (Z.leb_spec WORDS_PER_ROLLING_SUMMARY
              (word_count (ingest text self) - last_summary_word_count (ingest text self)))
    as [_|Hnot]; [|simpl in Hnot; lia].
  destruct C as (Hc & Hr & Hl). destruct N as (_ & Hw & _). simpl in Hc, Hr, Hl, Hw.
  simpl. split; [|split; [exact Hr|split; [exact Hw|split; [congruence|]]]].
  - rewrite (passes_app Summarise _ w w' Hc). simpl. lia.
  - intros segments v Hlt.
    pose proof (run_no_compression json_loads segments
                  (set_last_analysis_word_count (word_count s) s) v) as R.
    destruct (run json_loads segments (set_last_analysis_word_count (word_count s) s) v)
      as [[rs s2] v'].
    simpl in R. rewrite Hr in R. apply R.
    unfold WORDS_PER_ROLLING_SUMMARY. lia.
Qed.

Lemma failed_compression_still_advances_witness :
  let '(_, s, w') :=
    add_transcript Examples.loads (Examples.prose 300) 0 __init__ Examples.unreachable in
  passes Summarise w' = 1%nat /\
  rolling_summaries s = [] /\
  last_summary_word_count s = 300 /\
  (let '(_, s2, v') := run Examples.loads Examples.ten_short s Examples.agreeable in
   passes Summarise v' = 0%nat /\ rolling_summaries s2 = []).
Proof.
  pose proof (failed_compression_still_advances Examples.loads (Examples.prose 300) 0
                __init__ Examples.unreachable "Connection error.") as H.
  assert (Ha : WORDS_PER_ANALYSIS
               <= word_count __init__ + count_words (Examples.prose 300)
                  - last_analysis_word_count __init__) by (vm_compute; discriminate).
  assert (Hs : WORDS_PER_ROLLING_SUMMARY
               <= word_count __init__ + count_words (Examples.prose 300)
                  - last_summary_word_count __init__) by (vm_compute; discriminate).
  specialize (H Ha Hs eq_refl).
  destruct (add_transcript Examples.loads (Examples.prose 300) 0 __init__
              Examples.unreachable) as [[r s] w'].
  destruct H as (H1 & H2 & H3 & H4 & H5).
  split; [exact H1|]. split; [exact H2|].
  split; [rewrite H4, H3; vm_compute; reflexivity|].
  apply (H5 Examples.ten_short Examples.agreeable). vm_compute. reflexivity.
Defined.

End CompressionClaims.

Section DictFacts.
Import Py Spec.

Lemma dict_get_set (k k' : string) (v : json) (d : dict) :
  dict_get k (dict_set k' v d) = if String.eqb k k' then Some v else dict_get k d.
Proof.
  induction d as [|[k0 v0] rest IH]; simpl.
  - reflexivity.
  - destruct (String.eqb_spec k' k0) as [->|Hne]; simpl.
    + destruct (String.eqb k k0); reflexivity.
    + rewrite IH.
      destruct (String.eqb_spec k k') as [->|_]; [|reflexivity].
      destruct (String.eqb_spec k' k0) as [E|_]; [contradiction|reflexivity].
Qed.

Lemma dict_has_get (k : string) (d : dict) :
  dict_has k d = true <-> exists v, dict_get k d = Some v.
Proof.
  unfold dict_has. destruct (dict_get k d) as [v|].
  - split; [intros _; exists v; reflexivity|reflexivity].
  - split; [discriminate|intros (v & H); discriminate].
Qed.

End DictFacts.

Section ValidationFacts.
Import Py Grok Common Spec.

Variable default : string -> json.

Lemma fill_required_cons (key : string) (rest : list string) (analysis : json) :
  fill_required default (key :: rest) analysis =
  match contains key analysis with
  | Raise e => Raise e
  | Ok true => fill_required default rest analysis
  | Ok false =>
      match setitem key (default key) analysis with
      | Raise e => Raise e
      | Ok analysis' => fill_required default rest analysis'
      end
  end.
Proof. reflexivity. Qed.

(** On a dict the loop never raises and fills the missing keys. *)
Lemma fill_required_object (keys : list string) (d : dict) :
  exists d',
    fill_required default keys (JObj d) = Ok (JObj d') /\ filled default keys d d'.
Proof.
  revert d. induction keys as [|key rest IH]; intros d.
  - exists d. split; [reflexivity|]. intros k. simpl. destruct (dict_get k d); reflexivity.
  - rewrite fill_required_cons. simpl contains. unfold dict_has.
    destruct (dict_get key d) as [v|] eqn:Hkey.
    + destruct (IH d) as (d' & Hfill & Hd'). exists d'. split; [exact Hfill|].
      intros k. rewrite (Hd' k). destruct (dict_get k d) eqn:Hk; [reflexivity|].
      simpl. destruct (String.eqb_spec k key) as [->|_]; [|reflexivity].
      rewrite Hkey in Hk. discriminate.
    + simpl setitem.
      destruct (IH (dict_set key (default key) d)) as (d' & Hfill & Hd').
      exists d'. split; [exact Hfill|].
      intros k. rewrite (Hd' k), dict_get_set. simpl.
      destruct (String.eqb_spec k key) as [->|_].
      * rewrite Hkey. reflexivity.
      * reflexivity.
Qed.

Lemma filled_has_keys (keys : list string) (d d' : dict) :
  filled default keys d d' -> Forall (fun key => dict_has key d' = true) keys.
Proof.
  intros H. apply Forall_forall. intros key Hin.
  apply dict_has_get. rewrite (H key).
  destruct (dict_get key d) as [v|].
  - exists v. reflexivity.
  - assert (E : existsb (String.eqb key) keys = true).
    { apply existsb_exists. exists key. split; [exact Hin|apply String.eqb_refl]. }
    rewrite E. exists (default key). reflexivity.
Qed.




End ValidationFacts.

Section RequiredKeysFacts.
Import Py Grok Common Spec.

Variable json_loads : string -> loads_result.



Lemma summarizer2_error_response_has_keys (msg : string) :
  has_keys Summarizer2.required_keys (Summarizer2._get_error_response msg).
Proof. simpl. repeat constructor. Qed.





End RequiredKeysFacts.

Section DeduplicationFacts.
Import Py Grok Common Summarizer2 Spec.

Lemma any_similar_existsb (item : string) (previous : list string) :
  any_similar (lower item) previous = existsb (similar item) previous.
Proof.
  induction previous as [|prev rest IH]; simpl.
  - reflexivity.
  - unfold similar at 1.
    destruct (str_in (lower item) (lower prev) || str_in (lower prev) (lower item)).
    + reflexivity.
    + exact IH.
Qed.

(** The code's test is the policy. *)
Lemma is_duplicate_policy (item : string) (history : list string) :
  is_duplicate (JStr item) history = Ok (duplicate item history).
Proof.
  unfold is_duplicate, duplicate. simpl. rewrite any_similar_existsb. reflexivity.
Qed.



Lemma keep_new_strings (items history : list string) :
  keep_new (map JStr items) history = Ok (map JStr (survivors items history)).
Proof.
  induction items as [|item rest IH].
  - reflexivity.
  - change (keep_new (map JStr (item :: rest)) history)
      with (duplicate0 <- is_duplicate (JStr item) history ;;
            kept <- keep_new (map JStr rest) history ;;
            Ok (if duplicate0 then kept else JStr item :: kept)).
    rewrite is_duplicate_policy, IH. simpl.
    destruct (duplicate item history); reflexivity.
Qed.

Lemma strings_map_JStr (items : list string) : strings (map JStr items) = items.
Proof.
  induction items as [|item rest IH]; simpl.
  - reflexivity.
  - rewrite IH. reflexivity.
Qed.




End DeduplicationFacts.

Section RequiredKeysFacts2.
Import Py Grok Common Spec.

Variable json_loads : string -> loads_result.


Lemma analyze_current_state2_steps (elapsed : Z) (self : Summarizer2.MeetingSummarizer)
  (w : world) :
  Summarizer2._analyze_current_state json_loads elapsed self w =
  let '(self1, w1) := after_compression2 self w in
  let '(response, w2) :=
    create {| system := Analyse; user := Summarizer2._build_context elapsed self1;
              max_tokens := 1500; json_object := true |} w1 in
  match response with
  | ApiError msg => (Summarizer2._get_error_response msg, self1, w2)
  | Content response_text =>
      match json_loads response_text with
      | JSONDecodeError _ =>
          (Summarizer2._get_error_response "Invalid JSON from API", self1, w2)
      | Decoded parsed =>
          match Summarizer2.analyze_parsed parsed self1 with
          | (Ok analysis, self2) => (analysis, self2, w2)
          | (Raise e, self2) =>
              (Summarizer2._get_error_response (str_of_exn e), self2, w2)
          end
      end
  end.
Proof. reflexivity. Qed.


(** The compression step of [summarizer_2.py] leaves the ledger, the word
    count and the two histories alone. *)
Lemma after_compression2_frame (self : Summarizer2.MeetingSummarizer) (w : world) :
  let s := fst (after_compression2 self w) in
  Summarizer2.previous_issues s = Summarizer2.previous_issues self /\
  Summarizer2.previous_recommendations s = Summarizer2.previous_recommendations self /\
  Summarizer2.full_transcript s = Summarizer2.full_transcript self /\
  Summarizer2.word_count s = Summarizer2.word_count self.
Proof.
  unfold after_compression2.
  destruct (Summarizer2.WORDS_PER_ROLLING_SUMMARY <=? _).
  - unfold Summarizer2._create_rolling_summary, create. simpl.
    destruct (answers w 0%nat); simpl; repeat split; reflexivity.
  - simpl. repeat split; reflexivity.
Qed.






End RequiredKeysFacts2.

Section RequiredKeysClaim.
Import Py Grok Common Spec.



End RequiredKeysClaim.

Section DeduplicationPass.
Import Py Grok Common Summarizer2 Spec.



End DeduplicationPass.

Section DeduplicationClaim.
Import Py Grok Common Summarizer2 Spec.



End DeduplicationClaim.

Section WindowFacts.
Import Py AudioProcessor Spec.

Variable env : Type.
Variable on_transcript : string -> env -> env * bool.





(** One call of [_transcribe_buffer]: the whole buffer is submitted; the
    overlap is kept when the call runs to its end, and nothing changes in
    the processor when it raises. *)
Lemma transcribe_buffer_spec (self : AudioProcessor) (e : ear) (v : env) :
  _transcribe_buffer env on_transcript self e v =
  (if completes on_transcript e v then keep_overlap self else self,
   {| hears := fun n => hears e (S n);
      windows := (windows e ++ [audio_buffer self])%list |},
   after_callback on_transcript e v).
Proof.
  unfold _transcribe_buffer, transcribe, completes, after_callback. simpl.
  destruct (hears e 0%nat) as [|texts]; [reflexivity|].
  destruct (strip (combine_segments texts)) as [|c t]; [reflexivity|].
  destruct (on_transcript (String c t) v) as [v' [|]]; reflexivity.
Qed.






(** One turn of the loop, by cases. *)
Lemma process_spec (audio_data : list Byte.byte) (self : AudioProcessor)
  (e : ear) (v : env) :
  process env on_transcript audio_data self e v =
  match frombuffer audio_data with
  | None => (self, e, v)
  | Some audio_np =>
      if Qle_bool CHUNK_DURATION_SECONDS (buffer_duration (extended audio_np self))
      then _transcribe_buffer env on_transcript (extended audio_np self) e v
      else (extended audio_np self, e, v)
  end.
Proof. reflexivity. Qed.





End WindowFacts.

Section ThresholdClaim.
Import Py AudioProcessor Spec.


Lemma stop_recording_spec (env : Type) (on_transcript : string -> env -> env * bool)
  (self : AudioProcessor) (e : ear) (v : env) :
  stop_recording env on_transcript self e v =
  let stopped :=
    {| is_recording := false; stream := false;
       processing_thread := processing_thread self;
       audio_buffer := audio_buffer self;
       buffer_duration := buffer_duration self |} in
  if Qle_bool (buffer_duration self) 1
  then (stopped, e, v)
  else _transcribe_buffer env on_transcript stopped e v.
Proof.
  unfold stop_recording. simpl.
  destruct (Qle_bool (buffer_duration self) 1); reflexivity.
Qed.




End ThresholdClaim.

Section OverlapClaim.
Import Py AudioProcessor Spec.







End OverlapClaim.

Section SecondStopClaim.
Import Py Grok AudioProcessor Spec.

(** C5 as worded fails. After seven chunks and a first stop that ran to
    its end, a second stop reports a completed recording like the first,
    submits the 24000-sample overlap tail to the engine once more, stores
    the transcript it yields as a third segment, and replaces the final
    report by a newly generated one. *)
Lemma second_stop_counterexample :
  let '(n1, st1, file1, e1, _) := Examples.first_stop in
  let '(n2, st2, file2, e2, _) := Examples.second_stop in
  n1 = App.RecordingComplete /\
  n2 = App.RecordingComplete /\
  Examples.window_sizes e1 = [49152; 32192] /\
  Examples.window_sizes e2 = [49152; 32192; 24000] /\
  file1 = ["hello  there"; "hello  there"] /\
  file2 = ["hello  there"; "hello  there"; "hello  there"] /\
  App.final_summary st1 <> App.final_summary st2.
Proof.
  vm_compute. repeat split. intros H. discriminate H.
Qed.

(** A stopped processor has its flag down and its stream closed. *)
Lemma stop_recording_stopped (env : Type) (on_transcript : string -> env -> env * bool)
  (self : AudioProcessor) (e : ear) (v : env) :
  is_recording (fst (fst (stop_recording env on_transcript self e v))) = false /\
  stream (fst (fst (stop_recording env on_transcript self e v))) = false.
Proof.
  rewrite stop_recording_spec. cbv zeta.
  destruct (Qle_bool (buffer_duration self) 1); [split; reflexivity|].
  rewrite transcribe_buffer_spec. cbn [fst].
  destruct (completes on_transcript e v); [|split; reflexivity].
  unfold keep_overlap. destruct (_ <? _); split; reflexivity.
Qed.

(** Stopping a stopped processor whose buffer holds at most one second
    changes nothing. *)
Lemma stop_recording_nothing_left (env : Type)
  (on_transcript : string -> env -> env * bool)
  (self : AudioProcessor) (e : ear) (v : env) :
  is_recording self = false -> stream self = false ->
  Qle_bool (buffer_duration self) 1 = true ->
  stop_recording env on_transcript self e v = (self, e, v).
Proof.
  intros Hr Hs Hd. rewrite stop_recording_spec. cbv zeta. rewrite Hd.
  destruct self as [r st th buf d]. simpl in Hr, Hs. subst r st. reflexivity.
Qed.

Lemma stop_recording_flushes (env : Type) (on_transcript : string -> env -> env * bool)
  (self : AudioProcessor) (e : ear) (v : env) :
  Qle_bool (buffer_duration self) 1 = false ->
  windows (snd (fst (stop_recording env on_transcript self e v)))
  = (windows e ++ [audio_buffer self])%list.
Proof.
  intros Hd. rewrite stop_recording_spec. cbv zeta. rewrite Hd.
  rewrite transcribe_buffer_spec. reflexivity.
Qed.

(** One call of the application's [stop_recording], by cases: it never
    looks at [is_recording] or at the report already stored. *)
Lemma app_stop_recording_spec (json_loads : string -> loads_result) (xai_key : bool)
  (clock : nat -> Z) (st : App.session_state) (file : list string) (e : ear)
  (w : world) :
  let '(n, st', file', _, w') :=
    App.stop_recording json_loads xai_key clock st file e w in
  App.is_recording st' = false /\
  match file' with
  | [] => n = App.NoTranscriptsFound /\ App.final_summary st' = App.final_summary st
  | _ =>
      n = App.RecordingComplete /\
      if xai_key then
        let '(_, fresh, w1) :=
          Summarizer2.run json_loads (App.timed clock 0 file') Summarizer2.__init__ w in
        App.final_summary st'
        = Some (fst (Summarizer2.get_final_summary json_loads
                       (clock (List.length file')) fresh w1))
      else App.final_summary st' = App.final_summary st
  end.
Proof.
  unfold App.stop_recording.
  destruct (match App.audio_processor st with
            | Some p =>
                let '(p', e', file') :=
                  stop_recording (list string) App.on_new_transcript p e file in
                (Some p', e', file')
            | None => (None, e, file)
            end) as [[processor e1] file1].
  destruct file1 as [|seg rest].
  - split; [reflexivity|]. split; reflexivity.
  - destruct xai_key.
    + destruct (Summarizer2.run json_loads (App.timed clock 0 (seg :: rest))
                  Summarizer2.__init__ w) as [[rs fresh] w1] eqn:Erun.
      destruct (Summarizer2.get_final_summary json_loads
                  (clock (List.length (seg :: rest))) fresh w1) as [report w2] eqn:Efin.
      cbv beta iota zeta. rewrite Erun, Efin.
      split; [reflexivity|]. split; reflexivity.
    + split; [reflexivity|]. split; reflexivity.
Qed.

(** C5, amended. A second stop right after a completed stop is not
    rejected: [AudioProcessor.stop_recording] has no check of the recording
    state and runs again. It makes no further transcription and changes
    nothing exactly when the first call left a buffer duration of at most
    one second (nothing to flush, or a completed flush of at most 24000
    samples); when the first call's flush of a longer buffer ran to its end
    it left the 1.5 s overlap tail, which the second call submits again.
    The application's [stop_recording] reports a completed recording and
    generates the final report anew on every call that finds stored
    segments; it reports missing transcripts otherwise. *)
Theorem second_stop_repeats_flush :
  forall (env : Type) (on_transcript : string -> env -> env * bool),
  (forall self e v,
     let '(p1, e1, v1) := stop_recording env on_transcript self e v in
     let '(p2, e2, v2) := stop_recording env on_transcript p1 e1 v1 in
     is_recording p1 = false /\ is_recording p2 = false /\
     if Qle_bool (buffer_duration p1) 1
     then p2 = p1 /\ e2 = e1 /\ v2 = v1
     else windows e2 = (windows e1 ++ [audio_buffer p1])%list) /\
  (forall self e v,
     Qle_bool (buffer_duration self) 1 = false ->
     completes on_transcript e v = true ->
     let p1 := fst (fst (stop_recording env on_transcript self e v)) in
     if overlap_samples <? Z.of_nat (List.length (audio_buffer self))
     then audio_buffer p1 = lastn (Z.to_nat overlap_samples) (audio_buffer self) /\
          buffer_duration p1 = OVERLAP_SECONDS /\
          Qle_bool (buffer_duration p1) 1 = false
     else audio_buffer p1 = [] /\ Qle_bool (buffer_duration p1) 1 = true) /\
  (forall self e v,
     Qle_bool (buffer_duration self) 1 = true ->
     let '(p1, e1, v1) := stop_recording env on_transcript self e v in
     e1 = e /\ v1 = v /\ Qle_bool (buffer_duration p1) 1 = true) /\
  (forall json_loads xai_key clock st file e w,
     let '(n, st', file', _, w') :=
       App.stop_recording json_loads xai_key clock st file e w in
     App.is_recording st' = false /\
     match file' with
     | [] => n = App.NoTranscriptsFound /\ App.final_summary st' = App.final_summary st
     | _ =>
         n = App.RecordingComplete /\
         if xai_key then
           let '(_, fresh, w1) :=
             Summarizer2.run json_loads (App.timed clock 0 file') Summarizer2.__init__ w in
           App.final_summary st'
           = Some (fst (Summarizer2.get_final_summary json_loads
                          (clock (List.length file')) fresh w1))
         else App.final_summary st' = App.final_summary st
     end).
Proof.
  intros env on_transcript. split; [|split; [|split]].
  - intros self e v.
    destruct (stop_recording_stopped env on_transcript self e v) as (R1 & S1).
    destruct (stop_recording env on_transcript self e v) as [[p1 e1] v1].
    cbn [fst] in R1, S1.
    destruct (stop_recording_stopped env on_transcript p1 e1 v1) as (R2 & _).
    pose proof (stop_recording_flushes env on_transcript p1 e1 v1) as F.
    pose proof (stop_recording_nothing_left env on_transcript p1 e1 v1 R1 S1) as N.
    destruct (stop_recording env on_transcript p1 e1 v1) as [[p2 e2] v2].
    cbn [fst snd] in R2, F.
    split; [exact R1|]. split; [exact R2|].
    destruct (Qle_bool (buffer_duration p1) 1).
    + specialize (N eq_refl). injection N as -> -> ->. repeat split; reflexivity.
    + exact (F eq_refl).
  - intros self e v Hd Hc. cbv zeta.
    rewrite stop_recording_spec. cbv zeta. rewrite Hd, transcribe_buffer_spec, Hc.
    cbn [fst]. unfold keep_overlap. cbn [audio_buffer].
    destruct (overlap_samples <? Z.of_nat (List.length (audio_buffer self)));
      repeat split; reflexivity.
  - intros self e v Hd. rewrite stop_recording_spec. cbv zeta. rewrite Hd.
    repeat split; try reflexivity. exact Hd.
  - intros json_loads xai_key clock st file e w.
    apply app_stop_recording_spec.
Qed.

Lemma second_stop_repeats_flush_witness :
  (let p1 :=
     fst (fst (stop_recording (list string) Examples.collect (Examples.after_chunks 7)
                 Examples.hearing [])) in
   buffer_duration p1 = OVERLAP_SECONDS /\ Qle_bool (buffer_duration p1) 1 = false) /\
  (let '(p1, e1, v1) :=
     stop_recording (list string) Examples.collect Examples.started Examples.hearing [] in
   e1 = Examples.hearing /\ v1 = [] /\ Qle_bool (buffer_duration p1) 1 = true).
Proof.
  destruct (second_stop_repeats_flush (list string) Examples.collect)
    as (_ & Hflush & Hnone & _).
  split.
  - assert (Hd : Qle_bool (buffer_duration (Examples.after_chunks 7)) 1 = false)
      by (vm_compute; reflexivity).
    assert (Hl : (overlap_samples
                  <? Z.of_nat (List.length (audio_buffer (Examples.after_chunks 7))))
                 = true) by (vm_compute; reflexivity).
    pose proof (Hflush (Examples.after_chunks 7) Examples.hearing [] Hd eq_refl) as W.
    cbv zeta in W. rewrite Hl in W. cbv zeta.
    destruct W as (_ & W2 & W3). split; [exact W2|exact W3].
  - apply (Hnone Examples.started Examples.hearing []). reflexivity.
Defined.

End SecondStopClaim.

(* ===================================================================== *)
(** * Further properties                                                  *)
(* ===================================================================== *)

Section SplitFacts.
Import Py Extra.

Lemma no_space_app (a b : string) :
  no_space (a ++ b) = no_space a && no_space b.
Proof.
  induction a as [|c a IH]; simpl.
  - reflexivity.
  - rewrite IH. apply andb_assoc.
Qed.

(** [split_from] on a text that continues after a space. *)
Lemma split_from_space (cur a b : string) :
  split_from cur (a ++ " " ++ b) = (split_from cur a ++ split b)%list.
Proof.
  revert cur. induction a as [|c a IH]; intros cur.
  - simpl. destruct cur; reflexivity.
  - simpl. destruct (is_space c).
    + destruct cur; [apply IH|]. simpl. f_equal. apply IH.
    + apply IH.
Qed.

Lemma split_space (a b : string) : split (a ++ " " ++ b) = (split a ++ split b)%list.
Proof. apply split_from_space. Qed.

(** The words of the joined segments are the words of the segments. *)
Lemma split_join (segments : list string) :
  split (join " " segments) = List.concat (map split segments).
Proof.
  induction segments as [|x rest IH].
  - reflexivity.
  - destruct rest as [|y rest].
    + simpl. rewrite app_nil_r. reflexivity.
    + change (join " " (x :: y :: rest)) with (x ++ " " ++ join " " (y :: rest)).
      rewrite split_space, IH. reflexivity.
Qed.

Lemma count_words_join (segments : list string) :
  count_words (join " " segments) = sum (map count_words segments).
Proof.
  unfold count_words. rewrite split_join.
  induction segments as [|x rest IH]; simpl.
  - reflexivity.
  - rewrite length_app, Nat2Z.inj_add, IH. reflexivity.
Qed.

Lemma count_words_join_snoc (segments : list string) (text : string) :
  count_words (join " " (segments ++ [text]))
  = count_words (join " " segments) + count_words text.
Proof.
  rewrite !count_words_join, map_app, sum_app. simpl. lia.
Qed.

(** What [split] yields are words. *)
Lemma split_from_words (cur s : string) :
  no_space cur = true -> Forall is_word (split_from cur s).
Proof.
  revert cur. induction s as [|c s IH]; intros cur Hcur; simpl.
  - destruct cur; constructor; [|constructor]. split; [discriminate|exact Hcur].
  - destruct (is_space c) eqn:Hc.
    + destruct cur as [|d cur]; [apply IH; reflexivity|].
      constructor; [split; [discriminate|exact Hcur]|apply IH; reflexivity].
    + apply IH. rewrite no_space_app, Hcur. simpl. rewrite Hc. reflexivity.
Qed.

Lemma split_words (s : string) : Forall is_word (split s).
Proof. apply split_from_words. reflexivity. Qed.

Lemma split_from_no_space (cur w s : string) :
  no_space w = true -> split_from cur (w ++ s) = split_from (cur ++ w) s.
Proof.
  revert cur. induction w as [|c w IH]; intros cur H; simpl.
  - rewrite string_app_nil_r. reflexivity.
  - simpl in H. apply andb_true_iff in H. destruct H as (Hc & Hw).
    apply negb_true_iff in Hc. rewrite Hc, (IH _ Hw), string_app_assoc. reflexivity.
Qed.

Lemma split_word (w : string) : is_word w -> split w = [w].
Proof.
  intros (Hne & Hw). unfold split.
  rewrite <- (string_app_nil_r w) at 1.
  rewrite (split_from_no_space _ _ _ Hw). simpl.
  destruct w; [contradiction|reflexivity].
Qed.

(** Joining words with spaces and splitting again gives the words back. *)
Lemma split_join_words (words : list string) :
  Forall is_word words -> split (join " " words) = words.
Proof.
  intros H. rewrite split_join.
  induction H as [|w rest Hw Hrest IH]; simpl.
  - reflexivity.
  - rewrite (split_word w Hw), IH. reflexivity.
Qed.

Lemma Forall_lastn {A : Type} (P : A -> Prop) (n : nat) (l : list A) :
  Forall P l -> Forall P (lastn n l).
Proof.
  intros H. unfold lastn. apply Forall_forall. intros x Hin.
  apply (proj1 (Forall_forall P l) H).
  rewrite <- (firstn_skipn (List.length l - n) l). apply in_or_app. right. exact Hin.
Qed.

End SplitFacts.


Section SessionCounters.
Import Py Grok Common Summarizer Spec Extra.

Variable json_loads : string -> loads_result.

Lemma trim_summaries_length (ceiling : Z) (summaries : list string) (total : Z) :
  (List.length (trim_summaries ceiling summaries total) <= List.length summaries)%nat.
Proof.
  revert total. induction summaries as [|x rest IH]; intros total; simpl.
  - lia.
  - destruct (ceiling <? total); [|simpl; lia].
    specialize (IH (total - count_words x)). lia.
Qed.

(** Everything one call of [add_transcript] does to the counters and to
    the counts of requests. *)
Lemma add_transcript_effect (text : string) (elapsed : Z)
  (self : MeetingSummarizer) (w : world) :
  let total := word_count self + count_words text in
  let analysed := WORDS_PER_ANALYSIS <=? total - last_analysis_word_count self in
  let summarised :=
    analysed && (WORDS_PER_ROLLING_SUMMARY <=? total - last_summary_word_count self) in
  let '(_, s, w') := add_transcript json_loads text elapsed self w in
  full_transcript s = (full_transcript self ++ [text])%list /\
  word_count s = total /\
  last_analysis_word_count s
    = (if analysed then total else last_analysis_word_count self) /\
  last_summary_word_count s
    = (if summarised then total else last_summary_word_count self) /\
  passes Analyse w' = Nat.add (passes Analyse w) (if analysed then 1%nat else 0%nat) /\
  passes Summarise w'
    = Nat.add (passes Summarise w) (if summarised then 1%nat else 0%nat) /\
  (List.length (rolling_summaries s)
   <= List.length (rolling_summaries self) + (if summarised then 1 else 0))%nat.
Proof.
  cbv zeta.
  pose proof (add_transcript_compression_passes json_loads text elapsed self w) as P.
  destruct (Z.leb_spec WORDS_PER_ANALYSIS
              (word_count self + count_words text - last_analysis_word_count self))
    as [Hdue|Hnot].
  - rewrite add_transcript_reached in * by assumption.
    pose proof (analyze_current_state_counts json_loads elapsed (ingest text self) w) as N.
    pose proof (analyze_current_state_calls json_loads elapsed (ingest text self) w) as C.
    destruct (_analyze_current_state json_loads elapsed (ingest text self) w) as [[a s] w'].
    destruct N as (N1 & N2 & N3 & N4). destruct C as (_ & C2 & C3).
    simpl in N1, N2, N3. cbn [andb]. cbn [word_count last_summary_word_count rolling_summaries
      full_transcript last_analysis_word_count set_last_analysis_word_count].
    split; [exact N1|]. split; [exact N2|]. split; [exact N2|].
    rewrite C2, C3.
    destruct (Z.leb_spec WORDS_PER_ROLLING_SUMMARY
                (word_count self + count_words text - last_summary_word_count self))
      as [Hs|Hs].
    + rewrite (after_compression_due (ingest text self) w Hs).
      split; [reflexivity|]. split; [lia|]. split; [exact P|].
      cbn [fst rolling_summaries set_last_summary_word_count].
      destruct (answers w 0%nat) as [msg|summary];
        cbn [rolling_summaries set_rolling_summaries ingest].
      * lia.
      * pose proof (trim_summaries_length MAX_PRIOR_SUMMARY_WORDS
                      (rolling_summaries self ++ [summary])
                      (summary_words (rolling_summaries self ++ [summary]))) as L.
        rewrite length_app in L. simpl in L. exact L.
    + rewrite (after_compression_not_due (ingest text self) w Hs).
      split; [reflexivity|]. split; [lia|]. split; [exact P|].
      cbn [fst rolling_summaries ingest]. lia.
  - rewrite add_transcript_below in * by assumption. cbn [andb].
    simpl. repeat split; try reflexivity; lia.
Qed.

Lemma add_transcript_in_step (text : string) (elapsed : Z)
  (self : MeetingSummarizer) (w : world) :
  in_step self ->
  in_step (snd (fst (add_transcript json_loads text elapsed self w))).
Proof.
  intros (H1 & H2 & H3 & H4 & H5).
  pose proof (add_transcript_effect text elapsed self w) as E. cbv zeta in E.
  destruct (add_transcript json_loads text elapsed self w) as [[r s] w']. cbn [fst snd].
  destruct E as (E1 & E2 & E3 & E4 & _).
  pose proof (count_words_nonneg text) as Ht.
  unfold in_step. rewrite E1, E2, E3, E4, count_words_join_snoc, <- H1.
  unfold WORDS_PER_ANALYSIS, WORDS_PER_ROLLING_SUMMARY in *.
  destruct (Z.leb_spec 50 (word_count self + count_words text - last_analysis_word_count self));
    destruct (Z.leb_spec 300 (word_count self + count_words text - last_summary_word_count self));
    cbn [andb]; repeat split; lia.
Qed.

Lemma add_transcript_paid_for (text : string) (elapsed : Z)
  (self : MeetingSummarizer) (w : world) :
  paid_for self w ->
  let '(_, s, w') := add_transcript json_loads text elapsed self w in
  paid_for s w'.
Proof.
  intros (H1 & H2 & H3 & H4).
  pose proof (add_transcript_effect text elapsed self w) as E. cbv zeta in E.
  destruct (add_transcript json_loads text elapsed self w) as [[r s] w'].
  destruct E as (_ & _ & E3 & E4 & E5 & E6 & E7).
  unfold paid_for. rewrite E3, E4, E5, E6.
  unfold WORDS_PER_ANALYSIS, WORDS_PER_ROLLING_SUMMARY in *.
  destruct (Z.leb_spec 50 (word_count self + count_words text - last_analysis_word_count self));
    destruct (Z.leb_spec 300 (word_count self + count_words text - last_summary_word_count self));
    cbn [andb] in *; repeat split; lia.
Qed.

Lemma run_in_step (segments : list (string * Z)) (self : MeetingSummarizer) (w : world) :
  in_step self ->
  let '(_, s, _) := run json_loads segments self w in
  in_step s /\
  full_transcript s = (full_transcript self ++ map fst segments)%list /\
  word_count s = word_count self + total_words segments.
Proof.
  revert self w. induction segments as [|[text t] rest IH]; intros self w Hs.
  - simpl. rewrite app_nil_r. unfold total_words. simpl.
    repeat split; try apply Hs. lia.
  - simpl.
    pose proof (add_transcript_in_step text t self w Hs) as S1.
    pose proof (add_transcript_effect text t self w) as E. cbv zeta in E.
    destruct (add_transcript json_loads text t self w) as [[r s1] w1]. cbn [fst snd] in S1.
    destruct E as (E1 & E2 & _).
    specialize (IH s1 w1 S1).
    destruct (run json_loads rest s1 w1) as [[rs s2] w2].
    destruct IH as (I1 & I3 & I4).
    split; [exact I1|]. split.
    + rewrite I3, E1, <- app_assoc. reflexivity.
    + rewrite I4, E2. unfold total_words. simpl. lia.
Qed.

Lemma run_paid_for (segments : list (string * Z)) (self : MeetingSummarizer) (w : world) :
  paid_for self w ->
  let '(_, s, w') := run json_loads segments self w in
  paid_for s w'.
Proof.
  revert self w. induction segments as [|[text t] rest IH]; intros self w Hp.
  - exact Hp.
  - simpl.
    pose proof (add_transcript_paid_for text t self w Hp) as P1.
    destruct (add_transcript json_loads text t self w) as [[r s1] w1].
    specialize (IH s1 w1 P1).
    destruct (run json_loads rest s1 w1) as [[rs s2] w2]. exact IH.
Qed.

Lemma add_transcript_never_finalises (text : string) (elapsed : Z)
  (self : MeetingSummarizer) (w : world) :
  passes Finalise (snd (add_transcript json_loads text elapsed self w))
  = passes Finalise w.
Proof.
  unfold add_transcript.
  destruct (WORDS_PER_ANALYSIS <=? _); [|reflexivity].
  pose proof (analyze_current_state_calls json_loads elapsed (ingest text self) w) as C.
  destruct (_analyze_current_state json_loads elapsed (ingest text self) w) as [[a s] w'].
  destruct C as (C & _). cbn [snd].
  rewrite (passes_app Finalise _ w w' C).
  destruct (WORDS_PER_ROLLING_SUMMARY <=? _); simpl; lia.
Qed.

Lemma run_never_finalises (segments : list (string * Z))
  (self : MeetingSummarizer) (w : world) :
  passes Finalise (snd (run json_loads segments self w)) = passes Finalise w.
Proof.
  revert self w. induction segments as [|[text t] rest IH]; intros self w.
  - reflexivity.
  - simpl.
    pose proof (add_transcript_never_finalises text t self w) as A.
    destruct (add_transcript json_loads text t self w) as [[r s1] w1].
    specialize (IH s1 w1).
    destruct (run json_loads rest s1 w1) as [[rs s2] w2].
    cbn [snd] in *. congruence.
Qed.

End SessionCounters.

Section SessionClaims.
Import Py Grok Common Summarizer Spec Extra.

(** X1. Between calls the counters of [summarizer.py] stay in step: in
    every session the ledger holds the segments in order, the word count
    is the number of words of the joined ledger, fewer than 50 words wait
    for analysis, and the mark of the last summary never passes the mark of
    the last analysis, which never passes the word count. *)
Theorem session_counters_in_step :
  forall (json_loads : string -> loads_result) segments w,
  let '(_, s, _) := run json_loads segments __init__ w in
  full_transcript s = map fst segments /\
  word_count s = total_words segments /\
  word_count s = count_words (join " " (full_transcript s)) /\
  0 <= last_summary_word_count s /\
  last_summary_word_count s <= last_analysis_word_count s /\
  last_analysis_word_count s <= word_count s /\
  word_count s - last_analysis_word_count s < 50.
Proof.
  intros json_loads segments w.
  assert (H0 : in_step __init__).
  { unfold in_step, WORDS_PER_ANALYSIS. simpl. repeat split; lia. }
  pose proof (run_in_step json_loads segments __init__ w H0) as R.
  destruct (run json_loads segments __init__ w) as [[rs s] w'].
  destruct R as ((R1 & R2 & R3 & R4 & R5) & Rf & Rw).
  simpl in Rf, Rw. repeat split; assumption.
Qed.

(** X2. What a session costs: from a service not yet called, a session of
    [summarizer.py] makes at most one analysis request per 50 words
    ingested and one compression request per 300, never more compression
    than analysis requests, and no other request. *)
Theorem session_requests_are_bounded :
  forall (json_loads : string -> loads_result) segments w,
  calls w = [] ->
  let '(_, s, w') := run json_loads segments __init__ w in
  50 * Z.of_nat (passes Analyse w') <= total_words segments /\
  300 * Z.of_nat (passes Summarise w') <= total_words segments /\
  (passes Summarise w' <= passes Analyse w')%nat /\
  passes Finalise w' = 0%nat /\
  (List.length (rolling_summaries s) <= passes Summarise w')%nat.
Proof.
  intros json_loads segments w Hw.
  assert (H0 : in_step __init__).
  { unfold in_step, WORDS_PER_ANALYSIS. simpl. repeat split; lia. }
  assert (P0 : paid_for __init__ w).
  { unfold paid_for, passes. rewrite Hw. simpl. repeat split; lia. }
  pose proof (run_in_step json_loads segments __init__ w H0) as R.
  pose proof (run_paid_for json_loads segments __init__ w P0) as P.
  pose proof (run_never_finalises json_loads segments __init__ w) as F.
  destruct (run json_loads segments __init__ w) as [[rs s] w'].
  destruct R as ((_ & _ & R3 & R4 & _) & _ & Rw).
  destruct P as (P1 & P2 & P3 & P4). cbn [snd] in F. simpl in Rw.
  unfold WORDS_PER_ANALYSIS, WORDS_PER_ROLLING_SUMMARY in *.
  split; [lia|]. split; [lia|]. split; [exact P3|]. split; [|exact P4].
  rewrite F. unfold passes. rewrite Hw. reflexivity.
Qed.

Lemma session_requests_are_bounded_witness :
  let '(_, _, w') :=
    run Examples.loads (Examples.six_of_seven ++ [Examples.seventh]) __init__
      Examples.agreeable in
  50 * Z.of_nat (passes Analyse w') <= 50 /\ passes Finalise w' = 0%nat.
Proof.
  pose proof (session_requests_are_bounded Examples.loads
                (Examples.six_of_seven ++ [Examples.seventh]) Examples.agreeable
                eq_refl) as H.
  destruct (run Examples.loads (Examples.six_of_seven ++ [Examples.seventh]) __init__
              Examples.agreeable) as [[rs s] w'].
  destruct H as (H1 & _ & _ & H4 & _).
  split; [|exact H4].
  replace 50 with (total_words (Examples.six_of_seven ++ [Examples.seventh])) at 2
    by (vm_compute; reflexivity).
  exact H1.
Defined.

End SessionClaims.

Section FinalSummaryFacts.
Import Py Grok Common Spec Extra.

Lemma join_snoc (sep : string) (l : list string) (x : string) :
  l <> [] -> join sep (l ++ [x]) = join sep l ++ sep ++ x.
Proof.
  induction l as [|a l IH]; intros H; [contradiction|].
  destruct l as [|b l].
  - reflexivity.
  - change (join sep ((a :: b :: l) ++ [x]))
      with (a ++ sep ++ join sep ((b :: l) ++ [x])).
    rewrite IH by discriminate.
    change (join sep (a :: b :: l)) with (a ++ sep ++ join sep (b :: l)).
    rewrite !string_app_assoc. reflexivity.
Qed.

Lemma lastn_all {A : Type} (n : nat) (l : list A) :
  (List.length l <= n)%nat -> lastn n l = l.
Proof.
  intros H. unfold lastn. replace (List.length l - n)%nat with 0%nat by lia. reflexivity.
Qed.

Lemma lastn_snoc {A : Type} (n : nat) (l : list A) (x : A) :
  exists before, lastn (S n) (l ++ [x]) = (before ++ [x])%list.
Proof.
  unfold lastn. rewrite length_app, skipn_app. simpl List.length.
  exists (skipn (List.length l + 1 - S n) l).
  replace (List.length l + 1 - S n - List.length l)%nat with 0%nat by lia.
  reflexivity.
Qed.

(** The transcript part of the final request: the text itself when it has
    at most 1000 words, its last 1000 words joined by spaces otherwise. *)
Lemma final_text_words (full_text body : string) :
  body = (if 1000 <? Z.of_nat (List.length (split full_text))
          then join " " (lastn 1000 (split full_text))
          else full_text) ->
  split body = lastn 1000 (split full_text) /\
  count_words body = Z.min 1000 (count_words full_text) /\
  (count_words full_text <= 1000 -> body = full_text).
Proof.
  intros ->. unfold count_words.
  destruct (Z.ltb_spec 1000 (Z.of_nat (List.length (split full_text)))) as [Hlong|Hshort].
  - assert (Hs : split (join " " (lastn 1000 (split full_text)))
                 = lastn 1000 (split full_text)).
    { apply split_join_words, Forall_lastn, split_words. }
    rewrite Hs. split; [reflexivity|]. split; [|lia].
    rewrite lastn_length by lia. lia.
  - rewrite lastn_all by lia. split; [reflexivity|]. split; [lia|reflexivity].
Qed.

Lemma final_context_split (head : list string) (marker_long marker_full full_text : string) :
  exists before body,
    join nl (head ++ (if 1000 <? Z.of_nat (List.length (split full_text))
                      then [marker_long; join " " (lastn 1000 (split full_text))]
                      else [marker_full; full_text]))%list
    = before ++ nl ++ body /\
    body = (if 1000 <? Z.of_nat (List.length (split full_text))
            then join " " (lastn 1000 (split full_text))
            else full_text).
Proof.
  destruct (1000 <? Z.of_nat (List.length (split full_text))).
  - exists (join nl (head ++ [marker_long])), (join " " (lastn 1000 (split full_text))).
    split; [|reflexivity].
    change [marker_long; join " " (lastn 1000 (split full_text))]
      with ([marker_long] ++ [join " " (lastn 1000 (split full_text))])%list.
    rewrite app_assoc. apply join_snoc. destruct head; discriminate.
  - exists (join nl (head ++ [marker_full])), full_text.
    split; [|reflexivity].
    change [marker_full; full_text] with ([marker_full] ++ [full_text])%list.
    rewrite app_assoc. apply join_snoc. destruct head; discriminate.
Qed.

Lemma summarizer_final_summary_world (json_loads : string -> loads_result)
  (elapsed : Z) (self : Summarizer.MeetingSummarizer) (w : world) :
  exists context,
    snd (Summarizer.get_final_summary json_loads elapsed self w)
    = snd (create {| system := Finalise; user := context;
                     max_tokens := 2000; json_object := true |} w) /\
    exists before body,
      context = before ++ nl ++ body /\
      body = (if 1000 <? Z.of_nat (List.length
                                     (split (join " " (Summarizer.full_transcript self))))
              then join " " (lastn 1000 (split (join " " (Summarizer.full_transcript self))))
              else join " " (Summarizer.full_transcript self)).
Proof.
  unfold Summarizer.get_final_summary.
  eexists. split.
  - unfold create. cbn [fst snd].
    destruct (answers w 0%nat) as [msg|text]; [reflexivity|].
    destruct (json_loads text) as [parsed|msg]; [|reflexivity].
    destruct (fill_required _ _ parsed); reflexivity.
  - rewrite app_comm_cons. apply final_context_split.
Qed.

Lemma summarizer2_final_summary_world (json_loads : string -> loads_result)
  (elapsed : Z) (self : Summarizer2.MeetingSummarizer) (w : world) :
  exists context,
    snd (Summarizer2.get_final_summary json_loads elapsed self w)
    = snd (create {| system := Finalise; user := context;
                     max_tokens := 2500; json_object := true |} w) /\
    exists before body,
      context = before ++ nl ++ body /\
      body = (if 1000 <? Z.of_nat (List.length
                                     (split (join " " (Summarizer2.full_transcript self))))
              then join " " (lastn 1000 (split (join " " (Summarizer2.full_transcript self))))
              else join " " (Summarizer2.full_transcript self)).
Proof.
  unfold Summarizer2.get_final_summary.
  eexists. split.
  - unfold create. cbn [fst snd].
    destruct (answers w 0%nat) as [msg|text]; [reflexivity|].
    destruct (json_loads text) as [parsed|msg]; [|reflexivity].
    destruct (fill_required _ _ parsed); reflexivity.
  - rewrite app_comm_cons. apply final_context_split.
Qed.

End FinalSummaryFacts.

Section FinalSummaryClaims.
Import Py Grok Common Spec Extra.

(** X3. [get_final_summary] makes exactly one request, with the final
    instruction and in JSON-object mode, and changes nothing else. The
    request ends, after a line break, with the transcript text: its words
    are the last 1000 words of the joined transcript, in order, so it
    holds [min(1000, n)] words of a transcript of [n] words, and it is the
    joined transcript itself, character for character, when that has at
    most 1000 words. The same holds in [summarizer_2.py], with 2500
    response tokens instead of 2000. *)
Theorem final_summary_sends_last_thousand_words :
  forall (json_loads : string -> loads_result) elapsed,
  (forall self w,
     let full_text := join " " (Summarizer.full_transcript self) in
     let '(_, w') := Summarizer.get_final_summary json_loads elapsed self w in
     exists before body,
       calls w' = (calls w ++ [{| system := Finalise; user := before ++ nl ++ body;
                                  max_tokens := 2000; json_object := true |}])%list /\
       answers w' = (fun n => answers w (S n)) /\
       split body = lastn 1000 (split full_text) /\
       count_words body = Z.min 1000 (count_words full_text) /\
       (count_words full_text <= 1000 -> body = full_text)) /\
  (forall self w,
     let full_text := join " " (Summarizer2.full_transcript self) in
     let '(_, w') := Summarizer2.get_final_summary json_loads elapsed self w in
     exists before body,
       calls w' = (calls w ++ [{| system := Finalise; user := before ++ nl ++ body;
                                  max_tokens := 2500; json_object := true |}])%list /\
       answers w' = (fun n => answers w (S n)) /\
       split body = lastn 1000 (split full_text) /\
       count_words body = Z.min 1000 (count_words full_text) /\
       (count_words full_text <= 1000 -> body = full_text)).
Proof.
  intros json_loads elapsed. split; intros self w; cbv zeta.
  - destruct (summarizer_final_summary_world json_loads elapsed self w)
      as (context & Hw & before & body & Hc & Hb).
    destruct (Summarizer.get_final_summary json_loads elapsed self w) as [a w'].
    cbn [snd] in Hw. subst w' context.
    exists before, body. split; [reflexivity|]. split; [reflexivity|].
    exact (final_text_words _ _ Hb).
  - destruct (summarizer2_final_summary_world json_loads elapsed self w)
      as (context & Hw & before & body & Hc & Hb).
    destruct (Summarizer2.get_final_summary json_loads elapsed self w) as [a w'].
    cbn [snd] in Hw. subst w' context.
    exists before, body. split; [reflexivity|]. split; [reflexivity|].
    exact (final_text_words _ _ Hb).
Qed.

End FinalSummaryClaims.

Section EvictionFacts.
Import Py Grok Common Spec Extra.





End EvictionFacts.

Section EvictionClaims.
Import Py Grok Common Spec Extra.



End EvictionClaims.

Section ContextFacts.
Import Py Grok Common Summarizer Spec Extra.

Variable json_loads : string -> loads_result.

Lemma within_join_last (sep : string) (n : nat) (l : list string) (x : string) :
  within x (join sep (lastn (S n) (l ++ [x]))).
Proof.
  destruct (lastn_snoc n l x) as (before & ->).
  apply (within_join sep _ x x); [|apply within_refl].
  apply in_or_app. right. left. reflexivity.
Qed.

(** The analysis context holds the recent transcript, so the last segment
    of the ledger. *)
Lemma build_context_has_last_segment (elapsed : Z) (self : MeetingSummarizer)
  (l : list string) (text : string) :
  full_transcript self = (l ++ [text])%list ->
  within text (_build_context elapsed self).
Proof.
  intros H. unfold _build_context. rewrite H.
  destruct (lastn_snoc 2 l text) as (before & E). rewrite E.
  apply (within_join nl _ text (join " " (before ++ [text]))).
  - right. apply in_or_app. right.
    destruct (before ++ [text])%list eqn:B; [destruct before; discriminate|].
    right. left. reflexivity.
  - apply (within_join " " _ text text); [|apply within_refl].
    apply in_or_app. right. left. reflexivity.
Qed.

End ContextFacts.

Section ContextClaims.
Import Py Grok Common Summarizer Spec Extra.

(** X5. A call of [add_transcript] that reaches the analysis threshold
    makes one or two requests, the last of them an analysis request, and
    every request it makes carries the segment just ingested: the
    compression request in the text of the last five segments, the
    analysis request in the recent transcript of its context. *)
Theorem triggering_segment_is_sent :
  forall (json_loads : string -> loads_result) text elapsed self w,
  WORDS_PER_ANALYSIS
    <= word_count self + count_words text - last_analysis_word_count self ->
  let '(_, _, w') := add_transcript json_loads text elapsed self w in
  exists compression context,
    calls w' = (calls w ++ compression
                ++ [{| system := Analyse; user := context;
                       max_tokens := 1000; json_object := true |}])%list /\
    (List.length compression <= 1)%nat /\
    Forall (fun r => system r = Summarise /\ within text (user r)) compression /\
    within text context.
Proof.
  intros json_loads text elapsed self w Hdue.
  rewrite (add_transcript_reached json_loads text elapsed self w Hdue).
  pose proof (analyze_current_state_calls json_loads elapsed (ingest text self) w) as C.
  pose proof (after_compression_frame (ingest text self) w) as F.
  destruct (_analyze_current_state json_loads elapsed (ingest text self) w) as [[a s] w'].
  destruct (after_compression (ingest text self) w) as [s1 w1].
  destruct C as (C & _). destruct F as (F & _). cbn [fst] in C.
  eexists _, _. split; [exact C|]. split; [|split].
  - destruct (WORDS_PER_ROLLING_SUMMARY <=? _); simpl; lia.
  - destruct (WORDS_PER_ROLLING_SUMMARY <=? _); constructor; [|constructor].
    split; [reflexivity|]. unfold compression_request. cbn [user ingest full_transcript].
    apply within_join_last.
  - cbn [user]. apply (build_context_has_last_segment elapsed s1 (full_transcript self)).
    exact F.
Qed.

Lemma triggering_segment_is_sent_witness :
  let '(_, _, w') :=
    add_transcript Examples.loads Examples.fifty_words 0 __init__ Examples.agreeable in
  exists compression context,
    calls w' = (calls Examples.agreeable ++ compression
                ++ [{| system := Analyse; user := context;
                       max_tokens := 1000; json_object := true |}])%list /\
    (List.length compression <= 1)%nat /\
    Forall (fun r => system r = Summarise /\ within Examples.fifty_words (user r))
      compression /\
    within Examples.fifty_words context.
Proof.
  apply (triggering_segment_is_sent Examples.loads Examples.fifty_words 0 __init__
           Examples.agreeable).
  vm_compute. discriminate.
Defined.

End ContextClaims.

Section ArrayAnswerFacts.
Import Py Grok Common Spec Extra.


End ArrayAnswerFacts.

Section ArrayAnswerClaims.
Import Py Grok Common Summarizer Spec Extra.



End ArrayAnswerClaims.

Section StatsFacts.
Import Py Grok Common Summarizer Spec Extra.

Variable json_loads : string -> loads_result.


End StatsFacts.

Section StatsClaims.
Import Py Grok Common Summarizer Spec Extra.


End StatsClaims.

Section HistoryFacts.
Import Py Grok Common Summarizer2 Spec Extra.

Variable json_loads : string -> loads_result.

(** The comprehension succeeds only on strings, and then keeps the
    survivors. *)
Lemma keep_new_ok (items : list json) (previous : list string) (kept : list json) :
  keep_new items previous = Ok kept ->
  exists all, items = map JStr all /\ kept = map JStr (survivors all previous).
Proof.
  revert kept. induction items as [|item rest IH]; intros kept H.
  - injection H as <-. exists []. split; reflexivity.
  - change (keep_new (item :: rest) previous)
      with (duplicate0 <- is_duplicate item previous ;;
            kept0 <- keep_new rest previous ;;
            Ok (if duplicate0 then kept0 else item :: kept0)) in H.
    destruct item as [| | | |s| |]; try discriminate H.
    rewrite is_duplicate_policy in H. unfold Py.bind in H.
    destruct (keep_new rest previous) as [kept0|e]; [|discriminate H].
    destruct (IH kept0 eq_refl) as (all & -> & ->).
    exists (s :: all). split; [reflexivity|].
    injection H as <-. unfold survivors. simpl.
    destruct (duplicate s previous); reflexivity.
Qed.

Lemma survivors_fresh (items history : list string) :
  Forall (fun item => duplicate item history = false) (survivors items history).
Proof.
  apply Forall_forall. intros item Hin. unfold survivors in Hin.
  apply filter_In in Hin. destruct Hin as (_ & H). apply negb_true_iff in H. exact H.
Qed.

(** Filtering one key of a dict: the other keys keep their values; the key
    itself stays absent, or comes to hold a list of strings that are no
    duplicates. *)
Lemma deduplicate_key_object (key : string) (previous : list string) (d : dict) (a : json) :
  deduplicate_key key previous (JObj d) = Ok a ->
  exists d',
    a = JObj d' /\
    (forall k, String.eqb k key = false -> dict_get k d' = dict_get k d) /\
    fresh_under key previous d'.
Proof.
  unfold deduplicate_key, fresh_under. cbn [contains Py.bind]. unfold dict_has.
  destruct (dict_get key d) as [value|] eqn:Hkey.
  - cbn [getitem]. rewrite Hkey. cbn [Py.bind].
    destruct (iterate value) as [items|e]; cbn [Py.bind]; [|discriminate].
    destruct (keep_new items previous) as [kept|e] eqn:Hkeep; cbn [Py.bind setitem];
      [|discriminate].
    intros H. injection H as <-.
    destruct (keep_new_ok items previous kept Hkeep) as (all & _ & ->).
    exists (dict_set key (JArr (map JStr (survivors all previous))) d).
    split; [reflexivity|]. split.
    + intros k Hk. rewrite dict_get_set, Hk. reflexivity.
    + right. exists (survivors all previous).
      rewrite dict_get_set, String.eqb_refl. split; [reflexivity|apply survivors_fresh].
  - intros H. injection H as <-. exists d.
    split; [reflexivity|]. split; [reflexivity|]. left. exact Hkey.
Qed.

(** A value that is not a dict passes the filter only untouched. *)
Lemma deduplicate_key_other (key : string) (previous : list string) (v a : json) :
  is_dict_b v = false -> deduplicate_key key previous v = Ok a -> a = v.
Proof.
  intros Hv. unfold deduplicate_key.
  destruct v as [| | | |s|items|d]; try discriminate; cbn [contains Py.bind].
  - destruct (str_in key s); [discriminate|congruence].
  - destruct (existsb (is_str key) items); [discriminate|congruence].
Qed.

(** No value other than a dict gets through the filter and the validation
    loop of [summarizer_2.py]: the filter leaves it alone only when it
    lacks the key [potential_issues], which the loop then tries to
    assign. *)
Lemma summarizer2_other_is_refused (self : MeetingSummarizer) (default : string -> json)
  (v a1 a : json) :
  is_dict_b v = false ->
  _deduplicate_analysis self v = Ok a1 ->
  fill_required default required_keys a1 = Ok a -> False.
Proof.
  intros Hv Hd Hf. unfold _deduplicate_analysis in Hd.
  destruct (deduplicate_key "potential_issues" (previous_issues self) v) as [a0|e] eqn:H0;
    [|discriminate Hd].
  cbn [Py.bind] in Hd.
  pose proof (deduplicate_key_other _ _ _ _ Hv H0) as ->.
  pose proof (deduplicate_key_other _ _ _ _ Hv Hd) as ->.
  unfold deduplicate_key in H0.
  unfold required_keys in Hf. rewrite !fill_required_cons in Hf.
  destruct v as [| | | |s|items|d]; try discriminate; cbn [contains Py.bind] in *.
  - destruct (str_in "technical_analysis" s); [|discriminate Hf].
    destruct (str_in "potential_issues" s); discriminate.
  - destruct (existsb (is_str "technical_analysis") items); [|discriminate Hf].
    destruct (existsb (is_str "potential_issues") items); discriminate.
Qed.

(** What the filter followed by the validation loop yields on a dict. *)
Lemma summarizer2_object_is_filtered (self : MeetingSummarizer) (default : string -> json)
  (d : dict) (a1 : json) :
  (forall key, String.eqb key "technical_analysis" = false -> default key = JArr []) ->
  _deduplicate_analysis self (JObj d) = Ok a1 ->
  exists d' issues recommendations,
    fill_required default required_keys a1 = Ok (JObj d') /\
    Forall (fun key => dict_has key d' = true) required_keys /\
    dict_get "potential_issues" d' = Some (JArr (map JStr issues)) /\
    dict_get "recommendations" d' = Some (JArr (map JStr recommendations)) /\
    Forall (fun item => duplicate item (previous_issues self) = false) issues /\
    Forall (fun item => duplicate item (previous_recommendations self) = false)
      recommendations.
Proof.
  intros Hdefault Hd. unfold _deduplicate_analysis in Hd.
  destruct (deduplicate_key "potential_issues" (previous_issues self) (JObj d))
    as [a0|e] eqn:H0; [|discriminate Hd].
  cbn [Py.bind] in Hd.
  destruct (deduplicate_key_object _ _ _ _ H0) as (d0 & -> & _ & F0).
  destruct (deduplicate_key_object _ _ _ _ Hd) as (d1 & -> & K1 & F1).
  destruct (fill_required_object default required_keys d1) as (d' & Hfill & Hd').
  assert (I : exists issues,
             dict_get "potential_issues" d' = Some (JArr (map JStr issues)) /\
             Forall (fun item => duplicate item (previous_issues self) = false) issues).
  { rewrite (Hd' "potential_issues"), (K1 "potential_issues" eq_refl).
    destruct F0 as [E|(issues & E & F)].
    - rewrite E. exists []. split; [|constructor].
      cbn [existsb required_keys]. rewrite (Hdefault "potential_issues" eq_refl).
      reflexivity.
    - rewrite E. exists issues. split; [reflexivity|exact F]. }
  assert (R : exists recommendations,
             dict_get "recommendations" d' = Some (JArr (map JStr recommendations)) /\
             Forall (fun item => duplicate item (previous_recommendations self) = false)
               recommendations).
  { rewrite (Hd' "recommendations").
    destruct F1 as [E|(recommendations & E & F)].
    - rewrite E. exists []. split; [|constructor].
      cbn [existsb required_keys]. rewrite (Hdefault "recommendations" eq_refl).
      reflexivity.
    - rewrite E. exists recommendations. split; [reflexivity|exact F]. }
  destruct I as (issues & I1 & I2). destruct R as (recommendations & R1 & R2).
  exists d', issues, recommendations.
  split; [exact Hfill|]. split; [exact (filled_has_keys default _ _ _ Hd')|].
  repeat split; assumption.
Qed.

(** The analysis proper, on any parsed value: either it raises with the
    histories as they were, or it returns a dict with the five keys whose
    two lists hold strings that are no duplicates, and appends exactly
    those to the histories. *)
Lemma analyze_parsed_history (parsed : json) (self : MeetingSummarizer) :
  match analyze_parsed parsed self with
  | (Ok a, s) =>
      exists d issues recommendations,
        a = JObj d /\
        Forall (fun key => dict_has key d = true) required_keys /\
        dict_get "potential_issues" d = Some (JArr (map JStr issues)) /\
        dict_get "recommendations" d = Some (JArr (map JStr recommendations)) /\
        Forall (fun item => duplicate item (previous_issues self) = false) issues /\
        Forall (fun item => duplicate item (previous_recommendations self) = false)
          recommendations /\
        previous_issues s = (previous_issues self ++ issues)%list /\
        previous_recommendations s
          = (previous_recommendations self ++ recommendations)%list
  | (Raise _, s) =>
      previous_issues s = previous_issues self /\
      previous_recommendations s = previous_recommendations self
  end.
Proof.
  unfold analyze_parsed.
  destruct (_deduplicate_analysis self parsed) as [a1|e] eqn:Hd; cbn [Py.bind];
    [|split; reflexivity].
  destruct (is_dict_b parsed) eqn:Hp.
  - destruct parsed as [| | | | | |d0]; try discriminate Hp.
    destruct (summarizer2_object_is_filtered self
                (default_value "No technical discussion detected yet") d0 a1)
      as (d & issues & recommendations & Hf & K & I1 & R1 & I2 & R2).
    { intros key Hkey. unfold default_value. rewrite Hkey. reflexivity. }
    { exact Hd. }
    rewrite Hf. unfold get_items. rewrite I1, R1. cbn [iterate].
    rewrite !strings_map_JStr.
    exists d, issues, recommendations.
    cbn [previous_issues previous_recommendations extend_history set_latest_analysis].
    rewrite !app_nil_r. repeat split; try assumption; reflexivity.
  - destruct (fill_required _ required_keys a1) as [a|e] eqn:Hf; [|split; reflexivity].
    destruct (summarizer2_other_is_refused self _ parsed a1 a Hp Hd Hf).
Qed.

End HistoryFacts.

Section HistoryClaims.
Import Py Grok Common Summarizer2 Spec Extra.

(** X8. In [summarizer_2.py] an analysis pass returns a dict that has the
    five required keys whatever the service answers, valid JSON object or
    not: a decoded value that is not a dict cannot get through the filter
    and the validation loop, and ends in the error response. So does every
    analysis [add_transcript] returns. *)
Theorem it_analysis_is_always_a_dict :
  forall (json_loads : string -> loads_result) elapsed self w,
  has_keys required_keys (fst (fst (_analyze_current_state json_loads elapsed self w))) /\
  (forall text,
     match fst (fst (add_transcript json_loads text elapsed self w)) with
     | Some a => has_keys required_keys a
     | None => True
     end).
Proof.
  intros json_loads elapsed.
  assert (A : forall self w,
             has_keys required_keys
               (fst (fst (_analyze_current_state json_loads elapsed self w)))).
  { intros self w. rewrite analyze_current_state2_steps.
    destruct (after_compression2 self w) as [s1 w1]. unfold create.
    destruct (answers w1 0%nat) as [msg|text];
      [exact (summarizer2_error_response_has_keys msg)|].
    destruct (json_loads text) as [parsed|msg];
      [|exact (summarizer2_error_response_has_keys _)].
    pose proof (analyze_parsed_history parsed s1) as H.
    destruct (analyze_parsed parsed s1) as [[a|e] s];
      [|exact (summarizer2_error_response_has_keys _)].
    destruct H as (d & _ & _ & -> & K & _). exact K. }
  intros self w. split; [apply A|].
  intros text. unfold add_transcript.
  destruct (WORDS_PER_ANALYSIS <=? _); [|exact I].
  specialize (A (ingest text self) w).
  destruct (_analyze_current_state json_loads elapsed (ingest text self) w) as [[a s] w'].
  exact A.
Qed.


End HistoryClaims.

Section FinalSummaryWitness.
Import Py Grok Common Spec Extra.

Lemma final_summary_sends_last_thousand_words_witness :
  let '(_, w') :=
    Summarizer.get_final_summary Examples.loads 0
      (Summarizer.ingest "we can start now" Summarizer.__init__) Examples.agreeable in
  exists before,
    calls w' = [{| system := Finalise; user := before ++ nl ++ "we can start now";
                   max_tokens := 2000; json_object := true |}].
Proof.
  pose proof (proj1 (final_summary_sends_last_thousand_words Examples.loads 0)
                (Summarizer.ingest "we can start now" Summarizer.__init__)
                Examples.agreeable) as H.
  cbv zeta in H.
  destruct (Summarizer.get_final_summary Examples.loads 0
              (Summarizer.ingest "we can start now" Summarizer.__init__)
              Examples.agreeable) as [a w'].
  destruct H as (before & body & Hc & _ & _ & _ & Hb).
  exists before. rewrite Hc, Hb; [reflexivity|].
  vm_compute. discriminate.
Defined.

End FinalSummaryWitness.

Section DeduplicationEdges.
Import Py Grok Common Summarizer2 Spec Extra.

Lemma lastn_app_long {A : Type} (n : nat) (older recent : list A) :
  (n <= List.length recent)%nat -> lastn n (older ++ recent) = lastn n recent.
Proof.
  intros H. unfold lastn. rewrite length_app, skipn_app.
  rewrite skipn_all2 by lia.
  replace (List.length older + List.length recent - n - List.length older)%nat
    with (List.length recent - n)%nat by lia.
  reflexivity.
Qed.

Lemma duplicate_empty_history (item : string) : duplicate item [] = false.
Proof. reflexivity. Qed.

Lemma survivors_empty_history (items : list string) : survivors items [] = items.
Proof.
  unfold survivors. induction items as [|item rest IH]; [reflexivity|].
  cbn [filter]. rewrite duplicate_empty_history. cbn [negb]. rewrite IH. reflexivity.
Qed.

Lemma duplicate_empty_item (history : list string) :
  duplicate EmptyString history = match history with [] => false | _ => true end.
Proof.
  destruct history as [|h rest]; [reflexivity|].
  destruct (exists_last (l := h :: rest)) as (front & z & ->); [discriminate|].
  unfold duplicate. destruct (lastn_snoc 9 front z) as (before & ->).
  rewrite existsb_app. simpl. unfold similar at 2. simpl.
  destruct (lower z); simpl; rewrite orb_true_r;
    destruct (front ++ [z])%list eqn:E; try reflexivity;
    destruct front; discriminate.
Qed.

End DeduplicationEdges.

Section DeduplicationEdgeClaims.
Import Py Grok Common Summarizer2 Spec Extra.

(** X10. Edges of the duplicate filter of [summarizer_2.py]. With an empty
    history nothing is dropped, so an item repeated inside one answer
    survives each time. The empty string is a duplicate of any entry, so
    it is dropped as soon as the history holds anything. Only the last ten
    entries are consulted: entries older than the last ten never make an
    item a duplicate. *)
Theorem duplicate_filter_edges :
  (forall items, keep_new (map JStr items) [] = Ok (map JStr items)) /\
  (forall history,
     is_duplicate (JStr EmptyString) history
     = Ok (match history with [] => false | _ => true end)) /\
  (forall item older recent,
     (10 <= List.length recent)%nat ->
     is_duplicate (JStr item) (older ++ recent) = is_duplicate (JStr item) recent).
Proof.
  split; [|split].
  - intros items. rewrite keep_new_strings, survivors_empty_history. reflexivity.
  - intros history. rewrite is_duplicate_policy, duplicate_empty_item. reflexivity.
  - intros item older recent H. unfold is_duplicate.
    rewrite (lastn_app_long 10 older recent H). reflexivity.
Qed.

Lemma duplicate_filter_edges_witness :
  is_duplicate (JStr "open ssh port")
    (["Open SSH port exposes instances"] ++ repeat "missing backups" 10)
  = Ok false.
Proof.
  rewrite (proj2 (proj2 duplicate_filter_edges) "open ssh port"
             ["Open SSH port exposes instances"] (repeat "missing backups" 10)).
  - vm_compute. reflexivity.
  - vm_compute. lia.
Defined.

End DeduplicationEdgeClaims.

Section Session2Facts.
Import Py Grok Common Summarizer2 Spec Extra.

Variable json_loads : string -> loads_result.

Lemma summarizer2_analysis_has_keys (elapsed : Z) (self : MeetingSummarizer) (w : world) :
  has_keys required_keys (fst (fst (_analyze_current_state json_loads elapsed self w))).
Proof.
  rewrite analyze_current_state2_steps.
  destruct (after_compression2 self w) as [s1 w1]. unfold create.
  destruct (answers w1 0%nat) as [msg|text];
    [exact (summarizer2_error_response_has_keys msg)|].
  destruct (json_loads text) as [parsed|msg];
    [|exact (summarizer2_error_response_has_keys _)].
  pose proof (analyze_parsed_history parsed s1) as H.
  destruct (analyze_parsed parsed s1) as [[a|e] s];
    [|exact (summarizer2_error_response_has_keys _)].
  destruct H as (d & _ & _ & -> & K & _). exact K.
Qed.

(** An analysis pass of [summarizer_2.py] leaves the ledger and the word
    count alone. *)
Lemma analyze_current_state2_ledger (elapsed : Z) (self : MeetingSummarizer) (w : world) :
  let s := snd (fst (_analyze_current_state json_loads elapsed self w)) in
  full_transcript s = full_transcript self /\ word_count s = word_count self.
Proof.
  cbv zeta. rewrite analyze_current_state2_steps.
  pose proof (after_compression2_frame self w) as F. cbv zeta in F.
  destruct (after_compression2 self w) as [s1 w1]. cbn [fst] in F.
  destruct F as (_ & _ & F1 & F2). unfold create.
  destruct (answers w1 0%nat) as [msg|text]; [split; assumption|].
  destruct (json_loads text) as [parsed|msg]; [|split; assumption].
  pose proof (analyze_parsed_frame parsed s1) as P. cbv zeta in P.
  destruct (analyze_parsed parsed s1) as [[a|e] s]; cbn [fst snd] in *;
    destruct P as (P1 & P2 & _); split; congruence.
Qed.

Lemma add_transcript2_ledger (text : string) (elapsed : Z)
  (self : MeetingSummarizer) (w : world) :
  let '(r, s, _) := add_transcript json_loads text elapsed self w in
  full_transcript s = (full_transcript self ++ [text])%list /\
  word_count s = word_count self + count_words text /\
  match r with
  | Some a => has_keys required_keys a
  | None => True
  end.
Proof.
  unfold add_transcript.
  destruct (WORDS_PER_ANALYSIS <=? _).
  - pose proof (analyze_current_state2_ledger elapsed (ingest text self) w) as L.
    pose proof (summarizer2_analysis_has_keys elapsed (ingest text self) w) as K.
    cbv zeta in L.
    destruct (_analyze_current_state json_loads elapsed (ingest text self) w) as [[a s] w'].
    cbn [fst snd] in *. destruct L as (L1 & L2).
    repeat split; assumption.
  - repeat split; reflexivity.
Qed.

Lemma run2_ledger (segments : list (string * Z)) (self : MeetingSummarizer) (w : world) :
  let '(rs, s, _) := run json_loads segments self w in
  full_transcript s = (full_transcript self ++ map fst segments)%list /\
  word_count s = word_count self + total_words segments /\
  Forall (fun r => match r with
                   | Some a => has_keys required_keys a
                   | None => True
                   end) rs.
Proof.
  revert self w. induction segments as [|[text t] rest IH]; intros self w.
  - simpl. rewrite app_nil_r. unfold total_words. simpl.
    repeat split; try constructor. lia.
  - simpl.
    pose proof (add_transcript2_ledger text t self w) as A.
    destruct (add_transcript json_loads text t self w) as [[r s1] w1].
    destruct A as (A1 & A2 & A3).
    specialize (IH s1 w1).
    destruct (run json_loads rest s1 w1) as [[rs s2] w2].
    destruct IH as (I1 & I2 & I3).
    split; [|split].
    + rewrite I1, A1, <- app_assoc. reflexivity.
    + rewrite I2, A2. unfold total_words. simpl. lia.
    + constructor; assumption.
Qed.

Lemma timed_segments (clock : nat -> Z) (i : nat) (segments : list string) :
  map fst (App.timed clock i segments) = segments.
Proof.
  revert i. induction segments as [|seg rest IH]; intros i; simpl.
  - reflexivity.
  - rewrite IH. reflexivity.
Qed.

(** A dict with the required keys is not empty, so it counts as true. *)
Lemma truthy_has_keys (nonzero : string -> bool) (a : json) :
  has_keys required_keys a -> Live.truthy nonzero a = true.
Proof.
  destruct a as [| | | | | |d]; try contradiction.
  intros H. destruct d; [|reflexivity].
  inversion H as [|key keys Hk _]. discriminate Hk.
Qed.

(** The loop of the live refresh is a session on the new segments, and
    shows the last analysis a call returned. *)
Lemma catch_up_run (nonzero : string -> bool) (clock : nat -> Z) (i : nat)
  (segs : list string) (s : MeetingSummarizer) (current : option json) (w : world) :
  Live.catch_up json_loads nonzero clock i segs s current w
  = let '(rs, s', w') := run json_loads (App.timed clock i segs) s w in
    (s', latest rs current, w').
Proof.
  revert i s current w. induction segs as [|seg rest IH]; intros i s current w.
  - reflexivity.
  - simpl.
    pose proof (add_transcript2_ledger seg (clock i) s w) as A.
    destruct (add_transcript json_loads seg (clock i) s w) as [[r s1] w1].
    destruct A as (_ & _ & A).
    rewrite IH.
    destruct (run json_loads (App.timed clock (S i) rest) s1 w1) as [[rs s2] w2].
    unfold latest. simpl. destruct r as [a|]; [|reflexivity].
    rewrite (truthy_has_keys nonzero a A). reflexivity.
Qed.

End Session2Facts.

Section LiveClaims.
Import Py Grok Common Summarizer2 Spec Extra.

(** X11. The live refresh of [streamlit_app_faster_whisper_awais.py], while
    recording with a summarizer whose ledger is the beginning of the stored
    transcripts: it is a session of [add_transcript] calls on exactly the
    stored segments the summarizer has not seen, in order; afterwards the
    ledger is the stored transcripts, and the analysis on display is the
    last one a call returned, or the one displayed before if no call
    returned one. Refreshing again with nothing new stored changes nothing
    and makes no request. *)
Theorem live_refresh_catches_up :
  forall (json_loads : string -> loads_result) (nonzero : string -> bool)
         clock st s new w,
  Live.is_recording st = true ->
  Live.summarizer st = Some s ->
  let file := (full_transcript s ++ new)%list in
  let '(rs, s', w') := run json_loads (App.timed clock 0 new) s w in
  let st' := {| Live.is_recording := true;
                Live.summarizer := Some s';
                Live.current_analysis := latest rs (Live.current_analysis st) |} in
  Live.update_live_analysis json_loads nonzero clock st file w = (st', w') /\
  full_transcript s' = file /\
  (forall clock', Live.update_live_analysis json_loads nonzero clock' st' file w'
                  = (st', w')).
Proof.
  intros json_loads nonzero clock st s new w Hrec Hsum. cbv zeta.
  pose proof (run2_ledger json_loads (App.timed clock 0 new) s w) as L.
  pose proof (catch_up_run json_loads nonzero clock 0 new s (Live.current_analysis st) w) as C.
  destruct (run json_loads (App.timed clock 0 new) s w) as [[rs s'] w'] eqn:R.
  destruct L as (L1 & _ & _). rewrite timed_segments in L1.
  split; [|split].
  - unfold Live.update_live_analysis. rewrite Hrec, Hsum. cbn [negb].
    rewrite length_app, skipn_app, skipn_all, Nat.sub_diag. cbn [skipn app].
    destruct new as [|seg rest].
    + simpl in R. injection R as <- <- <-.
      destruct st as [recording summ shown]. simpl in *. subst.
      destruct (_ <? _)%nat; reflexivity.
    + assert (E : (List.length (full_transcript s)
                   <? List.length (full_transcript s) + List.length (seg :: rest))%nat
                  = true) by (apply Nat.ltb_lt; simpl; lia).
      rewrite E, C. reflexivity.
  - exact L1.
  - intros clock'. unfold Live.update_live_analysis. cbn [Live.is_recording Live.summarizer negb].
    rewrite L1.
    rewrite Nat.ltb_irrefl. reflexivity.
Qed.

Lemma live_refresh_catches_up_witness :
  let st := {| Live.is_recording := true;
               Live.summarizer := Some __init__;
               Live.current_analysis := None |} in
  fst (Live.update_live_analysis Examples.loads (fun _ => true) (fun _ => 0) st
         ["we can start now"] Examples.agreeable)
  = {| Live.is_recording := true;
       Live.summarizer := Some (ingest "we can start now" __init__);
       Live.current_analysis := None |}.
Proof.
  pose proof (live_refresh_catches_up Examples.loads (fun _ => true) (fun _ => 0)
                {| Live.is_recording := true;
                   Live.summarizer := Some __init__;
                   Live.current_analysis := None |}
                __init__ ["we can start now"] Examples.agreeable eq_refl eq_refl) as H.
  cbv zeta in H.
  destruct (run Examples.loads (App.timed (fun _ => 0) 0 ["we can start now"]) __init__
              Examples.agreeable) as [[rs s'] w'] eqn:R.
  destruct H as (H & _). cbv zeta. cbn [full_transcript __init__ app] in H.
  rewrite H. vm_compute in R. injection R as <- <- <-. reflexivity.
Defined.

End LiveClaims.

Section FinalReportFacts.
Import Py Grok Common Spec Extra.

Variable json_loads : string -> loads_result.

(** Which requests the application's stop makes. *)
Lemma app_stop_recording_world (xai_key : bool) (clock : nat -> Z)
  (st : App.session_state) (file : list string) (e : AudioProcessor.ear) (w : world) :
  let '(_, _, file', _, w') := App.stop_recording json_loads xai_key clock st file e w in
  match file' with
  | [] => w' = w
  | _ =>
      if xai_key then
        let '(_, fresh, w1) :=
          Summarizer2.run json_loads (App.timed clock 0 file') Summarizer2.__init__ w in
        w' = snd (Summarizer2.get_final_summary json_loads
                    (clock (List.length file')) fresh w1)
      else w' = w
  end.
Proof.
  unfold App.stop_recording.
  destruct (match App.audio_processor st with
            | Some p =>
                let '(p', e', file') :=
                  AudioProcessor.stop_recording (list string) App.on_new_transcript p e file in
                (Some p', e', file')
            | None => (None, e, file)
            end) as [[processor e1] file1].
  destruct file1 as [|seg rest]; [reflexivity|].
  destruct xai_key; [|reflexivity].
  destruct (Summarizer2.run json_loads (App.timed clock 0 (seg :: rest))
              Summarizer2.__init__ w) as [[rs fresh] w1] eqn:Erun.
  destruct (Summarizer2.get_final_summary json_loads
              (clock (List.length (seg :: rest))) fresh w1) as [report w2] eqn:Efin.
  cbv beta iota zeta. rewrite Erun, Efin. reflexivity.
Qed.

End FinalReportFacts.

Section FinalReportClaims.
Import Py Grok Common Spec Extra.

(** X12. The stop callback of [streamlit_app_faster_whisper_awais.py] and
    the completion service. With no stored transcript, or without an API
    key, it makes no request at all. Otherwise it replays the stored
    segments through a fresh summarizer and ends with exactly one final
    request, whose transcript text holds the last 1000 words of the stored
    segments joined by spaces, and is that joined text itself when it has
    at most 1000 words. *)
Theorem final_report_covers_stored_transcripts :
  forall (json_loads : string -> loads_result) xai_key clock st file e w,
  let '(_, _, file', _, w') := App.stop_recording json_loads xai_key clock st file e w in
  let stored := join " " file' in
  match file' with
  | [] => w' = w
  | _ =>
      if xai_key then
        let '(_, _, w1) :=
          Summarizer2.run json_loads (App.timed clock 0 file') Summarizer2.__init__ w in
        exists before body,
          calls w' = (calls w1 ++ [{| system := Finalise; user := before ++ nl ++ body;
                                      max_tokens := 2500; json_object := true |}])%list /\
          split body = lastn 1000 (split stored) /\
          (if count_words stored <=? 1000 then body = stored else True)
      else w' = w
  end.
Proof.
  intros json_loads xai_key clock st file e w.
  pose proof (app_stop_recording_world json_loads xai_key clock st file e w) as H.
  destruct (App.stop_recording json_loads xai_key clock st file e w)
    as [[[[n st'] file'] e'] w'].
  cbv zeta. destruct file' as [|seg rest]; [exact H|].
  destruct xai_key; [|exact H].
  pose proof (run2_ledger json_loads (App.timed clock 0 (seg :: rest))
                Summarizer2.__init__ w) as L.
  destruct (Summarizer2.run json_loads (App.timed clock 0 (seg :: rest))
              Summarizer2.__init__ w) as [[rs fresh] w1].
  destruct L as (L & _). rewrite timed_segments in L. cbn [Summarizer2.full_transcript
    Summarizer2.__init__ app] in L.
  destruct (summarizer2_final_summary_world json_loads
              (clock (List.length (seg :: rest))) fresh w1)
    as (context & Hw & before & body & Hc & Hb).
  rewrite L in Hb. rewrite Hw in H. subst w' context.
  exists before, body. split; [reflexivity|].
  destruct (final_text_words _ _ Hb) as (B1 & _ & B3).
  split; [exact B1|].
  destruct (Z.leb_spec (count_words (join " " (seg :: rest))) 1000); [|exact I].
  apply B3. assumption.
Qed.

End FinalReportClaims.

Section BufferFacts.
Import Py AudioProcessor Spec Extra.

Variable env : Type.
Variable on_transcript : string -> env -> env * bool.


Lemma lastn_suffix {A : Type} (n : nat) (l : list A) :
  exists front, l = (front ++ lastn n l)%list.
Proof.
  exists (firstn (List.length l - n) l). unfold lastn.
  symmetry. apply firstn_skipn.
Qed.

Lemma keep_overlap_suffix (self : AudioProcessor) :
  exists dropped, audio_buffer self = (dropped ++ audio_buffer (keep_overlap self))%list.
Proof.
  unfold keep_overlap. destruct (overlap_samples <? _).
  - apply lastn_suffix.
  - exists (audio_buffer self). rewrite app_nil_r. reflexivity.
Qed.

Lemma keep_overlap_recording (self : AudioProcessor) :
  is_recording (keep_overlap self) = is_recording self.
Proof. unfold keep_overlap. destruct (overlap_samples <? _); reflexivity. Qed.


Lemma completes_when_deaf (e : ear) (v : env) :
  deaf e -> completes on_transcript e v = false /\ after_callback on_transcript e v = v.
Proof.
  intros He. unfold completes, after_callback. rewrite (He 0%nat). split; reflexivity.
Qed.

(** The samples a chunk adds to the buffer. *)
Lemma samples_of_cons (audio_data : list Byte.byte) (rest : list (list Byte.byte)) :
  samples_of (audio_data :: rest)
  = (match frombuffer audio_data with
     | Some audio_np => audio_np
     | None => []
     end ++ samples_of rest)%list.
Proof. reflexivity. Qed.

(** One turn of the loop never reorders or invents samples: the buffer it
    leaves is an end of the buffer it found followed by the samples of the
    chunk; the recording flag is left alone. *)
Lemma process_suffix (audio_data : list Byte.byte) (self : AudioProcessor)
  (e : ear) (v : env) :
  let '(s, e', v') := process env on_transcript audio_data self e v in
  is_recording s = is_recording self /\
  (exists dropped,
     (audio_buffer self ++ samples_of [audio_data])%list
     = (dropped ++ audio_buffer s)%list) /\
  (deaf e ->
   audio_buffer s = (audio_buffer self ++ samples_of [audio_data])%list /\
   v' = v /\ deaf e').
Proof.
  rewrite process_spec. unfold samples_of. cbn [map List.concat].
  destruct (frombuffer audio_data) as [audio_np|]; rewrite !app_nil_r.
  - destruct (Qle_bool CHUNK_DURATION_SECONDS (buffer_duration (extended audio_np self))).
    + rewrite transcribe_buffer_spec.
      split; [|split].
      * destruct (completes on_transcript e v); [|reflexivity].
        rewrite keep_overlap_recording. reflexivity.
      * destruct (completes on_transcript e v).
        -- exact (keep_overlap_suffix (extended audio_np self)).
        -- exists []. reflexivity.
      * intros Hd. destruct (completes_when_deaf e v Hd) as (-> & ->).
        split; [reflexivity|]. split; [reflexivity|].
        intros n. exact (Hd (S n)).
    + split; [reflexivity|]. split; [exists []; reflexivity|].
      intros Hd. split; [reflexivity|]. split; [reflexivity|exact Hd].
  - split; [reflexivity|]. split; [exists []; reflexivity|].
    intros Hd. split; [reflexivity|]. split; [reflexivity|exact Hd].
Qed.

Lemma processing_loop_suffix (queue : list (list Byte.byte)) (self : AudioProcessor)
  (e : ear) (v : env) :
  is_recording self = true ->
  let '(s, e', v') := _processing_loop env on_transcript queue self e v in
  is_recording s = true /\
  (exists dropped,
     (audio_buffer self ++ samples_of queue)%list = (dropped ++ audio_buffer s)%list) /\
  (deaf e ->
   audio_buffer s = (audio_buffer self ++ samples_of queue)%list /\ v' = v).
Proof.
  revert self e v. induction queue as [|audio_data rest IH]; intros self e v Hrec.
  - simpl. unfold samples_of. simpl. rewrite app_nil_r.
    split; [exact Hrec|]. split; [exists []; reflexivity|].
    intros _. split; reflexivity.
  - cbn [_processing_loop]. rewrite Hrec.
    pose proof (process_suffix audio_data self e v) as P.
    destruct (process env on_transcript audio_data self e v) as [[s1 e1] v1].
    destruct P as (P1 & (dropped1 & P2) & P3).
    rewrite Hrec in P1. specialize (IH s1 e1 v1 P1).
    destruct (_processing_loop env on_transcript rest s1 e1 v1) as [[s2 e2] v2].
    destruct IH as (I1 & (dropped2 & I2) & I3).
    rewrite samples_of_cons.
    unfold samples_of in P2. cbn [map List.concat] in P2. rewrite app_nil_r in P2.
    split; [exact I1|]. split.
    + exists (dropped1 ++ dropped2)%list.
      rewrite app_assoc, P2, <- !app_assoc, I2. reflexivity.
    + intros Hd. destruct (P3 Hd) as (Q1 & Q2 & Q3).
      destruct (I3 Q3) as (J1 & J2).
      unfold samples_of in Q1. cbn [map List.concat] in Q1. rewrite app_nil_r in Q1.
      rewrite J1, Q1, J2, Q2, <- app_assoc. split; reflexivity.
Qed.




End BufferFacts.

Section BufferClaims.
Import Py AudioProcessor Spec Extra.





(** X15. The processing loop never reorders or invents audio, whatever the
    engine and the callback do: after the loop the buffer is an end of the
    buffer it started from followed by the samples the queue delivered.
    When the engine fails on every call nothing is ever dropped: the buffer
    keeps every sample of the recording, and the callback is never
    called. *)
Theorem buffer_is_the_end_of_the_recording :
  forall (env : Type) (on_transcript : string -> env -> env * bool) queue self e v,
  is_recording self = true ->
  let '(s, _, v') := _processing_loop env on_transcript queue self e v in
  (exists dropped,
     (audio_buffer self ++ samples_of queue)%list = (dropped ++ audio_buffer s)%list) /\
  (deaf e ->
   audio_buffer s = (audio_buffer self ++ samples_of queue)%list /\ v' = v).
Proof.
  intros env on_transcript queue self e v Hrec.
  pose proof (processing_loop_suffix env on_transcript queue self e v Hrec) as H.
  destruct (_processing_loop env on_transcript queue self e v) as [[s e'] v'].
  destruct H as (_ & H1 & H2). split; assumption.
Qed.

Lemma buffer_is_the_end_of_the_recording_witness :
  let '(s, _, v') :=
    _processing_loop (list string) Examples.collect (repeat Examples.chunk 7)
      Examples.started Examples.failing [] in
  audio_buffer s = samples_of (repeat Examples.chunk 7) /\ v' = [].
Proof.
  pose proof (buffer_is_the_end_of_the_recording (list string) Examples.collect
                (repeat Examples.chunk 7) Examples.started Examples.failing []
                eq_refl) as H.
  destruct (_processing_loop (list string) Examples.collect (repeat Examples.chunk 7)
              Examples.started Examples.failing []) as [[s e'] v'].
  destruct H as (_ & H). apply H. intros n. reflexivity.
Defined.

End BufferClaims.

Section StripFacts.
Import Py AudioProcessor Spec Extra.

Lemma rstrip_idempotent (s : string) : rstrip (rstrip s) = rstrip s.
Proof.
  induction s as [|c s IH]; [reflexivity|].
  cbn [rstrip]. destruct (rstrip s) as [|d r] eqn:E.
  - destruct (is_space c) eqn:Hc; [reflexivity|].
    cbn [rstrip]. rewrite Hc. reflexivity.
  - change (rstrip (String c (String d r)))
      with (match rstrip (String d r) with
            | EmptyString => if is_space c then EmptyString else String c EmptyString
            | r0 => String c r0
            end).
    rewrite IH. reflexivity.
Qed.

Lemma rstrip_keeps_head (c : ascii) (s : string) :
  is_space c = false -> exists r, rstrip (String c s) = String c r.
Proof.
  intros Hc. cbn [rstrip]. destruct (rstrip s) as [|d r].
  - rewrite Hc. exists EmptyString. reflexivity.
  - exists (String d r). reflexivity.
Qed.

Lemma lstrip_head (s : string) :
  lstrip s = EmptyString \/
  exists c t, lstrip s = String c t /\ is_space c = false.
Proof.
  induction s as [|c s IH]; [left; reflexivity|].
  cbn [lstrip]. destruct (is_space c) eqn:Hc; [exact IH|].
  right. exists c, s. split; [reflexivity|exact Hc].
Qed.

(** Stripping twice is stripping once: a stripped text has no white space
    at either end. *)
Lemma strip_idempotent (s : string) : strip (strip s) = strip s.
Proof.
  unfold strip. destruct (lstrip_head s) as [E|(c & t & E & Hc)]; rewrite E.
  - reflexivity.
  - destruct (rstrip_keeps_head c t Hc) as (r & R).
    rewrite R at 1. cbn [lstrip]. rewrite Hc, <- R. apply rstrip_idempotent.
Qed.

(** One call of [_transcribe_buffer] with the application's callback
    stores at most one segment, and a stripped one that is not empty. *)
Lemma transcribe_buffer_stores (self : AudioProcessor) (e : ear) (file : list string) :
  let '(_, e', file') :=
    _transcribe_buffer (list string) App.on_new_transcript self e file in
  windows e' = (windows e ++ [audio_buffer self])%list /\
  exists new,
    file' = (file ++ new)%list /\
    (List.length new <= 1)%nat /\
    Forall (fun text => text <> EmptyString /\ strip text = text) new.
Proof.
  rewrite transcribe_buffer_spec. split; [reflexivity|].
  unfold after_callback.
  destruct (hears e 0%nat) as [|texts].
  - exists []. rewrite app_nil_r. split; [reflexivity|]. split; [simpl; lia|constructor].
  - destruct (strip (combine_segments texts)) as [|c t] eqn:E.
    + exists []. rewrite app_nil_r. split; [reflexivity|]. split; [simpl; lia|constructor].
    + exists [String c t]. split; [reflexivity|]. split; [simpl; lia|].
      constructor; [|constructor]. split; [discriminate|].
      rewrite <- E. apply strip_idempotent.
Qed.

Lemma processing_loop_stores (queue : list (list Byte.byte)) (self : AudioProcessor)
  (e : ear) (file : list string) :
  let '(_, e', file') :=
    _processing_loop (list string) App.on_new_transcript queue self e file in
  exists submitted new,
    windows e' = (windows e ++ submitted)%list /\
    file' = (file ++ new)%list /\
    (List.length new <= List.length submitted)%nat /\
    Forall (fun text => text <> EmptyString /\ strip text = text) new.
Proof.
  revert self e file. induction queue as [|audio_data rest IH]; intros self e file.
  - exists [], []. rewrite !app_nil_r. repeat split; try reflexivity; constructor.
  - cbn [_processing_loop]. destruct (is_recording self).
    + assert (P : let '(_, e1, file1) :=
                    process (list string) App.on_new_transcript audio_data self e file in
                  exists submitted new,
                    windows e1 = (windows e ++ submitted)%list /\
                    file1 = (file ++ new)%list /\
                    (List.length new <= List.length submitted)%nat /\
                    Forall (fun text => text <> EmptyString /\ strip text = text) new).
      { rewrite process_spec.
        destruct (frombuffer audio_data) as [audio_np|].
        - destruct (Qle_bool CHUNK_DURATION_SECONDS _).
          + pose proof (transcribe_buffer_stores (extended audio_np self) e file) as T.
            destruct (_transcribe_buffer (list string) App.on_new_transcript
                        (extended audio_np self) e file) as [[s1 e1] file1].
            destruct T as (T1 & new & T2 & T3 & T4).
            exists [audio_buffer (extended audio_np self)], new.
            repeat split; assumption.
          + exists [], []. rewrite !app_nil_r. repeat split; try reflexivity; constructor.
        - exists [], []. rewrite !app_nil_r. repeat split; try reflexivity; constructor. }
      destruct (process (list string) App.on_new_transcript audio_data self e file)
        as [[s1 e1] file1].
      destruct P as (sub1 & new1 & P1 & P2 & P3 & P4).
      specialize (IH s1 e1 file1).
      destruct (_processing_loop (list string) App.on_new_transcript rest s1 e1 file1)
        as [[s2 e2] file2].
      destruct IH as (sub2 & new2 & I1 & I2 & I3 & I4).
      exists (sub1 ++ sub2)%list, (new1 ++ new2)%list.
      rewrite I1, P1, I2, P2, <- !app_assoc, !length_app.
      repeat split; try reflexivity; [lia|apply Forall_app; split; assumption].
    + exists [], []. rewrite !app_nil_r. repeat split; try reflexivity; constructor.
Qed.

End StripFacts.

Section StoredSegmentsClaims.
Import Py AudioProcessor Spec Extra.

(** X16. What the application stores during a recording. With the callback
    of [streamlit_app_faster_whisper_awais.py] the processing loop, and the
    flush of [stop_recording] after it, only ever append to the stored
    transcripts; they append at most one segment per window submitted to
    the engine; and every segment they append is non-empty and has no white
    space at either end. *)
Theorem stored_segments_are_stripped :
  forall queue self e file,
  let '(s, e1, file1) :=
    _processing_loop (list string) App.on_new_transcript queue self e file in
  let '(_, e2, file2) :=
    stop_recording (list string) App.on_new_transcript s e1 file1 in
  exists submitted new,
    windows e2 = (windows e ++ submitted)%list /\
    file2 = (file ++ new)%list /\
    (List.length new <= List.length submitted)%nat /\
    Forall (fun text => text <> EmptyString /\ strip text = text) new.
Proof.
  intros queue self e file.
  pose proof (processing_loop_stores queue self e file) as L.
  destruct (_processing_loop (list string) App.on_new_transcript queue self e file)
    as [[s e1] file1].
  destruct L as (sub1 & new1 & L1 & L2 & L3 & L4).
  unfold stop_recording.
  destruct (negb (Qle_bool _ 1)).
  - match goal with
    | |- context [_transcribe_buffer _ _ ?p e1 file1] =>
        pose proof (transcribe_buffer_stores p e1 file1) as T;
        destruct (_transcribe_buffer (list string) App.on_new_transcript p e1 file1)
          as [[s2 e2] file2]
    end.
    destruct T as (T1 & new2 & T2 & T3 & T4).
    eexists (sub1 ++ [_])%list, (new1 ++ new2)%list.
    rewrite T1, L1, T2, L2, <- !app_assoc, !length_app.
    repeat split; try reflexivity; [simpl; lia|apply Forall_app; split; assumption].
  - exists sub1, new1. repeat split; assumption.
Qed.

End StoredSegmentsClaims.

Section CallbackFacts.
Import Py Grok Common Spec Extra.

Variable json_loads : string -> loads_result.
Variable nonzero : string -> bool.

Lemma split_trailing_space (a : string) : split (a ++ " ") = split a.
Proof.
  change (a ++ " ") with (a ++ " " ++ EmptyString).
  rewrite split_space. apply app_nil_r.
Qed.

(** Words are counted alike whether a text grows by [+= text + " "] or the
    segments are counted one by one. *)
Lemma count_words_spaced (acc text : string) :
  (acc = EmptyString \/ exists head, acc = head ++ " ") ->
  count_words (acc ++ text ++ " ") = count_words acc + count_words text.
Proof.
  unfold count_words. intros [->|(head & ->)].
  - cbn [append]. rewrite split_trailing_space. reflexivity.
  - rewrite string_app_assoc, split_space, !split_trailing_space, length_app.
    lia.
Qed.

Lemma on_transcript_in_tune (text : string) (elapsed : Z)
  (self : Terminal.MeetingAnalyzerTerminal) (w : world) :
  in_tune self ->
  let '(self1, _, _) := Terminal.on_transcript json_loads nonzero text elapsed self w in
  in_tune self1 /\
  Terminal.transcripts self1 = (Terminal.transcripts self ++ [text])%list /\
  Terminal.full_text self1 = Terminal.full_text self ++ text ++ " ".
Proof.
  intros (Hend & s & Hs & Hl & Hw). unfold Terminal.on_transcript. rewrite Hs.
  pose proof (add_transcript_effect json_loads text elapsed s w) as E. cbv zeta in E.
  destruct (Summarizer.add_transcript json_loads text elapsed s w) as [[r s1] w1].
  destruct E as (E1 & E2 & _).
  split; [|split; reflexivity].
  split.
  - right. exists (Terminal.full_text self ++ text).
    cbn [Terminal.full_text]. rewrite string_app_assoc. reflexivity.
  - exists s1. cbn [Terminal.summarizer Terminal.transcripts Terminal.full_text].
    split; [reflexivity|]. split.
    + rewrite E1, Hl. reflexivity.
    + rewrite E2, Hw. symmetry. apply count_words_spaced. exact Hend.
Qed.

Lemma feed_in_tune (calls : list (string * Z))
  (self : Terminal.MeetingAnalyzerTerminal) (w : world) :
  in_tune self ->
  let '(self1, _) := Terminal.feed json_loads nonzero calls self w in
  in_tune self1 /\
  Terminal.transcripts self1 = (Terminal.transcripts self ++ map fst calls)%list /\
  Terminal.full_text self1
  = fold_left (fun acc text => acc ++ text ++ " ") (map fst calls) (Terminal.full_text self).
Proof.
  revert self w. induction calls as [|[text t] rest IH]; intros self w H.
  - simpl. rewrite app_nil_r. repeat split; try reflexivity; apply H.
  - cbn [Terminal.feed].
    pose proof (on_transcript_in_tune text t self w H) as S.
    destruct (Terminal.on_transcript json_loads nonzero text t self w) as [[self1 w1] b].
    destruct S as (S1 & S2 & S3).
    specialize (IH self1 w1 S1).
    destruct (Terminal.feed json_loads nonzero rest self1 w1) as [self2 w2].
    destruct IH as (I1 & I2 & I3).
    split; [exact I1|]. split.
    + rewrite I2, S2, <- app_assoc. reflexivity.
    + rewrite I3, S3. reflexivity.
Qed.

End CallbackFacts.

Section CallbackClaims.
Import Py Grok Common Spec Extra.

(** X17. In [terminal_meeting_analyzer.py] the callback keeps the terminal
    and its summarizer in step: after any calls of [on_transcript] since
    [start_recording], whether or not printing raised in some of them, the
    terminal holds the segments in order, its text is the segments each
    followed by a space, the summarizer's ledger is the terminal's list of
    segments, and the word count that [stop_recording] prints,
    [len(self.full_text.split())], is the summarizer's word count. *)
Theorem terminal_and_summarizer_agree :
  forall (json_loads : string -> loads_result) (nonzero : string -> bool) calls w,
  let '(self, _) := Terminal.feed json_loads nonzero calls Terminal.start_recording w in
  Terminal.transcripts self = map fst calls /\
  Terminal.full_text self
  = fold_left (fun acc text => acc ++ text ++ " ") (map fst calls) EmptyString /\
  exists s,
    Terminal.summarizer self = Some s /\
    Summarizer.full_transcript s = Terminal.transcripts self /\
    Summarizer.word_count s = count_words (Terminal.full_text self) /\
    Summarizer.word_count s = total_words calls.
Proof.
  intros json_loads nonzero calls w.
  assert (H0 : in_tune Terminal.start_recording).
  { split; [left; reflexivity|]. exists Summarizer.__init__. repeat split; reflexivity. }
  pose proof (feed_in_tune json_loads nonzero calls Terminal.start_recording w H0) as F.
  destruct (Terminal.feed json_loads nonzero calls Terminal.start_recording w)
    as [self w'].
  destruct F as ((_ & s & F1 & F2 & F3) & F4 & F5). simpl in F4, F5.
  split; [exact F4|]. split; [exact F5|].
  exists s. split; [exact F1|]. split; [exact F2|]. split; [exact F3|].
  rewrite F3, F5. clear.
  assert (G : forall texts acc,
             (acc = EmptyString \/ exists head, acc = head ++ " ") ->
             count_words (fold_left (fun acc text => acc ++ text ++ " ") texts acc)
             = count_words acc + sum (map count_words texts)).
  { induction texts as [|text texts IH]; intros acc Hacc; simpl.
    - lia.
    - rewrite IH.
      + rewrite (count_words_spaced acc text Hacc). lia.
      + right. exists (acc ++ text). rewrite string_app_assoc. reflexivity. }
  rewrite (G (map fst calls) EmptyString) by (left; reflexivity).
  unfold total_words. rewrite map_map. reflexivity.
Qed.



End CallbackClaims.

Section HistorySessionFacts.
Import Py Grok Common Summarizer2 Spec Extra.

Variable json_loads : string -> loads_result.





End HistorySessionFacts.

Section HistorySessionClaims.
Import Py Grok Common Summarizer2 Spec Extra.


End HistorySessionClaims.
